(** * Herbario digital IFN: package-state derivation and statistics

    Shallow embedding of the logic of two Express services:

    - [Servicios/Gest_Herb_service/src/app.js]: the classification
      state endpoints and [actualizarEstadoPaqueteManual], the recompute
      of a package's state from the classification states of its samples;
      the endpoints that read and edit the classification of a sample;
    - [Servicios/Lab_Service/src/app.js]: [GET /estadisticas] and
      [GET /estadisticas/taxonomia]; the priority, difficulty and
      confidence of [GET /muestras/pendientes] and [POST /clasificaciones];
    - [Servicios/Lab_Service/src/dto.js]: [validateFiltrosMuestras].

    JavaScript strings are modelled as [string] holding their UTF-8
    encoding, numbers that are counts as [nat], identifiers as [Z], and
    the double arithmetic of the percentages with the binary64 operations
    of [SpecFloat]. *)

From Stdlib Require Import ZArith List String Ascii Bool Arith Lia.
From Stdlib Require Import Sorted Permutation.
From Stdlib Require Import Floats.SpecFloat.
Import ListNotations.

Local Open Scope string_scope.
Local Open Scope nat_scope.
Local Open Scope list_scope.

(* ================================================================== *)
(** * JavaScript helpers *)
(* ================================================================== *)

Module Js.

(** Truthiness of a string: only the empty string is falsy. *)
Definition truthy (s : string) : bool :=
  match s with
  | EmptyString => false
  | String _ _ => true
  end.

(** [Array.prototype.includes] on an array of strings. *)
Definition includes (l : list string) (s : string) : bool :=
  existsb (String.eqb s) l.

(** ** White space

    [String.prototype.trim] and the regular expression class [\s] use the
    same set: TAB, LF, VT, FF, CR, SP, U+00A0, U+1680, U+2000..U+200A,
    U+2028, U+2029, U+202F, U+205F, U+3000 and U+FEFF.  [trimStart] reads
    that set off the UTF-8 encoding. *)

Definition ascii_ws (c : ascii) : bool :=
  let n := nat_of_ascii c in
  ((9 <=? n) && (n <=? 13)) || (n =? 32).

Definition e2_80_ws (c : ascii) : bool :=
  let n := nat_of_ascii c in
  ((128 <=? n) && (n <=? 138)) || (n =? 168) || (n =? 169) || (n =? 175).

Fixpoint trimStart (s : string) : string :=
  match s with
  | EmptyString => EmptyString
  | String c s1 =>
      if ascii_ws c then trimStart s1
      else
        match nat_of_ascii c, s1 with
        | 194, String c1 s2 =>
            if nat_of_ascii c1 =? 160 then trimStart s2 else s
        | 225, String c1 (String c2 s3) =>
            if (nat_of_ascii c1 =? 154) && (nat_of_ascii c2 =? 128)
            then trimStart s3 else s
        | 226, String c1 (String c2 s3) =>
            if ((nat_of_ascii c1 =? 128) && e2_80_ws c2)
               || ((nat_of_ascii c1 =? 129) && (nat_of_ascii c2 =? 159))
            then trimStart s3 else s
        | 227, String c1 (String c2 s3) =>
            if (nat_of_ascii c1 =? 128) && (nat_of_ascii c2 =? 128)
            then trimStart s3 else s
        | 239, String c1 (String c2 s3) =>
            if (nat_of_ascii c1 =? 187) && (nat_of_ascii c2 =? 191)
            then trimStart s3 else s
        | _, _ => s
        end
  end.

(** A string made of white space only. *)
Definition blank (s : string) : bool :=
  match trimStart s with
  | EmptyString => true
  | String _ _ => false
  end.

(** No white-space character starts with a continuation byte, so the
    first suffix that is blank starts on a character boundary. *)
Fixpoint trimEnd (s : string) : string :=
  match s with
  | EmptyString => EmptyString
  | String c s1 => if blank s then EmptyString else String c (trimEnd s1)
  end.

Definition trim (s : string) : string := trimEnd (trimStart s).

(** ** Doubles

    [count / total * 100] is computed in binary64; [Math.round] and
    [toFixed(1)] then read the exact value of the resulting double. *)

Local Open Scope Z_scope.

Definition prec : Z := 53.
Definition emax : Z := 1024.

Definition of_nat (n : nat) : spec_float :=
  match Z.of_nat n with
  | Zpos p => binary_normalize prec emax (Zpos p) 0 false
  | _ => S754_zero false
  end.

Definition div (x y : spec_float) : spec_float := SFdiv prec emax x y.
Definition mul (x y : spec_float) : spec_float := SFmul prec emax x y.

(** [(count / total) * 100] *)
Definition ratio100 (count total : nat) : spec_float :=
  mul (div (of_nat count) (of_nat total)) (of_nat 100).

(** [floor (v * 2^e * k + 1/2)] for the finite double [v * 2^e]. *)
Definition round_scaled (k : Z) (x : spec_float) : Z :=
  match x with
  | S754_finite s m e =>
      let v := if s then Zneg m else Zpos m in
      if 0 <=? e then k * v * 2 ^ e
      else (2 * k * v + 2 ^ (- e)) / 2 ^ (- e + 1)
  | _ => 0
  end.

(** [Math.round(x)]: the nearest integer, ties towards plus infinity. *)
Definition Math_round (x : spec_float) : Z := round_scaled 1 x.

(** [parseFloat(x.toFixed(1))], kept as a number of tenths. *)
Definition toFixed1_tenths (x : spec_float) : Z := round_scaled 10 x.

(** ** [parseInt(s, 10)]

    Leading white space is skipped, a sign is read, then the longest
    prefix of decimal digits; the value is rounded to a double. *)

Inductive Numero : Type :=
| NaN
| Infinito
| Entero (z : Z).

Definition digit (c : ascii) : option Z :=
  let n := nat_of_ascii c in
  if ((48 <=? n) && (n <=? 57))%nat then Some (Z.of_nat n - 48) else None.

Fixpoint digits (s : string) (acc : option Z) : option Z :=
  match s with
  | EmptyString => acc
  | String c s1 =>
      match digit c with
      | Some d =>
          digits s1 (Some (10 * match acc with Some a => a | None => 0 end + d))
      | None => acc
      end
  end.

Definition to_double (z : Z) : Numero :=
  match binary_normalize prec emax z 0 false with
  | S754_zero _ => Entero 0
  | S754_finite sg m e => Entero (Z.shiftl (if sg then Zneg m else Zpos m) e)
  | _ => Infinito
  end.

Definition parseInt10 (s : string) : Numero :=
  let t := trimStart s in
  let '(negative, rest) :=
    match t with
    | String c r =>
        if (nat_of_ascii c =? 45)%nat then (true, r)
        else if (nat_of_ascii c =? 43)%nat then (false, r)
        else (false, t)
    | EmptyString => (false, t)
    end in
  match digits rest None with
  | Some v => to_double (if negative then - v else v)
  | None => NaN
  end.

End Js.

(* ================================================================== *)
(** * Answers of the Supabase client *)
(* ================================================================== *)

Module Supabase.

Record PgError : Type := { pg_code : string; pg_message : string }.

Record Reply (A : Type) : Type := {
  data : option A;
  error : option PgError
}.
Arguments data {A} _.
Arguments error {A} _.

Definition ok {A : Type} (a : A) : Reply A :=
  {| data := Some a; error := None |}.

Definition done {A : Type} : Reply A :=
  {| data := None; error := None |}.

Definition failed {A : Type} (e : PgError) : Reply A :=
  {| data := None; error := Some e |}.

End Supabase.

(* ================================================================== *)
(** * Gest_Herb_service: package state from classification states *)
(* ================================================================== *)

Module GestHerb.
Import Supabase.

(** A row of
    [from('muestra_botanica').select('id, clasificacion_herbario!left(estado)')]:
    the sample and the [estado] of each embedded classification row
    ([None] when the embedded field is [null]). *)
Record MuestraConClasificaciones : Type := {
  mcc_id : Z;
  mcc_clasificacion_herbario : option (list string)
}.

Definition estados_completados : list string :=
  ["completado"; "firmado"; "clasificado"].

Definition estados_en_proceso : list string :=
  ["en_analisis"; "borrador"].

(** The body of the [forEach] of [actualizarEstadoPaqueteManual], on the
    two counters [(completadas, enProceso)]. *)
Definition contar_muestra (acc : nat * nat) (muestra : MuestraConClasificaciones)
  : nat * nat :=
  let '(completadas, enProceso) := acc in
  match mcc_clasificacion_herbario muestra with
  | Some (estado :: _) =>
      if Js.includes estados_completados estado then (S completadas, enProceso)
      else if Js.includes estados_en_proceso estado then (completadas, S enProceso)
      else (completadas, enProceso)
  | _ => (completadas, enProceso)
  end.

Definition contar (muestras : list MuestraConClasificaciones) : nat * nat :=
  fold_left contar_muestra muestras (0, 0)%nat.

(** [nuevoEstado] as [actualizarEstadoPaqueteManual] decides it. *)
Definition nuevoEstado (muestras : list MuestraConClasificaciones) : string :=
  let totalMuestras := List.length muestras in
  let '(completadas, enProceso) := contar muestras in
  if (0 <? totalMuestras)%nat && (completadas =? totalMuestras)%nat then "completo"
  else if (0 <? enProceso)%nat then "en_proceso"
  else "recibido".

(** ** The counts in the words of the specification *)

(** The classification state of a sample, if it has a record. *)
Definition estado_de (m : MuestraConClasificaciones) : option string :=
  match mcc_clasificacion_herbario m with
  | Some (estado :: _) => Some estado
  | _ => None
  end.

Definition es_completada (m : MuestraConClasificaciones) : bool :=
  match estado_de m with
  | Some e => Js.includes estados_completados e
  | None => false
  end.

Definition es_en_proceso (m : MuestraConClasificaciones) : bool :=
  match estado_de m with
  | Some e => Js.includes estados_en_proceso e
  | None => false
  end.

Definition total (ms : list MuestraConClasificaciones) : nat := List.length ms.

Definition completed (ms : list MuestraConClasificaciones) : nat :=
  List.length (filter es_completada ms).

Definition inProgress (ms : list MuestraConClasificaciones) : nat :=
  List.length (filter es_en_proceso ms).

(** ** The data store

    The three tables the service touches, as the Supabase client shows
    them.  Every call to the client consumes one entry of a fault
    schedule: the call answers from the tables, answers with
    [{ data: null, error }], or throws. *)

Record MuestraRow : Type := {
  muestra_id : Z;
  muestra_id_paquete : option Z
}.

Record ClasificacionRow : Type := {
  clasif_id : Z;
  clasif_id_muestra : Z;
  clasif_estado : string;
  clasif_id_especie : option Z;
  clasif_estado_reproductivo : option string
}.

Record PaqueteRow : Type := {
  paquete_id : Z;
  paquete_estado : string
}.

Record DB : Type := {
  muestra_botanica : list MuestraRow;
  clasificacion_herbario : list ClasificacionRow;
  paquete : list PaqueteRow
}.

(** The mutating requests the service sends to the store.  The last two
    send the body of the HTTP request as it came: [update(req.body)] for
    one identifier and [insert({ ...req.body, id_muestra })]. *)
Inductive Write : Type :=
| UpdatePaquete (id : Z) (estado : string)
| UpdateClasificacion (id : Z) (estado : string)
| UpdateClasificacionParam (id : string) (estado : string)
| InsertClasificacion (id_muestra : Js.Numero) (estado : string)
    (id_especie : option Z) (estado_reproductivo : option string)
| UpdateClasificacionCuerpo (id : Z)
| InsertClasificacionCuerpo (id_muestra : Js.Numero).

Inductive Fault : Type :=
| NoFault
| ReplyError (e : PgError)
| Throw (message : string).

Inductive Level : Type := LDebug | LInfo | LWarn | LError.

Record World : Type := {
  db : DB;
  faults : list Fault;
  log : list (Level * string);
  writes : list Write
}.

(** ** Async functions as a state and exception monad *)

Inductive Result (A : Type) : Type :=
| Val (a : A)
| Exc (message : string).
Arguments Val {A} _.
Arguments Exc {A} _.

Definition M (A : Type) : Type := World -> Result A * World.

Definition ret {A : Type} (a : A) : M A := fun w => (Val a, w).

Definition bind {A B : Type} (m : M A) (k : A -> M B) : M B :=
  fun w =>
    match m w with
    | (Val a, w') => k a w'
    | (Exc e, w') => (Exc e, w')
    end.

Notation "x <- m ;; k" := (bind m (fun x => k))
  (at level 61, m at next level, right associativity).
Notation "m ;;; k" := (bind m (fun _ => k))
  (at level 61, right associativity).

Definition throw {A : Type} (message : string) : M A :=
  fun w => (Exc message, w).

(** [try { m } catch (err) { h err.message }] *)
Definition try_catch {A : Type} (m : M A) (h : string -> M A) : M A :=
  fun w =>
    match m w with
    | (Val a, w') => (Val a, w')
    | (Exc e, w') => h e w'
    end.

Definition logger (l : Level) (message : string) : M unit :=
  fun w =>
    (Val tt,
     {| db := db w; faults := faults w;
        log := log w ++ [(l, message)]; writes := writes w |}).

(** One call to the Supabase client: [request] is the mutating request
    it sends, if any, and [op] its effect and answer on the tables. *)
Definition call {A : Type} (request : list Write) (op : DB -> Reply A * DB)
  : M (Reply A) :=
  fun w =>
    let sent := writes w ++ request in
    match faults w with
    | ReplyError e :: fs =>
        (Val (failed e),
         {| db := db w; faults := fs; log := log w; writes := sent |})
    | Throw message :: fs =>
        (Exc message,
         {| db := db w; faults := fs; log := log w; writes := sent |})
    | fs =>
        let '(r, d) := op (db w) in
        (Val r, {| db := d; faults := tl fs; log := log w; writes := sent |})
    end.

(** ** Queries *)

Local Open Scope Z_scope.

Definition PGRST116 : PgError :=
  {| pg_code := "PGRST116";
     pg_message := "JSON object requested, multiple (or no) rows returned" |}.

(** An identifier the store cannot read as an integer. *)
Definition PG22P02 : PgError :=
  {| pg_code := "22P02";
     pg_message := "invalid input syntax for type bigint" |}.

(** [.single()]: exactly one row, or the error PGRST116. *)
Definition single {A : Type} (rows : list A) : Reply A :=
  match rows with
  | [r] => ok r
  | _ => failed PGRST116
  end.

Definition set_paquete (d : DB) (ps : list PaqueteRow) : DB :=
  {| muestra_botanica := muestra_botanica d;
     clasificacion_herbario := clasificacion_herbario d;
     paquete := ps |}.

Definition set_clasificacion (d : DB) (cs : list ClasificacionRow) : DB :=
  {| muestra_botanica := muestra_botanica d;
     clasificacion_herbario := cs;
     paquete := paquete d |}.

Definition con_estado (estado : string) (c : ClasificacionRow)
  : ClasificacionRow :=
  {| clasif_id := clasif_id c;
     clasif_id_muestra := clasif_id_muestra c;
     clasif_estado := estado;
     clasif_id_especie := clasif_id_especie c;
     clasif_estado_reproductivo := clasif_estado_reproductivo c |}.

(** [from('muestra_botanica').select('id_paquete').eq('id', idMuestra).single()] *)
Definition select_paquete_de_muestra (idMuestra : Z) : M (Reply MuestraRow) :=
  call []
    (fun d =>
       (single (filter (fun m => muestra_id m =? idMuestra) (muestra_botanica d)),
        d)).

Definition en_paquete (idPaquete : Z) (m : MuestraRow) : bool :=
  match muestra_id_paquete m with
  | Some p => p =? idPaquete
  | None => false
  end.

(** The left join [clasificacion_herbario!left(estado)] of one sample. *)
Definition con_clasificaciones (d : DB) (m : MuestraRow)
  : MuestraConClasificaciones :=
  {| mcc_id := muestra_id m;
     mcc_clasificacion_herbario :=
       Some (map clasif_estado
               (filter (fun c => clasif_id_muestra c =? muestra_id m)
                  (clasificacion_herbario d))) |}.

(** [from('muestra_botanica').select('id, clasificacion_herbario!left(estado)')
      .eq('id_paquete', idPaquete)] *)
Definition select_muestras_de_paquete (idPaquete : Z)
  : M (Reply (list MuestraConClasificaciones)) :=
  call []
    (fun d =>
       (ok (map (con_clasificaciones d)
              (filter (en_paquete idPaquete) (muestra_botanica d))),
        d)).

(** [from('paquete').update({ estado: nuevoEstado }).eq('id', idPaquete)] *)
Definition update_paquete (idPaquete : Z) (estado : string) : M (Reply unit) :=
  call [UpdatePaquete idPaquete estado]
    (fun d =>
       (done,
        set_paquete d
          (map (fun p =>
                  if paquete_id p =? idPaquete
                  then {| paquete_id := paquete_id p; paquete_estado := estado |}
                  else p)
             (paquete d)))).

(** ** [actualizarEstadoPaqueteManual] *)

(** The package of the sample, when
    [errorMuestra || !muestra || !muestra.id_paquete] is false. *)
Definition paquete_de (r : Reply MuestraRow) : option Z :=
  match error r, data r with
  | None, Some muestra =>
      match muestra_id_paquete muestra with
      | Some idPaquete => if idPaquete =? 0 then None else Some idPaquete
      | None => None
      end
  | _, _ => None
  end.

Definition actualizarEstadoPaqueteManual (idMuestra : Z) : M unit :=
  try_catch
    (r <- select_paquete_de_muestra idMuestra ;;
     match paquete_de r with
     | None => logger LDebug "Muestra sin paquete o no encontrada"
     | Some idPaquete =>
         rs <- select_muestras_de_paquete idPaquete ;;
         match error rs, data rs with
         | None, Some muestrasConClasificaciones =>
             ru <- update_paquete idPaquete
                     (nuevoEstado muestrasConClasificaciones) ;;
             match error ru with
             | Some _ => logger LWarn "Error actualizando paquete:"
             | None => logger LDebug "Paquete actualizado"
             end
         | _, _ => logger LWarn "Error obteniendo muestras:"
         end
     end)
    (fun _ => logger LWarn "Error en actualizarEstadoPaqueteManual:").

(** [promise.catch(err => logger.warn(...))]: the call is not awaited and
    its rejection is handled where it is made. *)
Definition background (m : M unit) : M unit :=
  try_catch m
    (fun _ => logger LWarn "Error en actualización de paquete (background):").

(** ** The classification state endpoints *)

Inductive Body : Type :=
| BError (error : string) (details : option string)
| BEstado (id : Z) (estado : string) (message : string)
| BEstadoParam (id : string) (estado : string) (message : string).

Record Response : Type := { status : Z; body : Body }.

(** [res.status(n).json(b)]; [res.json(b)] answers 200.  [log] holds the
    calls the handlers and the recompute make to the logger themselves;
    the two lines [logger.expressMiddleware] writes around every request
    (the request at [info], the answer at [info] or, from status 400
    on, at [error]) are not part of it. *)
Definition json (n : Z) (b : Body) : M Response :=
  ret {| status := n; body := b |}.

(** The value of [estado] when [!estado] is false.  The body field is
    absent ([None]) or a string. *)
Definition requerido (estado : option string) : option string :=
  match estado with
  | Some s => if Js.truthy s then Some s else None
  | None => None
  end.

(** [from('clasificacion_herbario').select('id, estado, id_muestra')
      .eq('id_muestra', idMuestraNum).single()] *)
Definition find_clasificacion_de_muestra (idMuestraNum : Js.Numero)
  : M (Reply ClasificacionRow) :=
  call []
    (fun d =>
       match idMuestraNum with
       | Js.Entero n =>
           (single (filter (fun c => clasif_id_muestra c =? n)
                      (clasificacion_herbario d)), d)
       | _ => (failed PG22P02, d)
       end).

(** [from('clasificacion_herbario').update({ estado }).eq('id', id)
      .select('id, id_muestra').single()] *)
Definition update_estado_select (id : Z) (estado : string)
  : M (Reply ClasificacionRow) :=
  call [UpdateClasificacion id estado]
    (fun d =>
       let cs :=
         map (fun c => if clasif_id c =? id then con_estado estado c else c)
           (clasificacion_herbario d) in
       (single (filter (fun c => clasif_id c =? id) cs),
        set_clasificacion d cs)).

(** The identifier the store gives to the next classification row. *)
Definition nuevo_id (d : DB) : Z :=
  1 + fold_right Z.max 0 (map clasif_id (clasificacion_herbario d)).

(** [from('clasificacion_herbario')
      .insert({ id_muestra, estado, id_especie: null, estado_reproductivo: null })
      .select('id, id_muestra').single()] *)
Definition insert_clasificacion (idMuestraNum : Js.Numero) (estado : string)
  : M (Reply ClasificacionRow) :=
  call [InsertClasificacion idMuestraNum estado None None]
    (fun d =>
       match idMuestraNum with
       | Js.Entero n =>
           let row :=
             {| clasif_id := nuevo_id d;
                clasif_id_muestra := n;
                clasif_estado := estado;
                clasif_id_especie := None;
                clasif_estado_reproductivo := None |} in
           (ok row, set_clasificacion d (clasificacion_herbario d ++ [row]))
       | _ => (failed PG22P02, d)
       end).

(** [findError && findError.code !== 'PGRST116'] *)
Definition find_failed (r : Reply ClasificacionRow) : bool :=
  match error r with
  | Some e => negb (pg_code e =? "PGRST116")%string
  | None => false
  end.

(** [app.put('/clasificaciones/:idMuestra/estado', ...)] *)
Definition put_estado_muestra (idMuestra : string) (estado : option string)
  : M Response :=
  try_catch
    (match Js.parseInt10 idMuestra with
     | Js.NaN => json 400 (BError "ID de muestra inválido" None)
     | idMuestraNum =>
         match requerido estado with
         | None => json 400 (BError "Estado es requerido" None)
         | Some estado =>
             logger LInfo "Actualizando estado de muestra" ;;;
             found <- find_clasificacion_de_muestra idMuestraNum ;;
             if find_failed found then
               logger LError "Error buscando clasificación:" ;;;
               json 500 (BError "Error buscando clasificación"
                           (option_map pg_message (error found)))
             else
               match data found with
               | Some existing =>
                   logger LInfo "Clasificación existente encontrada" ;;;
                   r <- update_estado_select (clasif_id existing) estado ;;
                   match error r, data r with
                   | Some e, _ =>
                       logger LError "Error actualizando estado:" ;;;
                       json 500 (BError "Error actualizando estado"
                                   (Some (pg_message e)))
                   | None, None => throw "TypeError"
                   | None, Some row =>
                       background
                         (actualizarEstadoPaqueteManual (clasif_id_muestra row)) ;;;
                       logger LInfo "Estado actualizado correctamente" ;;;
                       json 200 (BEstado (clasif_id row) estado "Estado actualizado")
                   end
               | None =>
                   logger LInfo "No existe clasificación previa. Creando nueva" ;;;
                   r <- insert_clasificacion idMuestraNum estado ;;
                   match error r, data r with
                   | Some e, _ =>
                       logger LError "Error creando clasificación con estado:" ;;;
                       json 500 (BError "Error creando clasificación"
                                   (Some (pg_message e)))
                   | None, None => throw "TypeError"
                   | None, Some row =>
                       background
                         (actualizarEstadoPaqueteManual (clasif_id_muestra row)) ;;;
                       logger LInfo "Clasificación creada correctamente" ;;;
                       json 201 (BEstado (clasif_id row) estado "Clasificación creada")
                   end
               end
         end
     end)
    (fun message =>
       logger LError "Error en PUT /clasificaciones/:idMuestra/estado:" ;;;
       json 500 (BError "Error interno del servidor" (Some message))).

(** The store reads the route parameter [id] as a [bigint]: an optional
    sign and decimal digits, within 64 bits. *)
Fixpoint all_digits (s : string) : bool :=
  match s with
  | EmptyString => true
  | String c s1 =>
      match Js.digit c with
      | Some _ => all_digits s1
      | None => false
      end
  end.

Definition pg_bigint (s : string) : option Z :=
  let '(negative, rest) :=
    match s with
    | String c r =>
        if (nat_of_ascii c =? 45)%nat then (true, r)
        else if (nat_of_ascii c =? 43)%nat then (false, r)
        else (false, s)
    | EmptyString => (false, s)
    end in
  if all_digits rest then
    match Js.digits rest None with
    | Some v =>
        let n := if negative then - v else v in
        if (- 2 ^ 63 <=? n) && (n <? 2 ^ 63) then Some n else None
    | None => None
    end
  else None.

(** [from('clasificacion_herbario').update({ estado }).eq('id', id)] *)
Definition update_estado_param (id : string) (estado : string)
  : M (Reply unit) :=
  call [UpdateClasificacionParam id estado]
    (fun d =>
       match pg_bigint id with
       | Some n =>
           (done,
            set_clasificacion d
              (map (fun c => if clasif_id c =? n then con_estado estado c else c)
                 (clasificacion_herbario d)))
       | None => (failed PG22P02, d)
       end).

(** [from('clasificacion_herbario').select('id_muestra').eq('id', id).single()] *)
Definition select_muestra_de_clasificacion (id : string)
  : M (Reply ClasificacionRow) :=
  call []
    (fun d =>
       match pg_bigint id with
       | Some n =>
           (single (filter (fun c => clasif_id c =? n) (clasificacion_herbario d)),
            d)
       | None => (failed PG22P02, d)
       end).

(** [app.put('/clasificaciones/id/:id/estado', ...)] *)
Definition put_estado_id (id : string) (estado : option string) : M Response :=
  try_catch
    (match requerido estado with
     | None => json 400 (BError "Estado es requerido" None)
     | Some estado =>
         logger LDebug "Actualizando clasificación" ;;;
         r <- update_estado_param id estado ;;
         match error r with
         | Some e =>
             logger LError "Error actualizando clasificación:" ;;;
             json 500 (BError "Error actualizando clasificación"
                         (Some (pg_message e)))
         | None =>
             found <- select_muestra_de_clasificacion id ;;
             match data found with
             | Some clasificacion =>
                 if clasif_id_muestra clasificacion =? 0 then ret tt
                 else
                   background
                     (actualizarEstadoPaqueteManual
                        (clasif_id_muestra clasificacion))
             | None => ret tt
             end ;;;
             logger LDebug "Clasificación actualizada" ;;;
             json 200 (BEstadoParam id estado "Estado actualizado")
         end
     end)
    (fun message =>
       logger LError "Error en PUT /clasificaciones/id/:id/estado:" ;;;
       json 500 (BError "Error interno del servidor" (Some message))).

(** ** Predicates and scenarios of the statements *)

(** The sample has a classification record in state [e]. *)
Definition tiene_estado (e : string) (m : MuestraConClasificaciones) : bool :=
  match estado_de m with
  | Some x => (x =? e)%string
  | None => false
  end.

(** The sample has no classification record. *)
Definition sin_clasificacion (m : MuestraConClasificaciones) : bool :=
  match estado_de m with
  | Some _ => false
  | None => true
  end.

(** Three samples: two [completado], one without a record. *)
Definition tres_muestras : list MuestraConClasificaciones :=
  [ {| mcc_id := 1; mcc_clasificacion_herbario := Some ["completado"] |};
    {| mcc_id := 2; mcc_clasificacion_herbario := Some ["completado"] |};
    {| mcc_id := 3; mcc_clasificacion_herbario := Some [] |} ].

(** The log entries a run of the recompute ends with: the entry of
    success, the line for a sample that resolves to no package, and the
    three warnings of a failure. *)
Definition entrada_exito : Level * string := (LDebug, "Paquete actualizado").

Definition entrada_sin_paquete : Level * string :=
  (LDebug, "Muestra sin paquete o no encontrada").

Definition entradas_fallo : list (Level * string) :=
  [ (LWarn, "Error obteniendo muestras:");
    (LWarn, "Error actualizando paquete:");
    (LWarn, "Error en actualizarEstadoPaqueteManual:") ].

(** The sample whose package is recomputed cannot be resolved to a
    package: the lookup fails, no row has the identifier, or the row has
    no package. *)
Definition sin_paquete (idMuestra : Z) (w : World) : Prop :=
  hd NoFault (faults w) <> NoFault
  \/ (forall m, In m (muestra_botanica (db w)) -> muestra_id m <> idMuestra)
  \/ (exists m,
        filter (fun m => (muestra_id m =? idMuestra)%Z)
          (muestra_botanica (db w)) = [m]
        /\ muestra_id_paquete m = None).

(** A store without samples. *)
Definition mundo_sin_muestra : World :=
  {| db := {| muestra_botanica := [];
              clasificacion_herbario := [];
              paquete := [ {| paquete_id := 7; paquete_estado := "completo" |} ] |};
     faults := []; log := []; writes := [] |}.

(** A package stored as [recibido] whose only sample has no
    classification record. *)
Definition mundo_recibido : World :=
  {| db := {| muestra_botanica :=
                [ {| muestra_id := 1; muestra_id_paquete := Some 7%Z |} ];
              clasificacion_herbario := [];
              paquete := [ {| paquete_id := 7; paquete_estado := "recibido" |} ] |};
     faults := []; log := []; writes := [] |}.

(** The world [w] under another fault schedule. *)
Definition con_fallos (w : World) (fs : list Fault) : World :=
  {| db := db w; faults := fs; log := log w; writes := writes w |}.

(** A classification in [borrador] for the only sample of package 7. *)
Definition mundo_borrador : World :=
  {| db := {| muestra_botanica :=
                [ {| muestra_id := 1; muestra_id_paquete := Some 7%Z |} ];
              clasificacion_herbario :=
                [ {| clasif_id := 10; clasif_id_muestra := 1;
                     clasif_estado := "borrador";
                     clasif_id_especie := None;
                     clasif_estado_reproductivo := None |} ];
              paquete := [ {| paquete_id := 7; paquete_estado := "recibido" |} ] |};
     faults := []; log := []; writes := [] |}.

(** A sample that belongs to no package. *)
Definition mundo_muestra_suelta : World :=
  {| db := {| muestra_botanica :=
                [ {| muestra_id := 1; muestra_id_paquete := None |} ];
              clasificacion_herbario := [];
              paquete := [ {| paquete_id := 7; paquete_estado := "recibido" |} ] |};
     faults := []; log := []; writes := [] |}.

(** An error the store answers a query with. *)
Definition error_de_consulta : PgError :=
  {| pg_code := "57014";
     pg_message := "canceling statement due to statement timeout" |}.


End GestHerb.

(* ================================================================== *)
(** * Lab_Service: statistics *)
(* ================================================================== *)

Module LabService.
Import Supabase.

(** ** Rows, as the two endpoints select them *)

Record Region : Type := { region_nombre : string }.

Record Departamento : Type := {
  departamento_nombre : string;
  departamento_region : option Region
}.

Record Municipio : Type := { municipio_departamento : option Departamento }.

Record Conglomerado : Type := { conglomerado_municipio : option Municipio }.

Record Paquete : Type := { paquete_conglomerado : option Conglomerado }.

Record Familia : Type := { familia_nombre : string }.

Record Genero : Type := {
  genero_nombre : string;
  genero_familia : option Familia
}.

Record Especie : Type := {
  especie_nombre : string;
  especie_tipo_amenaza : option string;
  especie_genero : option Genero
}.

Record Clasificacion : Type := {
  clasificacion_id_muestra : Z;
  clasificacion_id_especie : option Z;
  clasificacion_estado : string;
  clasificacion_especie : option Especie
}.

Record Muestra : Type := {
  muestra_id : Z;
  muestra_paquete : option Paquete
}.

(** [muestra.paquete?.conglomerado?.municipio?.departamento] *)
Definition departamento_de (paquete : option Paquete) : option Departamento :=
  match paquete with
  | Some p =>
      match paquete_conglomerado p with
      | Some c =>
          match conglomerado_municipio c with
          | Some m => municipio_departamento m
          | None => None
          end
      | None => None
      end
  | None => None
  end.

(** [dept?.region] *)
Definition region_de (dept : option Departamento) : option Region :=
  match dept with
  | Some d => departamento_region d
  | None => None
  end.

(** ** [Map] and [Set] keyed by strings, in insertion order *)

Fixpoint get {V : Type} (k : string) (m : list (string * V)) : option V :=
  match m with
  | [] => None
  | (k', v) :: m' => if (k' =? k)%string then Some v else get k m'
  end.

Definition has {V : Type} (k : string) (m : list (string * V)) : bool :=
  match get k m with
  | Some _ => true
  | None => false
  end.

(** [if (!map.has(k)) map.set(k, v0)] *)
Definition ensure {V : Type} (k : string) (v0 : V) (m : list (string * V))
  : list (string * V) :=
  if has k m then m else m ++ [(k, v0)].

(** A mutation of the value stored under [k]. *)
Fixpoint update {V : Type} (k : string) (f : V -> V) (m : list (string * V))
  : list (string * V) :=
  match m with
  | [] => []
  | (k', v) :: m' =>
      if (k' =? k)%string then (k', f v) :: m' else (k', v) :: update k f m'
  end.

(** [set.add(x)] *)
Definition add (x : string) (s : list string) : list string :=
  if existsb (String.eqb x) s then s else s ++ [x].

(** [array.sort((a, b) => key(b) - key(a))]: stable, descending. *)
Fixpoint insert_desc {A : Type} (key : A -> nat) (x : A) (l : list A) : list A :=
  match l with
  | [] => [x]
  | y :: l' =>
      if (key x <? key y)%nat then y :: insert_desc key x l' else x :: y :: l'
  end.

Definition sort_desc {A : Type} (key : A -> nat) (l : list A) : list A :=
  fold_right (insert_desc key) [] l.

(** [total > 0 ? Math.round((count / total) * 100) : 0] *)
Definition percentage_of (count total : nat) : Z :=
  if (0 <? total)%nat then Js.Math_round (Js.ratio100 count total) else 0%Z.

(** ** [normalizarRegion] *)

Definition letter (lower upper : nat) (c : ascii) : bool :=
  let n := nat_of_ascii c in (n =? lower)%nat || (n =? upper)%nat.

(** [nombre.replace(/^Región\s+/i, '')] *)
Definition quitar_prefijo (nombre : string) : string :=
  match nombre with
  | String r (String e (String g (String i (String o1 (String o2
      (String n resto)))))) =>
      if letter 114 82 r && letter 101 69 e && letter 103 71 g
         && letter 105 73 i
         && (nat_of_ascii o1 =? 195)%nat && letter 179 147 o2
         && letter 110 78 n
         && negb (Js.trimStart resto =? resto)%string
      then Js.trimStart resto
      else nombre
  | _ => nombre
  end.

Definition normalizarRegion (nombre : option string) : option string :=
  match nombre with
  | Some s => if Js.truthy s then Some (Js.trim (quitar_prefijo s)) else None
  | None => None
  end.

(** ** [GET /estadisticas] *)

Record DeptData : Type := {
  dd_name : string;
  dd_specimens : nat;
  dd_species : list string;
  dd_region : option string
}.

Record RegionData : Type := {
  rd_name : string;
  rd_specimens : nat;
  rd_species : list string;
  rd_families : list string;
  rd_departments : list string
}.

Record DepartamentoOut : Type := {
  do_name : string;
  do_specimens : nat;
  do_species : nat;
  do_percentage : Z
}.

Record RegionOut : Type := {
  ro_name : string;
  ro_departments : nat;
  ro_specimens : nat;
  ro_species : nat;
  ro_families : nat;
  ro_percentage : Z
}.

(** [porcentaje] is kept in tenths: 333 stands for 33.3. *)
Record AmenazaOut : Type := {
  ao_categoria : string;
  ao_count : nat;
  ao_porcentaje : Z
}.

Record Resultado : Type := {
  departamentos : list DepartamentoOut;
  regiones : list RegionOut;
  total_especimenes : nat;
  total_clasificaciones : nat;
  especies_amenazadas : list AmenazaOut
}.

(** The rows [.in('estado', ['completado', 'firmado'])] selects. *)
Definition select_clasificaciones (tabla : list Clasificacion)
  : list Clasificacion :=
  filter (fun c => Js.includes ["completado"; "firmado"] (clasificacion_estado c))
    tabla.

(** [c.id_especie !== null && c.especie !== null] *)
Definition con_especie (c : Clasificacion) : bool :=
  match clasificacion_id_especie c, clasificacion_especie c with
  | Some _, Some _ => true
  | _, _ => false
  end.

Definition clasificacionesConEspecie (clasificaciones : option (list Clasificacion))
  : list Clasificacion :=
  match clasificaciones with
  | Some cs => filter con_especie cs
  | None => []
  end.

(** [muestras?.filter(m => muestrasConEspecieIds.has(m.id)) || []] *)
Definition muestrasClasificadas (muestras : option (list Muestra))
    (conEspecie : list Clasificacion) : list Muestra :=
  match muestras with
  | Some ms =>
      filter (fun m =>
                existsb (fun c => (clasificacion_id_muestra c =? muestra_id m)%Z)
                  conEspecie)
        ms
  | None => []
  end.

Definition Mapas : Type :=
  (list (string * DeptData) * list (string * RegionData))%type.

Definition mas_un_especimen_dept (d : DeptData) : DeptData :=
  {| dd_name := dd_name d; dd_specimens := S (dd_specimens d);
     dd_species := dd_species d; dd_region := dd_region d |}.

Definition mas_un_especimen_region (dept : option Departamento) (r : RegionData)
  : RegionData :=
  {| rd_name := rd_name r; rd_specimens := S (rd_specimens r);
     rd_species := rd_species r; rd_families := rd_families r;
     rd_departments :=
       match dept with
       | Some d => add (departamento_nombre d) (rd_departments r)
       | None => rd_departments r
       end |}.

(** The body of the first loop, over [muestrasClasificadas]. *)
Definition agrupar_muestra (mapas : Mapas) (muestra : Muestra) : Mapas :=
  let '(departamentosMap, regionesMap) := mapas in
  let dept := departamento_de (muestra_paquete muestra) in
  let region := region_de dept in
  let departamentosMap :=
    match dept with
    | Some d =>
        let deptNombre := departamento_nombre d in
        update deptNombre mas_un_especimen_dept
          (ensure deptNombre
             {| dd_name := deptNombre; dd_specimens := 0; dd_species := [];
                dd_region := option_map region_nombre region |}
             departamentosMap)
    | None => departamentosMap
    end in
  let regionesMap :=
    match region with
    | Some r =>
        let regionNombre := region_nombre r in
        update regionNombre (mas_un_especimen_region dept)
          (ensure regionNombre
             {| rd_name := regionNombre; rd_specimens := 0; rd_species := [];
                rd_families := []; rd_departments := [] |}
             regionesMap)
    | None => regionesMap
    end in
  (departamentosMap, regionesMap).

Definition mas_especie_dept (especie : Especie) (d : DeptData) : DeptData :=
  {| dd_name := dd_name d; dd_specimens := dd_specimens d;
     dd_species := add (especie_nombre especie) (dd_species d);
     dd_region := dd_region d |}.

(** [especie.genero?.familia?.nombre] *)
Definition familia_de (especie : Especie) : option string :=
  match especie_genero especie with
  | Some g => option_map familia_nombre (genero_familia g)
  | None => None
  end.

Definition mas_especie_region (especie : Especie) (r : RegionData) : RegionData :=
  {| rd_name := rd_name r; rd_specimens := rd_specimens r;
     rd_species :=
       if Js.truthy (especie_nombre especie)
       then add (especie_nombre especie) (rd_species r) else rd_species r;
     rd_families :=
       match familia_de especie with
       | Some f => if Js.truthy f then add f (rd_families r) else rd_families r
       | None => rd_families r
       end;
     rd_departments := rd_departments r |}.

(** The body of the second loop, over [clasificacionesConEspecie]. *)
Definition agregar_especie (clasificadas : list Muestra) (mapas : Mapas)
    (clasif : Clasificacion) : Mapas :=
  let '(departamentosMap, regionesMap) := mapas in
  let muestra :=
    find (fun m => (muestra_id m =? clasificacion_id_muestra clasif)%Z)
      clasificadas in
  let dept := departamento_de
                (match muestra with Some m => muestra_paquete m | None => None end) in
  let region := region_de dept in
  match clasificacion_especie clasif with
  | Some especie =>
      (match dept with
       | Some d =>
           if Js.truthy (especie_nombre especie)
           then update (departamento_nombre d) (mas_especie_dept especie)
                  departamentosMap
           else departamentosMap
       | None => departamentosMap
       end,
       match region with
       | Some r => update (region_nombre r) (mas_especie_region especie) regionesMap
       | None => regionesMap
       end)
  | None => mapas
  end.

Definition mapas_de (clasificadas : list Muestra) (conEspecie : list Clasificacion)
  : Mapas :=
  fold_left (agregar_especie clasificadas) conEspecie
    (fold_left agrupar_muestra clasificadas ([], [])).

Definition regionesBase : list string :=
  ["Andina"; "Caribe"; "Pacífica"; "Orinoquía"; "Amazonía"].

(** [regionesMap.get(nombreBase) || regionesMap.get(`Región ${nombreBase}`)
     || Array.from(regionesMap.entries())
          .find(([key]) => normalizarRegion(key) === nombreBase)?.[1]] *)
Definition buscar_region (regionesMap : list (string * RegionData))
    (nombreBase : string) : option RegionData :=
  match get nombreBase regionesMap with
  | Some data => Some data
  | None =>
      match get ("Región " ++ nombreBase)%string regionesMap with
      | Some data => Some data
      | None =>
          option_map snd
            (find (fun kv =>
                     match normalizarRegion (Some (fst kv)) with
                     | Some k => (k =? nombreBase)%string
                     | None => false
                     end)
               regionesMap)
      end
  end.

Definition region_out (totalMuestras : nat)
    (regionesMap : list (string * RegionData)) (nombreBase : string) : RegionOut :=
  match buscar_region regionesMap nombreBase with
  | Some data =>
      {| ro_name := nombreBase;
         ro_departments := List.length (rd_departments data);
         ro_specimens := rd_specimens data;
         ro_species := List.length (rd_species data);
         ro_families := List.length (rd_families data);
         ro_percentage := percentage_of (rd_specimens data) totalMuestras |}
  | None =>
      {| ro_name := nombreBase; ro_departments := 0; ro_specimens := 0;
         ro_species := 0; ro_families := 0; ro_percentage := 0 |}
  end.

(** [c.especie?.tipo_amenaza || 'No Amenazado'] *)
Definition tipoAmenaza (c : Clasificacion) : string :=
  match clasificacion_especie c with
  | Some e =>
      match especie_tipo_amenaza e with
      | Some t => if Js.truthy t then t else "No Amenazado"
      | None => "No Amenazado"
      end
  | None => "No Amenazado"
  end.

(** [map.set(k, (map.get(k) || 0) + 1)] *)
Definition incrementar (m : list (string * nat)) (k : string)
  : list (string * nat) :=
  update k S (ensure k 0 m).

Definition estadisticas (muestras : option (list Muestra))
    (clasificaciones : option (list Clasificacion)) : Resultado :=
  let conEspecie := clasificacionesConEspecie clasificaciones in
  let clasificadas := muestrasClasificadas muestras conEspecie in
  let '(departamentosMap, regionesMap) := mapas_de clasificadas conEspecie in
  let totalMuestras := List.length clasificadas in
  let amenazaMap :=
    fold_left (fun m c => incrementar m (tipoAmenaza c)) conEspecie [] in
  {| departamentos :=
       firstn 10
         (sort_desc do_specimens
            (map (fun kv =>
                    let d := snd kv in
                    {| do_name := dd_name d;
                       do_specimens := dd_specimens d;
                       do_species := List.length (dd_species d);
                       do_percentage :=
                         percentage_of (dd_specimens d) totalMuestras |})
               departamentosMap));
     regiones := map (region_out totalMuestras regionesMap) regionesBase;
     total_especimenes := totalMuestras;
     total_clasificaciones := List.length conEspecie;
     especies_amenazadas :=
       sort_desc ao_count
         (map (fun kv =>
                 {| ao_categoria := fst kv;
                    ao_count := snd kv;
                    ao_porcentaje :=
                      if (0 <? List.length conEspecie)%nat
                      then Js.toFixed1_tenths
                             (Js.ratio100 (snd kv) (List.length conEspecie))
                      else 0%Z |})
            amenazaMap) |}.

(** The handler: a failed query answers 500, otherwise the statistics of
    the rows the two queries returned. *)
Definition get_estadisticas (muestras : Reply (list Muestra))
    (clasificaciones : Reply (list Clasificacion)) : Z * option Resultado :=
  match error muestras with
  | Some _ => (500%Z, None)
  | None =>
      match error clasificaciones with
      | Some _ => (500%Z, None)
      | None =>
          (200%Z, Some (estadisticas (data muestras) (data clasificaciones)))
      end
  end.

(** ** [GET /estadisticas/taxonomia] *)

(** The embedded [clasificacion] of a sample: an array, one object, or
    [null]. *)
Inductive Embebida : Type :=
| Varias (clasificaciones : list Clasificacion)
| Una (clasificacion : Clasificacion)
| Ninguna.

Record MuestraTaxonomia : Type := {
  mt_id : Z;
  mt_clasificacion : Embebida;
  mt_paquete : option Paquete
}.

Record TaxonOut : Type := {
  to_name : string;
  to_count : nat;
  to_percentage : Z
}.

(** The predicate of [muestras?.filter(...)]. *)
Definition en_ubicacion (ubicacion tipo : string) (m : MuestraTaxonomia) : bool :=
  let dept := departamento_de (mt_paquete m) in
  let region := region_de dept in
  if (tipo =? "departamento")%string then
    match dept with
    | Some d => (departamento_nombre d =? ubicacion)%string
    | None => false
    end
  else if (tipo =? "region")%string then
    match region with
    | Some r =>
        match normalizarRegion (Some (region_nombre r)) with
        | Some k => (k =? ubicacion)%string
        | None => false
        end
        || (region_nombre r =? ubicacion)%string
        || (region_nombre r =? "Región " ++ ubicacion)%string
    | None => false
    end
  else false.

Definition muestrasFiltradas (ubicacion tipo : string)
    (muestras : option (list MuestraTaxonomia)) : list MuestraTaxonomia :=
  match muestras with
  | Some ms => filter (en_ubicacion ubicacion tipo) ms
  | None => []
  end.

(** [Array.isArray(c) ? c : (c ? [c] : [])] *)
Definition clasificaciones_de (m : MuestraTaxonomia) : list Clasificacion :=
  match mt_clasificacion m with
  | Varias cs => cs
  | Una c => [c]
  | Ninguna => []
  end.

(** [taxonNombre] of one classification, when it is counted:
    [id_especie] and [especie] are truthy and the name at [nivel] is. *)
Definition taxonNombre (nivel : string) (clasif : Clasificacion) : option string :=
  match clasificacion_id_especie clasif, clasificacion_especie clasif with
  | Some id, Some especie =>
      if (id =? 0)%Z then None
      else
        let nombre :=
          if (nivel =? "familia")%string then familia_de especie
          else if (nivel =? "genero")%string
               then option_map genero_nombre (especie_genero especie)
               else None in
        match nombre with
        | Some t => if Js.truthy t then Some t else None
        | None => None
        end
  | _, _ => None
  end.

(** The two nested [forEach] loops that fill [taxonMap]. *)
Definition contar_clasificacion (nivel : string) (taxonMap : list (string * nat))
    (clasif : Clasificacion) : list (string * nat) :=
  match taxonNombre nivel clasif with
  | Some t => incrementar taxonMap t
  | None => taxonMap
  end.

Definition contar_taxones (nivel : string) (taxonMap : list (string * nat))
    (muestra : MuestraTaxonomia) : list (string * nat) :=
  fold_left (contar_clasificacion nivel) (clasificaciones_de muestra) taxonMap.

Definition taxonMap (nivel : string) (filtradas : list MuestraTaxonomia)
  : list (string * nat) :=
  fold_left (contar_taxones nivel) filtradas [].

Definition estadisticas_taxonomia (ubicacion tipo nivel : string)
    (muestras : option (list MuestraTaxonomia)) : list TaxonOut :=
  let filtradas := muestrasFiltradas ubicacion tipo muestras in
  let total := List.length filtradas in
  firstn 10
    (sort_desc to_count
       (map (fun kv =>
               {| to_name := fst kv;
                  to_count := snd kv;
                  to_percentage := percentage_of (snd kv) total |})
          (taxonMap nivel filtradas))).

Inductive RespuestaTaxonomia : Type :=
| Taxones (resultado : list TaxonOut)
| ErrorTaxonomia (status : Z) (error : string).

(** The handler: the three query parameters are required. *)
Definition get_estadisticas_taxonomia (ubicacion tipo nivel : option string)
    (muestras : Reply (list MuestraTaxonomia)) : RespuestaTaxonomia :=
  match ubicacion, tipo, nivel with
  | Some u, Some t, Some n =>
      if Js.truthy u && Js.truthy t && Js.truthy n then
        match error muestras with
        | Some _ => ErrorTaxonomia 500 "Error obteniendo estadísticas taxonómicas"
        | None => Taxones (estadisticas_taxonomia u t n (data muestras))
        end
      else
        ErrorTaxonomia 400
          "Parámetros requeridos: ubicacion, tipo (departamento/region), nivel (familia/genero)"
  | _, _, _ =>
      ErrorTaxonomia 400
        "Parámetros requeridos: ubicacion, tipo (departamento/region), nivel (familia/genero)"
  end.

(** ** Predicates of the statements *)

(** The taxon names that are counted, in the order of the loops. *)
Definition taxones_de (nivel : string) (m : MuestraTaxonomia) : list string :=
  flat_map
    (fun c => match taxonNombre nivel c with Some t => [t] | None => [] end)
    (clasificaciones_de m).

Definition taxones (nivel : string) (filtradas : list MuestraTaxonomia)
  : list string :=
  flat_map (taxones_de nivel) filtradas.

(** The bucket of a region without data. *)
Definition region_vacia (nombreBase : string) : RegionOut :=
  {| ro_name := nombreBase; ro_departments := 0; ro_specimens := 0;
     ro_species := 0; ro_families := 0; ro_percentage := 0 |}.

(** A sample that contributes a taxon name at [nivel]. *)
Definition resoluble (nivel : string) (m : MuestraTaxonomia) : bool :=
  existsb (fun c => match taxonNombre nivel c with Some _ => true | None => false end)
    (clasificaciones_de m).

(** [region.nombre] of a sample, as stored. *)
Definition nombre_region (m : Muestra) : option string :=
  option_map region_nombre (region_de (departamento_de (muestra_paquete m))).

(** The sample is stored under the region name [key]. *)
Definition en_region_almacenada (key : string) (m : Muestra) : bool :=
  match nombre_region m with
  | Some r => (r =? key)%string
  | None => false
  end.

(** The stored region name of the sample normalizes to [b]. *)
Definition en_region_normalizada (b : string) (m : Muestra) : bool :=
  match nombre_region m with
  | Some r =>
      match normalizarRegion (Some r) with
      | Some k => (k =? b)%string
      | None => false
      end
  | None => false
  end.

(** What the first loop does to [regionesMap]. *)
Definition paso_region (regionesMap : list (string * RegionData)) (m : Muestra)
  : list (string * RegionData) :=
  let dept := departamento_de (muestra_paquete m) in
  match region_de dept with
  | Some r =>
      update (region_nombre r) (mas_un_especimen_region dept)
        (ensure (region_nombre r)
           {| rd_name := region_nombre r; rd_specimens := 0; rd_species := [];
              rd_families := []; rd_departments := [] |}
           regionesMap)
  | None => regionesMap
  end.

(** [regionesMap.get(key)?.specimens] *)
Definition especimenes (key : string) (rm : list (string * RegionData))
  : option nat :=
  option_map rd_specimens (get key rm).

Definition some_pos (n : nat) : option nat :=
  match n with
  | 0 => None
  | S _ => Some n
  end.

(** ** Scenarios *)

Definition paquete_en (departamento region : string) : option Paquete :=
  Some {| paquete_conglomerado :=
            Some {| conglomerado_municipio :=
                      Some {| municipio_departamento :=
                                Some {| departamento_nombre := departamento;
                                        departamento_region :=
                                          Some {| region_nombre := region |} |} |} |} |}.

Definition coffea_arabica : Especie :=
  {| especie_nombre := "Coffea arabica";
     especie_tipo_amenaza := None;
     especie_genero :=
       Some {| genero_nombre := "Coffea";
               genero_familia := Some {| familia_nombre := "Rubiaceae" |} |} |}.

(** A species whose genus is not joined. *)
Definition especie_sin_genero : Especie :=
  {| especie_nombre := "Indeterminada";
     especie_tipo_amenaza := None;
     especie_genero := None |}.

Definition clasificacion_de (idMuestra : Z) (estado : string)
    (especie : option Especie) : Clasificacion :=
  {| clasificacion_id_muestra := idMuestra;
     clasificacion_id_especie :=
       match especie with Some _ => Some 5%Z | None => None end;
     clasificacion_estado := estado;
     clasificacion_especie := especie |}.

(** Two samples of Huila; the taxon of the second cannot be resolved. *)
Definition muestras_huila : list MuestraTaxonomia :=
  [ {| mt_id := 1;
       mt_clasificacion :=
         Varias [clasificacion_de 1 "completado" (Some coffea_arabica)];
       mt_paquete := paquete_en "Huila" "Andina" |};
    {| mt_id := 2;
       mt_clasificacion :=
         Varias [clasificacion_de 2 "firmado" (Some especie_sin_genero)];
       mt_paquete := paquete_en "Huila" "Andina" |} ].

Definition rubiaceae_huila : TaxonOut :=
  {| to_name := "Rubiaceae"; to_count := 1; to_percentage := 50 |}.

(** Two classified samples of the Andean region, stored under the two
    spellings of its name. *)
Definition muestras_dos_nombres : list Muestra :=
  [ {| muestra_id := 1; muestra_paquete := paquete_en "Huila" "Andina" |};
    {| muestra_id := 2; muestra_paquete := paquete_en "Tolima" "Región Andina" |} ].

(** The same two samples, both stored as [Región Andina]. *)
Definition muestras_un_nombre : list Muestra :=
  [ {| muestra_id := 1; muestra_paquete := paquete_en "Huila" "Región Andina" |};
    {| muestra_id := 2; muestra_paquete := paquete_en "Tolima" "Región Andina" |} ].

Definition clasificaciones_dos : list Clasificacion :=
  [ clasificacion_de 1 "completado" (Some coffea_arabica);
    clasificacion_de 2 "firmado" (Some coffea_arabica) ].

(** A draft with a species and a signed classification without one. *)
Definition tabla_sin_clasificados : list Clasificacion :=
  [ clasificacion_de 1 "borrador" (Some coffea_arabica);
    clasificacion_de 2 "firmado" None ].

End LabService.

(* ================================================================== *)
(** * Lab_Service: measures of the statistics *)
(* ================================================================== *)

Module LabMedidas.
Import Supabase LabService.

(** A list in the order [sort((a, b) => key(b) - key(a))] leaves it. *)
Definition descendente {A : Type} (key : A -> nat) (l : list A) : Prop :=
  StronglySorted (fun a b => key b <= key a) l.

(** The sum of the counts of a counting [Map]. *)
Definition suma (m : list (string * nat)) : nat := list_sum (map snd m).

(** The classifications whose species carries the category. *)
Definition cuenta_amenaza (categoria : string) (cs : list Clasificacion) : nat :=
  count_occ string_dec (map tipoAmenaza cs) categoria.

(** The species of the classification has no [tipo_amenaza]: the field
    is [null] or the empty string, or there is no species. *)
Definition sin_amenaza (c : Clasificacion) : bool :=
  match clasificacion_especie c with
  | Some e =>
      match especie_tipo_amenaza e with
      | Some t => negb (Js.truthy t)
      | None => true
      end
  | None => true
  end.

(** The department a sample is grouped under. *)
Definition nombre_departamento (m : Muestra) : option string :=
  option_map departamento_nombre (departamento_de (muestra_paquete m)).

Definition en_departamento (key : string) (m : Muestra) : bool :=
  match nombre_departamento m with
  | Some d => (d =? key)%string
  | None => false
  end.

(** What the first loop of [GET /estadisticas] does to [departamentosMap]. *)
Definition paso_departamento (departamentosMap : list (string * DeptData))
    (m : Muestra) : list (string * DeptData) :=
  let dept := departamento_de (muestra_paquete m) in
  match dept with
  | Some d =>
      update (departamento_nombre d) mas_un_especimen_dept
        (ensure (departamento_nombre d)
           {| dd_name := departamento_nombre d; dd_specimens := 0;
              dd_species := [];
              dd_region := option_map region_nombre (region_de dept) |}
           departamentosMap)
  | None => departamentosMap
  end.

(** Every entry is stored under its own name. *)
Definition nombrado (dm : list (string * DeptData)) : Prop :=
  Forall (fun kv => dd_name (snd kv) = fst kv) dm.

Definition especimenes_dept (key : string) (dm : list (string * DeptData))
  : option nat :=
  option_map dd_specimens (get key dm).

Definition bien_formado (dm : list (string * DeptData)) : Prop :=
  NoDup (map fst dm) /\ nombrado dm.

(** The stored name whose entry [buscar_region] returns. *)
Definition clave_region (regionesMap : list (string * RegionData))
    (nombreBase : string) : option string :=
  if has nombreBase regionesMap then Some nombreBase
  else if has ("Región " ++ nombreBase)%string regionesMap
       then Some ("Región " ++ nombreBase)%string
       else option_map fst
              (find (fun kv =>
                       match normalizarRegion (Some (fst kv)) with
                       | Some k => (k =? nombreBase)%string
                       | None => false
                       end)
                 regionesMap).

(** The samples stored under one of the names [ks]. *)
Definition cuenta_claves (ks : list string) (ms : list Muestra) : nat :=
  list_sum (map (fun k => List.length (filter (en_region_almacenada k) ms)) ks).

(** The stored names chosen for a list of fixed regions. *)
Fixpoint claves (rm : list (string * RegionData)) (bs : list string)
  : list string :=
  match bs with
  | [] => []
  | b :: bs' =>
      match clave_region rm b with
      | Some k => k :: claves rm bs'
      | None => claves rm bs'
      end
  end.

End LabMedidas.

(* ================================================================== *)
(** * Gest_Herb_service: the tables after a request *)
(* ================================================================== *)

Module GestHerbTablas.
Import Supabase GestHerb.

(** The [paquete] table after [update({ estado }).eq('id', idPaquete)]. *)
Definition paquetes_con (idPaquete : Z) (estado : string)
    (ps : list PaqueteRow) : list PaqueteRow :=
  map (fun p =>
         if (paquete_id p =? idPaquete)%Z
         then {| paquete_id := paquete_id p; paquete_estado := estado |}
         else p)
    ps.

(** The [clasificacion_herbario] table after
    [update({ estado }).eq('id', id)]. *)
Definition clasificaciones_con (id : Z) (estado : string)
    (cs : list ClasificacionRow) : list ClasificacionRow :=
  map (fun c => if (clasif_id c =? id)%Z then con_estado estado c else c) cs.

(** The samples of a package with their classification states, as the
    recompute fetches them. *)
Definition muestras_de (d : DB) (idPaquete : Z) : list MuestraConClasificaciones :=
  map (con_clasificaciones d) (filter (en_paquete idPaquete) (muestra_botanica d)).

(** The package the recompute resolves a sample to. *)
Definition paquete_en_tablas (d : DB) (idMuestra : Z) : option Z :=
  paquete_de
    (single (filter (fun m => (muestra_id m =? idMuestra)%Z) (muestra_botanica d))).

(** The next three calls to the store meet no fault. *)
Definition tres_sin_fallo (w : World) : Prop :=
  forall k, k < 3 -> nth k (faults w) NoFault = NoFault.

(** Two classification rows for the only sample of package 7. *)
Definition mundo_dos_filas : World :=
  {| db := {| muestra_botanica :=
                [ {| muestra_id := 1; muestra_id_paquete := Some 7%Z |} ];
              clasificacion_herbario :=
                [ {| clasif_id := 10; clasif_id_muestra := 1;
                     clasif_estado := "borrador";
                     clasif_id_especie := None;
                     clasif_estado_reproductivo := None |};
                  {| clasif_id := 11; clasif_id_muestra := 1;
                     clasif_estado := "firmado";
                     clasif_id_especie := None;
                     clasif_estado_reproductivo := None |} ];
              paquete := [ {| paquete_id := 7; paquete_estado := "recibido" |} ] |};
     faults := []; log := []; writes := [] |}.

End GestHerbTablas.

(* ================================================================== *)
(** * Gest_Herb_service: reading and editing the classification of a sample *)
(* ================================================================== *)

Module GestHerbEdicion.
Import Supabase GestHerb.

Local Open Scope Z_scope.

(** What the two endpoints answer: an error object, [null], the row, or
    [{ id, message, action }]. *)
Inductive Respuesta : Type :=
| RError (status : Z) (error : string) (mensaje detalle : option string)
| RNull
| RFila (data : ClasificacionRow)
| RAccion (status : Z) (id : Z) (message action : string).

(** [haystack.includes(needle)] *)
Fixpoint empieza_con (needle haystack : string) : bool :=
  match needle, haystack with
  | EmptyString, _ => true
  | String a n, String b h => Ascii.eqb a b && empieza_con n h
  | String _ _, EmptyString => false
  end.

Fixpoint incluye (haystack needle : string) : bool :=
  empieza_con needle haystack
  || match haystack with
     | EmptyString => false
     | String _ h => incluye h needle
     end.

(** [app.get('/clasificaciones/muestra/:muestraId', ...)] *)
Definition get_clasificacion_muestra (muestraId : string) : M Respuesta :=
  try_catch
    (match Js.parseInt10 muestraId with
     | Js.NaN => ret (RError 400 "ID de muestra inválido" None None)
     | muestraIdNum =>
         r <- find_clasificacion_de_muestra muestraIdNum ;;
         match error r with
         | Some e =>
             if negb (pg_code e =? "PGRST116")%string
             then ret (RError 500 "Error obteniendo clasificación" None None)
             else ret RNull
         | None =>
             match data r with
             | Some row => ret (RFila row)
             | None => ret RNull
             end
         end
     end)
    (fun _ => ret (RError 500 "Error interno del servidor" None None)).

Section Cuerpo.

(** The body of [PUT /clasificaciones/muestra/:muestraId] goes to the
    store as it comes.  What the store makes of it is the store's: the
    row after [update(req.body)], and the row created for
    [insert({ ...req.body, id_muestra })] under a new identifier. *)
Variable Cuerpo : Type.
Variable aplicar : Cuerpo -> ClasificacionRow -> ClasificacionRow.
Variable nueva : Cuerpo -> Z -> Z -> ClasificacionRow.

(** [from('clasificacion_herbario').update(req.body).eq('id', id)
      .select('id').single()] *)
Definition update_cuerpo (id : Z) (body : Cuerpo) : M (Reply ClasificacionRow) :=
  call [UpdateClasificacionCuerpo id]
    (fun d =>
       (single (map (aplicar body)
                  (filter (fun c => clasif_id c =? id) (clasificacion_herbario d))),
        set_clasificacion d
          (map (fun c => if clasif_id c =? id then aplicar body c else c)
             (clasificacion_herbario d)))).

(** [from('clasificacion_herbario')
      .insert({ ...req.body, id_muestra: muestraIdNum }).select('id').single()] *)
Definition insert_cuerpo (muestraIdNum : Js.Numero) (body : Cuerpo)
  : M (Reply ClasificacionRow) :=
  call [InsertClasificacionCuerpo muestraIdNum]
    (fun d =>
       match muestraIdNum with
       | Js.Entero n =>
           let row := nueva body (nuevo_id d) n in
           (ok row, set_clasificacion d (clasificacion_herbario d ++ [row]))
       | _ => (failed PG22P02, d)
       end).

(** The answer to a refused insert: the messages of the two triggers
    are answered 409.  [detalle] is [error.message] when it is not empty
    (otherwise the hint or the JSON text of the error, which [PgError]
    does not carry: [None]). *)
Definition error_de_insert (e : PgError) : Respuesta :=
  if Js.truthy (pg_message e)
     && incluye (pg_message e) "ya tiene una clasificación en proceso"
  then RError 409 "Clasificación duplicada" (Some (pg_message e))
         (Some "Esta muestra ya tiene una clasificación en estado borrador o en_analisis")
  else if Js.truthy (pg_message e)
          && incluye (pg_message e) "ya fue clasificado en otra muestra"
  then RError 409 "Individuo duplicado" (Some (pg_message e))
         (Some "Este num_individuo ya fue clasificado previamente. Puede haber muestras duplicadas en el sistema.")
  else RError 500 "Error creando clasificación" None
         (if Js.truthy (pg_message e) then Some (pg_message e) else None).

(** [app.put('/clasificaciones/muestra/:muestraId', ...)] *)
Definition put_clasificacion_muestra (muestraId : string) (body : Cuerpo)
  : M Respuesta :=
  try_catch
    (match Js.parseInt10 muestraId with
     | Js.NaN => ret (RError 400 "ID de muestra inválido" None None)
     | muestraIdNum =>
         found <- find_clasificacion_de_muestra muestraIdNum ;;
         if find_failed found then
           ret (RError 500 "Error buscando clasificación existente" None None)
         else
           match data found with
           | Some existing =>
               if negb (Js.includes ["borrador"; "en_analisis"]
                          (clasif_estado existing))
               then
                 ret (RError 409 "Clasificación no editable"
                        (Some ("La clasificación existente tiene estado '"
                               ++ clasif_estado existing
                               ++ "' y no puede ser modificada.")%string)
                        (Some "Solo se pueden editar clasificaciones en estado borrador o en_analisis."))
               else
                 r <- update_cuerpo (clasif_id existing) body ;;
                 match error r, data r with
                 | Some _, _ =>
                     ret (RError 500 "Error actualizando clasificación" None None)
                 | None, None => throw "TypeError"
                 | None, Some row =>
                     ret (RAccion 200 (clasif_id row)
                            "Clasificación actualizada" "updated")
                 end
           | None =>
               r <- insert_cuerpo muestraIdNum body ;;
               match error r, data r with
               | Some e, _ => ret (error_de_insert e)
               | None, None => throw "TypeError"
               | None, Some row =>
                   ret (RAccion 201 (clasif_id row)
                          "Clasificación creada" "created")
               end
           end
     end)
    (fun _ => ret (RError 500 "Error interno del servidor" None None)).

End Cuerpo.

(** A body that carries a state only, and what the store makes of it. *)
Definition nueva_con_estado (estado : string) (id id_muestra : Z)
  : ClasificacionRow :=
  {| clasif_id := id;
     clasif_id_muestra := id_muestra;
     clasif_estado := estado;
     clasif_id_especie := None;
     clasif_estado_reproductivo := None |}.

Definition put_estado_en_cuerpo (muestraId : string) (estado : string)
  : M Respuesta :=
  put_clasificacion_muestra string con_estado nueva_con_estado muestraId estado.

(** A signed classification for the only sample of package 7. *)
Definition mundo_firmado : World :=
  {| db := {| muestra_botanica :=
                [ {| muestra_id := 1; muestra_id_paquete := Some 7 |} ];
              clasificacion_herbario :=
                [ {| clasif_id := 10; clasif_id_muestra := 1;
                     clasif_estado := "firmado";
                     clasif_id_especie := Some 5;
                     clasif_estado_reproductivo := None |} ];
              paquete := [ {| paquete_id := 7; paquete_estado := "completo" |} ] |};
     faults := []; log := []; writes := [] |}.

(** The error the trigger [trg_validar_clasificacion_unica] raises. *)
Definition error_trigger_unica : PgError :=
  {| pg_code := "P0001";
     pg_message := "La muestra 1 ya tiene una clasificación en proceso" |}.

End GestHerbEdicion.

(* ================================================================== *)
(** * More JavaScript helpers *)
(* ================================================================== *)

Module JsMore.

(** [s.length]: the number of UTF-16 code units of the string, read off
    its UTF-8 encoding: one for each character of one to three bytes,
    two for each character of four bytes. *)
Definition units (c : ascii) : nat :=
  let n := nat_of_ascii c in
  if n <? 128 then 1
  else if n <? 192 then 0
  else if n <? 240 then 1
  else 2.

Fixpoint length16 (s : string) : nat :=
  match s with
  | EmptyString => 0
  | String c s1 => units c + length16 s1
  end.

(** A number that is an integer, an infinity or NaN. *)
Inductive Doble : Type :=
| DNaN
| DInf (negative : bool)
| DInt (z : Z).

Definition doble_of_Z (z : Z) : Doble :=
  match binary_normalize Js.prec Js.emax z 0 false with
  | S754_zero _ => DInt 0
  | S754_finite sg m e => DInt (Z.shiftl (if sg then Zneg m else Zpos m) e)
  | S754_infinity sg => DInf sg
  | S754_nan => DNaN
  end.

Definition hex_digit (c : ascii) : option Z :=
  let n := nat_of_ascii c in
  if (48 <=? n) && (n <=? 57) then Some (Z.of_nat n - 48)%Z
  else if (97 <=? n) && (n <=? 102) then Some (Z.of_nat n - 87)%Z
  else if (65 <=? n) && (n <=? 70) then Some (Z.of_nat n - 55)%Z
  else None.

Fixpoint hex_digits (s : string) (acc : option Z) : option Z :=
  match s with
  | EmptyString => acc
  | String c s1 =>
      match hex_digit c with
      | Some d =>
          hex_digits s1
            (Some (16 * match acc with Some a => a | None => 0 end + d)%Z)
      | None => acc
      end
  end.

(** [parseInt(s)] without a radix: white space, a sign, [0x] or [0X] for
    base 16, then the longest prefix of digits. *)
Definition parseInt (s : string) : Doble :=
  let t := Js.trimStart s in
  let '(negative, rest) :=
    match t with
    | String c r =>
        if nat_of_ascii c =? 45 then (true, r)
        else if nat_of_ascii c =? 43 then (false, r)
        else (false, t)
    | EmptyString => (false, t)
    end in
  let value :=
    match rest with
    | String z (String x r) =>
        if (nat_of_ascii z =? 48) && ((nat_of_ascii x =? 120) || (nat_of_ascii x =? 88))
        then hex_digits r None
        else Js.digits rest None
    | _ => Js.digits rest None
    end in
  match value with
  | Some v => doble_of_Z (if negative then - v else v)%Z
  | None => DNaN
  end.

(** [x || d] for a number [x]: [NaN] and zero are falsy. *)
Definition o (x d : Doble) : Doble :=
  match x with
  | DNaN => d
  | DInt 0 => d
  | _ => x
  end.

(** [Math.min(x, n)] and [Math.max(x, n)] for an integer [n]. *)
Definition Math_min (x : Doble) (n : Z) : Doble :=
  match x with
  | DNaN => DNaN
  | DInf true => DInf true
  | DInf false => DInt n
  | DInt z => DInt (Z.min z n)
  end.

Definition Math_max (x : Doble) (n : Z) : Doble :=
  match x with
  | DNaN => DNaN
  | DInf true => DInt n
  | DInf false => DInf false
  | DInt z => DInt (Z.max z n)
  end.

End JsMore.


(* ================================================================== *)
(** * Lab_Service: priorities, difficulty and confidence *)
(* ================================================================== *)

Module LabAlgoritmos.

Local Open Scope Z_scope.

(** A pending sample, as [GET /muestras/pendientes] reads it.  Text
    fields are a string or [null] ([None]). *)
Record MuestraPendiente : Type := {
  mp_id : Z;
  mp_familia_identificada : option string;
  mp_genero_identificado : option string;
  mp_observaciones : option string;
  mp_estado_muestra : option string
}.

(** Truthiness of a nullable string. *)
Definition verdadero (campo : option string) : bool :=
  match campo with
  | Some s => Js.truthy s
  | None => false
  end.

(** [campo && campo.length > n] and [!campo || campo.length < n] *)
Definition mas_largo_que (n : nat) (campo : option string) : bool :=
  match campo with
  | Some s => Js.truthy s && (n <? JsMore.length16 s)%nat
  | None => false
  end.

Definition ausente_o_mas_corto_que (n : nat) (campo : option string) : bool :=
  match campo with
  | Some s => negb (Js.truthy s) || (JsMore.length16 s <? n)%nat
  | None => true
  end.

(** [determinarDificultadClasificacion(muestra)] *)
Definition determinarDificultadClasificacion (muestra : MuestraPendiente)
  : string :=
  let puntos := 0 in
  let puntos :=
    if negb (verdadero (mp_familia_identificada muestra))
    then puntos + 30 else puntos in
  let puntos :=
    if negb (verdadero (mp_genero_identificado muestra))
    then puntos + 20 else puntos in
  let puntos :=
    if ausente_o_mas_corto_que 10 (mp_observaciones muestra)
    then puntos + 15 else puntos in
  let puntos :=
    if verdadero (mp_familia_identificada muestra)
       && verdadero (mp_genero_identificado muestra)
    then puntos - 25 else puntos in
  let puntos :=
    if mas_largo_que 50 (mp_observaciones muestra)
    then puntos - 10 else puntos in
  if puntos <? 20 then "Fácil"
  else if puntos <? 40 then "Moderada"
  else "Difícil".

(** The sample with what the handler adds to it.  The number of days
    since reception comes from the clock and the reception date
    ([None] is [NaN], for a date that cannot be read). *)
Record MuestraConPrioridad : Type := {
  muestra : MuestraPendiente;
  prioridad : Z;
  dias_desde_recepcion : option Z;
  nivel_dificultad : string
}.

(** [!muestra.observaciones || muestra.observaciones.trim() === ''] *)
Definition sin_observaciones (campo : option string) : bool :=
  match campo with
  | Some s => negb (Js.truthy s) || (Js.trim s =? "")%string
  | None => true
  end.

(** The callback of [muestras.map] in [GET /muestras/pendientes]. *)
Definition priorizar (diasDesdeRecepcion : option Z) (m : MuestraPendiente)
  : MuestraConPrioridad :=
  let prioridad := 0 in
  let prioridad :=
    match diasDesdeRecepcion with
    | Some d => if 30 <? d then prioridad + 50 else prioridad
    | None => prioridad
    end in
  let prioridad :=
    if verdadero (mp_familia_identificada m) then prioridad + 20 else prioridad in
  let prioridad :=
    match mp_estado_muestra m with
    | Some e => if (e =? "en_proceso")%string then prioridad + 30 else prioridad
    | None => prioridad
    end in
  let prioridad :=
    if sin_observaciones (mp_observaciones m) then prioridad - 10
    else prioridad in
  {| muestra := m;
     prioridad := prioridad;
     dias_desde_recepcion := diasDesdeRecepcion;
     nivel_dificultad := determinarDificultadClasificacion m |}.

(** [distribucion[k]++] on a plain object: an own property moves up by
    one; any other key gets [NaN] ([None]) as an own property, but for
    [__proto__], whose setter ignores numbers. *)
Definition mas_uno (distribucion : list (string * option nat)) (k : string)
  : list (string * option nat) :=
  if (k =? "__proto__")%string then distribucion
  else if LabService.has k distribucion
       then LabService.update k (option_map S) distribucion
       else distribucion ++ [(k, None)].

(** [calcularDistribucionDificultad(muestras)] *)
Definition calcularDistribucionDificultad (muestras : list MuestraConPrioridad)
  : list (string * option nat) :=
  fold_left (fun distribucion m => mas_uno distribucion (nivel_dificultad m))
    muestras
    [("Fácil", Some 0%nat); ("Moderada", Some 0%nat); ("Difícil", Some 0%nat)].

(** A field of a request body or of a row: absent, [null] or a string. *)
Inductive Campo : Type :=
| Indefinido
| Nulo
| Texto (s : string).

Definition cierto (c : Campo) : bool :=
  match c with
  | Texto s => Js.truthy s
  | _ => false
  end.

(** [a === b] *)
Definition identico (a b : Campo) : bool :=
  match a, b with
  | Indefinido, Indefinido => true
  | Nulo, Nulo => true
  | Texto s, Texto t => (s =? t)%string
  | _, _ => false
  end.

(** [`${c}`] *)
Definition texto_de (c : Campo) : string :=
  match c with
  | Indefinido => "undefined"
  | Nulo => "null"
  | Texto s => s
  end.

(** The fields of the body of [POST /clasificaciones] that the two
    algorithms read; [nivel_confianza] is absent or an integer. *)
Record CuerpoClasificacion : Type := {
  cc_estado_reproductivo : Campo;
  cc_observaciones_clasificacion : Campo;
  cc_familia : Campo;
  cc_nivel_confianza : option Z
}.

(** [calcularNivelConfianza(clasificacion, muestra)], with
    [muestra.familia_identificada] for the sample. *)
Definition calcularNivelConfianza (clasificacion : CuerpoClasificacion)
    (familia_identificada : Campo) : Z :=
  let confianza := 50 in
  let confianza :=
    if cierto (cc_estado_reproductivo clasificacion)
    then confianza + 15 else confianza in
  let confianza :=
    match cc_observaciones_clasificacion clasificacion with
    | Texto s =>
        if Js.truthy s && (20 <? JsMore.length16 s)%nat
        then confianza + 10 else confianza
    | _ => confianza
    end in
  let confianza :=
    if identico familia_identificada (cc_familia clasificacion)
    then confianza + 20 else confianza in
  Z.max 0 (Z.min 100 confianza).

(** [observaciones.join('; ')] *)
Fixpoint join (sep : string) (l : list string) : string :=
  match l with
  | [] => ""
  | [x] => x
  | x :: l' => (x ++ sep ++ join sep l')%string
  end.

(** [generarObservacionesAlgoritmo(clasificacion, muestra)] *)
Definition generarObservacionesAlgoritmo (clasificacion : CuerpoClasificacion)
    (familia_identificada : Campo) : string :=
  let observaciones := [] in
  let observaciones :=
    if cierto familia_identificada
       && negb (identico familia_identificada (cc_familia clasificacion))
    then observaciones
         ++ [("Discrepancia con identificación previa: "
              ++ texto_de familia_identificada ++ " → "
              ++ texto_de (cc_familia clasificacion))%string]
    else observaciones in
  let observaciones :=
    match cc_nivel_confianza clasificacion with
    | Some n =>
        if n <? 70
        then observaciones
             ++ ["Clasificación requiere revisión por nivel de confianza bajo"]
        else observaciones
    | None => observaciones
    end in
  join "; " observaciones.

(** The samples of one level of difficulty. *)
Definition cuenta_nivel (nivel : string) (ms : list MuestraConPrioridad) : nat :=
  List.length (filter (fun m => (nivel_dificultad m =? nivel)%string) ms).

End LabAlgoritmos.

(* ================================================================== *)
(** * Lab_Service dto.js: filters of the sample search *)
(* ================================================================== *)

Module LabDto.
Import JsMore.

(** The query string: every parameter is absent or a string. *)
Record Query : Type := {
  q_estado : option string;
  q_conglomerado : option string;
  q_fecha_desde : option string;
  q_fecha_hasta : option string;
  q_limit : option string;
  q_offset : option string
}.

(** [filtros]; an absent key is [None]. *)
Record Filtros : Type := {
  f_estado : option string;
  f_conglomerado : option Doble;
  f_fecha_desde : option string;
  f_fecha_hasta : option string;
  f_limit : Doble;
  f_offset : Doble
}.

Definition estadosValidos : list string :=
  ["Pendiente"; "En análisis"; "Clasificada"].

(** [parseInt(campo)] of a parameter; [parseInt(undefined)] is [NaN]. *)
Definition parseInt_campo (campo : option string) : Doble :=
  match campo with
  | Some s => parseInt s
  | None => DNaN
  end.

Section Fechas.

(** [new Date(s)], read as [d.toISOString().split('T')[0]] when
    [d.getTime()] is a number: the reading of dates is the engine's. *)
Variable fecha_iso : string -> option string.

Definition fecha (campo : option string) : option string :=
  match campo with
  | Some s => if Js.truthy s then fecha_iso s else None
  | None => None
  end.

(** [validateFiltrosMuestras(query)] *)
Definition validateFiltrosMuestras (query : Query) : Filtros :=
  let limit := o (parseInt_campo (q_limit query)) (DInt 20) in
  let offset := o (parseInt_campo (q_offset query)) (DInt 0) in
  {| f_estado :=
       match q_estado query with
       | Some e =>
           if Js.truthy e && Js.includes estadosValidos e then Some e else None
       | None => None
       end;
     f_conglomerado :=
       match q_conglomerado query with
       | Some c =>
           if Js.truthy c then
             match parseInt c with
             | DNaN => None
             | conglomeradoId => Some conglomeradoId
             end
           else None
       | None => None
       end;
     f_fecha_desde := fecha (q_fecha_desde query);
     f_fecha_hasta := fecha (q_fecha_hasta query);
     f_limit := Math_min limit 100;
     f_offset := Math_max offset 0 |}.

End Fechas.

(** What [limit] and [offset] can be. *)
Definition limite_valido (x : Doble) : Prop :=
  match x with
  | DNaN => False
  | DInf negative => negative = true
  | DInt z => (z <= 100)%Z /\ z <> 0%Z
  end.

Definition desplazamiento_valido (x : Doble) : Prop :=
  match x with
  | DNaN => False
  | DInf negative => negative = false
  | DInt z => (0 <= z)%Z
  end.

End LabDto.

(* ================================================================== *)
(** * Properties of the package-state derivation *)
(* ================================================================== *)

Module GestHerbFacts.
Import Supabase GestHerb.

(** A state cannot be both terminal and in progress. *)
Lemma completado_no_en_proceso (e : string) :
  Js.includes estados_completados e = true ->
  Js.includes estados_en_proceso e = false.
Proof.
  unfold Js.includes, estados_completados, estados_en_proceso; simpl.
  rewrite !orb_false_r, !orb_true_iff, !String.eqb_eq.
  intros [H | [H | H]]; subst e; reflexivity.
Qed.

(** One step of the loop adds the sample to at most one counter. *)
Lemma contar_muestra_step (m : MuestraConClasificaciones) (c p : nat) :
  contar_muestra (c, p) m =
  (c + (if es_completada m then 1 else 0),
   p + (if es_en_proceso m then 1 else 0)).
Proof.
  unfold contar_muestra, es_completada, es_en_proceso, estado_de.
  destruct (mcc_clasificacion_herbario m) as [[|e es]|];
    try (f_equal; lia).
  destruct (Js.includes estados_completados e) eqn:Hc.
  - rewrite (completado_no_en_proceso e Hc). f_equal; lia.
  - destruct (Js.includes estados_en_proceso e); f_equal; lia.
Qed.

(** The two counters of the loop are the two counts of the specification. *)
Lemma contar_fold (ms : list MuestraConClasificaciones) (c p : nat) :
  fold_left contar_muestra ms (c, p) = (c + completed ms, p + inProgress ms).
Proof.
  revert c p; induction ms as [|m ms IH]; intros c p.
  - unfold completed, inProgress; simpl. now rewrite !Nat.add_0_r.
  - cbn [fold_left]. rewrite contar_muestra_step, IH.
    unfold completed, inProgress; simpl filter.
    destruct (es_completada m), (es_en_proceso m); simpl List.length;
      f_equal; lia.
Qed.

Lemma contar_counts (ms : list MuestraConClasificaciones) :
  contar ms = (completed ms, inProgress ms).
Proof. unfold contar. now rewrite contar_fold. Qed.

Lemma nuevoEstado_counts (ms : list MuestraConClasificaciones) :
  nuevoEstado ms =
  if (0 <? total ms) && (completed ms =? total ms) then "completo"
  else if 0 <? inProgress ms then "en_proceso"
  else "recibido".
Proof. unfold nuevoEstado. now rewrite contar_counts. Qed.

Lemma filter_length_le {A : Type} (f : A -> bool) (l : list A) :
  List.length (filter f l) <= List.length l.
Proof.
  induction l as [|a l IH]; simpl; [lia|].
  destruct (f a); simpl; lia.
Qed.

Lemma filter_length_all {A : Type} (f : A -> bool) (l : list A) :
  List.length (filter f l) = List.length l <-> Forall (fun a => f a = true) l.
Proof.
  induction l as [|a l IH]; simpl.
  - split; auto.
  - pose proof (filter_length_le f l) as Hle.
    destruct (f a) eqn:Hf; simpl; split; intros H.
    + constructor; [assumption|]. apply IH. lia.
    + inversion H; subst. f_equal. now apply IH.
    + lia.
    + inversion H; congruence.
Qed.

(** C1: the state the recompute derives is [completo] iff [total > 0]
    and [completed == total], else [en_proceso] iff [inProgress > 0],
    else [recibido]; samples without a classification record count for
    neither.  So the state is [completo] exactly when the package has a
    sample and every sample has a classification in
    {completado, firmado, clasificado}. *)
Theorem C1_nuevoEstado_from_counts (ms : list MuestraConClasificaciones) :
  nuevoEstado ms =
    (if (0 <? total ms) && (completed ms =? total ms) then "completo"
     else if 0 <? inProgress ms then "en_proceso"
     else "recibido")
  /\ (nuevoEstado ms = "completo" <->
      ms <> [] /\ Forall (fun m => es_completada m = true) ms).
Proof.
  split; [apply nuevoEstado_counts|].
  rewrite nuevoEstado_counts. unfold total, completed.
  rewrite <- filter_length_all.
  destruct ms as [|m ms].
  - simpl. split; [discriminate | intros [H _]; now elim H].
  - change (0 <? List.length (m :: ms)) with true. rewrite andb_true_l.
    destruct (Nat.eqb_spec (List.length (filter es_completada (m :: ms)))
                (List.length (m :: ms))) as [E | E].
    + split; [intros _; split; [discriminate | exact E] | reflexivity].
    + split.
      * destruct (0 <? inProgress (m :: ms)); discriminate.
      * intros [_ H]; contradiction.
Qed.

(** ** Three samples, two completed, one without a record *)

(** A sample is completed, in progress or without a record, never two
    of them. *)
Lemma clases_disjuntas (m : MuestraConClasificaciones) :
  (if es_completada m then 1 else 0) + (if es_en_proceso m then 1 else 0)
  + (if sin_clasificacion m then 1 else 0) <= 1.
Proof.
  unfold es_completada, es_en_proceso, sin_clasificacion.
  destruct (estado_de m) as [e|]; [|simpl; lia].
  destruct (Js.includes estados_completados e) eqn:Hc.
  - rewrite (completado_no_en_proceso e Hc). simpl. lia.
  - destruct (Js.includes estados_en_proceso e); simpl; lia.
Qed.

Lemma counts_partition (ms : list MuestraConClasificaciones) :
  completed ms + inProgress ms + List.length (filter sin_clasificacion ms)
  <= List.length ms.
Proof.
  unfold completed, inProgress.
  induction ms as [|m ms IH]; [simpl; lia|].
  pose proof (clases_disjuntas m) as Hm.
  cbn [filter].
  destruct (es_completada m), (es_en_proceso m), (sin_clasificacion m);
    cbn [List.length] in *; lia.
Qed.

Lemma completado_es_completada (m : MuestraConClasificaciones) :
  tiene_estado "completado" m = true -> es_completada m = true.
Proof.
  unfold tiene_estado, es_completada.
  destruct (estado_de m) as [e|]; [|discriminate].
  intros H. apply String.eqb_eq in H. now subst e.
Qed.

Lemma completado_le_completed (ms : list MuestraConClasificaciones) :
  List.length (filter (tiene_estado "completado") ms) <= completed ms.
Proof.
  unfold completed.
  induction ms as [|m ms IH]; [simpl; lia|].
  pose proof (completado_es_completada m) as Hm.
  cbn [filter].
  destruct (tiene_estado "completado" m).
  - rewrite Hm by reflexivity. cbn [List.length]. lia.
  - destruct (es_completada m); cbn [List.length]; lia.
Qed.

(** C3, as the specification states it, fails: with three samples, two
    [completado] and one without a classification record, no sample is
    in progress, and the recompute does not derive [en_proceso]. *)
Lemma C3_counterexample :
  List.length tres_muestras = 3
  /\ List.length (filter (tiene_estado "completado") tres_muestras) = 2
  /\ List.length (filter sin_clasificacion tres_muestras) = 1
  /\ nuevoEstado tres_muestras <> "en_proceso".
Proof. repeat split; discriminate. Qed.

(** C3, amended: for a package of exactly three samples, two with a
    classification in state [completado] and one without a record, the
    recompute derives [recibido] (neither [completo] nor [en_proceso]). *)
Theorem C3_dos_completadas_una_sin_registro
  (ms : list MuestraConClasificaciones)
  (Htotal : List.length ms = 3)
  (Hdone : List.length (filter (tiene_estado "completado") ms) = 2)
  (Hnone : List.length (filter sin_clasificacion ms) = 1) :
  nuevoEstado ms = "recibido".
Proof.
  rewrite nuevoEstado_counts. unfold total.
  pose proof (counts_partition ms) as Hp.
  pose proof (completado_le_completed ms) as Hc.
  replace (completed ms) with 2 by lia.
  replace (inProgress ms) with 0 by lia.
  now rewrite Htotal.
Qed.

Lemma C3_dos_completadas_una_sin_registro_witness :
  nuevoEstado tres_muestras = "recibido".
Proof.
  apply (C3_dos_completadas_una_sin_registro tres_muestras); reflexivity.
Defined.

(** ** Runs of the recompute *)

(** A call that meets no fault answers from the tables. *)
Lemma call_NoFault {A : Type} (request : list Write)
    (op : DB -> Reply A * DB) (w : World) :
  hd NoFault (faults w) = NoFault ->
  call request op w =
  (Val (fst (op (db w))),
   {| db := snd (op (db w)); faults := tl (faults w); log := log w;
      writes := writes w ++ request |}).
Proof.
  unfold call. destruct (faults w) as [|[|e|msg] fs]; simpl;
    intros H; try discriminate; now destruct (op (db w)).
Qed.

(** [promise.catch] leaves nothing to propagate. *)
Lemma background_returns (m : M unit) (w : World) :
  fst (background m w) = Val tt.
Proof.
  unfold background, try_catch.
  destruct (m w) as [[[]|e] w']; reflexivity.
Qed.

Lemma filter_none {A : Type} (f : A -> bool) (l : list A) :
  (forall a, In a l -> f a = false) -> filter f l = [].
Proof.
  induction l as [|a l IH]; simpl; intros H; [reflexivity|].
  rewrite (H a) by now left. apply IH. intros b Hb. apply H. now right.
Qed.

Lemma sin_paquete_lookup (idMuestra : Z) (w : World) :
  sin_paquete idMuestra w ->
  hd NoFault (faults w) = NoFault ->
  paquete_de
    (single (filter (fun m => (muestra_id m =? idMuestra)%Z)
               (muestra_botanica (db w)))) = None.
Proof.
  intros [H | [H | [m [Hm Hp]]]] Hf.
  - contradiction.
  - rewrite filter_none; [reflexivity|].
    intros m Hm. apply Z.eqb_neq. now apply H.
  - rewrite Hm. unfold paquete_de; simpl. now rewrite Hp.
Qed.

(** C9: when the sample does not exist, cannot be fetched, or has no
    owning package, the recompute returns without sending any write; the
    tables, and with them every [paquete.estado], are unchanged. *)
Theorem C9_sin_paquete_no_write (idMuestra : Z) (w : World)
  (H : sin_paquete idMuestra w) :
  let w' := snd (actualizarEstadoPaqueteManual idMuestra w) in
  fst (actualizarEstadoPaqueteManual idMuestra w) = Val tt
  /\ writes w' = writes w
  /\ db w' = db w.
Proof.
  pose proof (sin_paquete_lookup idMuestra w H) as Hl.
  unfold actualizarEstadoPaqueteManual, try_catch, bind,
    select_paquete_de_muestra, call, logger.
  destruct (faults w) as [|[|e|msg] fs]; cbn [hd tl] in *.
  - rewrite (Hl eq_refl). cbn. now rewrite app_nil_r.
  - rewrite (Hl eq_refl). cbn. now rewrite app_nil_r.
  - cbn. now rewrite app_nil_r.
  - cbn. now rewrite app_nil_r.
Qed.

Lemma C9_sin_paquete_no_write_witness :
  fst (actualizarEstadoPaqueteManual 1 mundo_sin_muestra) = Val tt
  /\ writes (snd (actualizarEstadoPaqueteManual 1 mundo_sin_muestra)) = []
  /\ db (snd (actualizarEstadoPaqueteManual 1 mundo_sin_muestra))
     = db mundo_sin_muestra.
Proof.
  apply (C9_sin_paquete_no_write 1 mundo_sin_muestra).
  right; left. intros m Hm. destruct Hm.
Defined.

(** ** What a run of the recompute leaves behind *)

(** The recompute returns normally and logs one entry.  It is the entry
    of success only if none of its three calls met a fault.  An
    exception at the lookup, and an error or an exception at the fetch
    of the samples or at the write of the package, end in one of the
    three warnings.  An error the lookup answers with ends in the line
    of a sample without package, at [debug], as a lookup that succeeds
    on a sample without package does. *)
Lemma actualizar_log (idMuestra : Z) (w : World) :
  exists entry w',
    actualizarEstadoPaqueteManual idMuestra w = (Val tt, w')
    /\ log w' = log w ++ [entry]
    /\ (entry = entrada_exito \/ entry = entrada_sin_paquete
        \/ In entry entradas_fallo)
    /\ (entry = entrada_exito ->
        forall k, k < 3 -> nth k (faults w) NoFault = NoFault)
    /\ (forall e, nth 0 (faults w) NoFault = ReplyError e ->
        entry = entrada_sin_paquete)
    /\ (forall message, nth 0 (faults w) NoFault = Throw message ->
        In entry entradas_fallo)
    /\ (nth 0 (faults w) NoFault = NoFault ->
        paquete_de
          (single (filter (fun m => (muestra_id m =? idMuestra)%Z)
                     (muestra_botanica (db w)))) = None ->
        entry = entrada_sin_paquete)
    /\ (nth 0 (faults w) NoFault = NoFault ->
        paquete_de
          (single (filter (fun m => (muestra_id m =? idMuestra)%Z)
                     (muestra_botanica (db w)))) <> None ->
        nth 1 (faults w) NoFault <> NoFault
        \/ nth 2 (faults w) NoFault <> NoFault ->
        In entry entradas_fallo).
Proof.
  unfold actualizarEstadoPaqueteManual, try_catch, bind,
    select_paquete_de_muestra, select_muestras_de_paquete, update_paquete,
    call, logger.
  destruct (faults w) as [|[|e1|m1] [|[|e2|m2] [|[|e3|m3] fs]]]; cbn;
    try (destruct (paquete_de _) eqn:Hp; cbn);
    (do 2 eexists; split; [reflexivity|]; cbn; split; [reflexivity|]);
    unfold entrada_exito, entrada_sin_paquete, entradas_fallo; cbn;
    repeat split; intros;
    repeat match goal with
           | H : _ \/ _ |- _ => destruct H
           | H : ?k < 3 |- _ =>
               destruct k as [|[|[|k]]]; try reflexivity; lia
           end;
    try discriminate; try congruence; try tauto.
Qed.

(** The recompute touches no table but [paquete], and only adds to the
    requests sent. *)
Lemma actualizar_frame (idMuestra : Z) (w : World) :
  exists w',
    actualizarEstadoPaqueteManual idMuestra w = (Val tt, w')
    /\ muestra_botanica (db w') = muestra_botanica (db w)
    /\ clasificacion_herbario (db w') = clasificacion_herbario (db w)
    /\ exists ws, writes w' = writes w ++ ws.
Proof.
  unfold actualizarEstadoPaqueteManual, try_catch, bind,
    select_paquete_de_muestra, select_muestras_de_paquete, update_paquete,
    call, logger.
  destruct (faults w) as [|[|e1|m1] [|[|e2|m2] [|[|e3|m3] fs]]]; cbn;
    try (destruct (paquete_de _); cbn);
    (eexists; split; [reflexivity|]; cbn; repeat split;
     rewrite ?app_nil_r, <- ?app_assoc; eexists; try reflexivity;
     symmetry; apply app_nil_r).
Qed.

Lemma background_frame (idMuestra : Z) (w : World) :
  exists w',
    background (actualizarEstadoPaqueteManual idMuestra) w = (Val tt, w')
    /\ muestra_botanica (db w') = muestra_botanica (db w)
    /\ clasificacion_herbario (db w') = clasificacion_herbario (db w)
    /\ exists ws, writes w' = writes w ++ ws.
Proof.
  destruct (actualizar_frame idMuestra w) as [w' [E H]].
  exists w'. split; [|exact H].
  unfold background, try_catch. now rewrite E.
Qed.

(** Without faults, a sample with a package always gets its package
    written, whatever state the package has stored. *)
Lemma actualizar_fault_free (idMuestra idPaquete : Z) (w : World) :
  faults w = [] ->
  paquete_de
    (single (filter (fun m => (muestra_id m =? idMuestra)%Z)
               (muestra_botanica (db w)))) = Some idPaquete ->
  let nuevo :=
    nuevoEstado
      (map (con_clasificaciones (db w))
         (filter (en_paquete idPaquete) (muestra_botanica (db w)))) in
  let w' := snd (actualizarEstadoPaqueteManual idMuestra w) in
  writes w' = writes w ++ [UpdatePaquete idPaquete nuevo]
  /\ forall p, In p (paquete (db w')) ->
               paquete_id p = idPaquete -> paquete_estado p = nuevo.
Proof.
  intros Hf Hp.
  unfold actualizarEstadoPaqueteManual, try_catch, bind,
    select_paquete_de_muestra, select_muestras_de_paquete, update_paquete,
    call, logger.
  rewrite Hf; cbn. rewrite Hp; cbn.
  rewrite !app_nil_r. split; [reflexivity|].
  intros p Hin Hid. apply in_map_iff in Hin. destruct Hin as [p0 [Hp0 _]].
  destruct (Z.eqb_spec (paquete_id p0) idPaquete) as [E | E]; subst p.
  - reflexivity.
  - contradiction.
Qed.

(** C2 fails on the code: the recompute sends the update of the package
    without reading the stored state.  Here the derived state is the
    stored one, [recibido]; the first run sends the update all the same,
    and a second run, with no classification change in between, sends it
    again. *)
Theorem C2_segunda_ejecucion_escribe :
  let w1 := snd (actualizarEstadoPaqueteManual 1 mundo_recibido) in
  let w2 := snd (actualizarEstadoPaqueteManual 1 w1) in
  db w1 = db mundo_recibido
  /\ writes w1 = [UpdatePaquete 7 "recibido"]
  /\ db w2 = db w1
  /\ writes w2 = writes w1 ++ [UpdatePaquete 7 "recibido"].
Proof. repeat split. Qed.

(** ** The endpoints *)

Lemma background_run (m : M unit) (w : World) :
  exists w', background m w = (Val tt, w').
Proof.
  pose proof (background_returns m w) as H.
  destruct (background m w) as [r w']. simpl in H. subst r. now exists w'.
Qed.

Lemma single_cases {A : Type} (rows : list A) :
  (exists r, single rows = ok r) \/ single rows = failed PGRST116.
Proof. destruct rows as [|r [|r' rows]]; simpl; eauto. Qed.

Lemma truthy_nonempty (s : string) : s <> "" -> Js.truthy s = true.
Proof. destruct s; [congruence | reflexivity]. Qed.


Ltac run_single :=
  match goal with
  | |- context [single ?rows] =>
      let c := fresh "c" in
      let E := fresh "E" in
      destruct (single_cases rows) as [[c E] | E]; rewrite E; clear E
  end.

Ltac run_background :=
  match goal with
  | |- context [background ?m ?w] =>
      let w' := fresh "w'" in
      let E := fresh "E" in
      destruct (background_run m w) as [w' E]; rewrite E; clear E
  end.

Ltac run_frame :=
  match goal with
  | |- context [background (actualizarEstadoPaqueteManual ?i) ?w0] =>
      let w1 := fresh "w1" in
      let E := fresh "E" in
      let Hc := fresh "Hc" in
      let ws := fresh "ws" in
      let Hw := fresh "Hw" in
      destruct (background_frame i w0) as [w1 [E [_ [Hc [ws Hw]]]]];
      rewrite E
  end.

Lemma filter_con_estado (id i : Z) (estado : string)
    (cs : list ClasificacionRow) :
  filter (fun c => (clasif_id c =? i)%Z)
    (map (fun c => if (clasif_id c =? id)%Z then con_estado estado c else c) cs)
  = map (fun c => if (clasif_id c =? id)%Z then con_estado estado c else c)
      (filter (fun c => (clasif_id c =? i)%Z) cs).
Proof.
  induction cs as [|c cs IH]; simpl; [reflexivity|].
  assert (E : clasif_id (if (clasif_id c =? id)%Z then con_estado estado c else c)
              = clasif_id c) by now destruct (clasif_id c =? id)%Z.
  rewrite E. destruct (clasif_id c =? i)%Z; simpl; now rewrite IH.
Qed.

(** The answer of [PUT /clasificaciones/:idMuestra/estado] when its own
    two calls meet no fault, whatever the recompute it starts meets: 200
    for the only classification of the sample, 201 when the sample has
    none (or several, which [.single()] does not tell apart). *)
Lemma put_estado_muestra_exito (idMuestra : string) (n : Z) (estado : string)
    (w : World) (fs : list Fault) :
  Js.parseInt10 idMuestra = Js.Entero n ->
  estado <> "" ->
  (forall c,
      filter (fun x => (clasif_id_muestra x =? n)%Z)
        (clasificacion_herbario (db w)) = [c] ->
      filter (fun x => (clasif_id x =? clasif_id c)%Z)
        (clasificacion_herbario (db w)) = [c]) ->
  fst (put_estado_muestra idMuestra (Some estado)
         (con_fallos w (NoFault :: NoFault :: fs)))
  = Val match filter (fun x => (clasif_id_muestra x =? n)%Z)
                (clasificacion_herbario (db w)) with
        | [c] =>
            {| status := 200;
               body := BEstado (clasif_id c) estado "Estado actualizado" |}
        | _ =>
            {| status := 201;
               body := BEstado (nuevo_id (db w)) estado "Clasificación creada" |}
        end.
Proof.
  intros Hid Hestado Hunico.
  unfold put_estado_muestra, try_catch. rewrite Hid.
  unfold requerido. rewrite (truthy_nonempty estado Hestado).
  unfold bind, find_clasificacion_de_muestra, update_estado_select,
    insert_clasificacion, call, logger, json, ret, throw;
    cbn [con_fallos faults db log writes].
  destruct (filter (fun x => (clasif_id_muestra x =? n)%Z)
              (clasificacion_herbario (db w))) as [|c [|c' cs]] eqn:Hc.
  - cbn -[background actualizarEstadoPaqueteManual nuevo_id].
    repeat run_background. reflexivity.
  - specialize (Hunico c eq_refl).
    cbn -[background actualizarEstadoPaqueteManual nuevo_id filter].
    rewrite filter_con_estado, Hunico.
    cbn -[background actualizarEstadoPaqueteManual nuevo_id].
    rewrite Z.eqb_refl.
    cbn -[background actualizarEstadoPaqueteManual nuevo_id].
    repeat run_background. reflexivity.
  - cbn -[background actualizarEstadoPaqueteManual nuevo_id].
    repeat run_background. reflexivity.
Qed.

(** The answer of [PUT /clasificaciones/id/:id/estado] when its own two
    calls meet no fault, whatever the recompute it starts meets. *)
Lemma put_estado_id_exito (id : string) (n : Z) (estado : string)
    (w : World) (fs : list Fault) :
  estado <> "" ->
  pg_bigint id = Some n ->
  fst (put_estado_id id (Some estado)
         (con_fallos w (NoFault :: NoFault :: fs)))
  = Val {| status := 200;
           body := BEstadoParam id estado "Estado actualizado" |}.
Proof.
  intros Hestado Hid.
  unfold put_estado_id, try_catch, requerido.
  rewrite (truthy_nonempty estado Hestado).
  unfold bind, update_estado_param, select_muestra_de_clasificacion, call,
    logger, json, ret, throw; cbn [con_fallos faults db log writes].
  rewrite Hid. cbn -[background actualizarEstadoPaqueteManual].
  run_single; cbn -[background actualizarEstadoPaqueteManual];
    [|reflexivity].
  destruct (Z.eqb _ _); cbn -[background actualizarEstadoPaqueteManual];
    [reflexivity|].
  repeat run_background. reflexivity.
Qed.

(** C6, as the specification states it, fails for the sample lookup: an
    error the store answers the lookup with is caught, but it is not
    logged.  The run leaves the one [debug] line of a sample without
    package, no warning and no error: the log of a run in which nothing
    failed and the sample belongs to no package. *)
Lemma C6_counterexample :
  let fallo :=
    actualizarEstadoPaqueteManual 1
      (con_fallos mundo_borrador [ReplyError error_de_consulta]) in
  let sano := actualizarEstadoPaqueteManual 1 mundo_muestra_suelta in
  fst fallo = Val tt
  /\ log (snd fallo) = [entrada_sin_paquete]
  /\ log (snd sano) = [entrada_sin_paquete]
  /\ ~ In entrada_sin_paquete entradas_fallo.
Proof.
  repeat split. unfold entrada_sin_paquete, entradas_fallo. simpl.
  intros [H | [H | [H | []]]]; discriminate H.
Qed.

(** C6, amended: the recompute always returns normally, with one log
    entry.  An exception thrown by the lookup, and an error or an
    exception at the fetch of the samples or at the write of the
    package, are logged as one of the three warnings; an error the
    lookup answers with leaves only the [debug] line of a sample without
    package.  The classification update that started the recompute
    answers 200 (201 for a new classification) whenever its own calls
    to the store succeed, whatever the recompute meets. *)
Theorem C6_recompute_never_fails_request :
  (forall (idMuestra : Z) (w : World),
      exists entry w',
        actualizarEstadoPaqueteManual idMuestra w = (Val tt, w')
        /\ log w' = log w ++ [entry]
        /\ (entry = entrada_exito \/ entry = entrada_sin_paquete
            \/ In entry entradas_fallo)
        /\ (entry = entrada_exito ->
            forall k, k < 3 -> nth k (faults w) NoFault = NoFault)
        /\ (forall e, nth 0 (faults w) NoFault = ReplyError e ->
            entry = entrada_sin_paquete)
        /\ (forall message, nth 0 (faults w) NoFault = Throw message ->
            In entry entradas_fallo)
        /\ (nth 0 (faults w) NoFault = NoFault ->
            paquete_de
              (single (filter (fun m => (muestra_id m =? idMuestra)%Z)
                         (muestra_botanica (db w)))) = None ->
            entry = entrada_sin_paquete)
        /\ (nth 0 (faults w) NoFault = NoFault ->
            paquete_de
              (single (filter (fun m => (muestra_id m =? idMuestra)%Z)
                         (muestra_botanica (db w)))) <> None ->
            nth 1 (faults w) NoFault <> NoFault
            \/ nth 2 (faults w) NoFault <> NoFault ->
            In entry entradas_fallo))
  /\ (forall (idMuestra : string) (n : Z) (estado : string) (w : World)
             (fs : list Fault),
         Js.parseInt10 idMuestra = Js.Entero n ->
         estado <> "" ->
         (forall c,
             filter (fun x => (clasif_id_muestra x =? n)%Z)
               (clasificacion_herbario (db w)) = [c] ->
             filter (fun x => (clasif_id x =? clasif_id c)%Z)
               (clasificacion_herbario (db w)) = [c]) ->
         fst (put_estado_muestra idMuestra (Some estado)
                (con_fallos w (NoFault :: NoFault :: fs)))
         = Val match filter (fun x => (clasif_id_muestra x =? n)%Z)
                       (clasificacion_herbario (db w)) with
               | [c] =>
                   {| status := 200;
                      body := BEstado (clasif_id c) estado
                                "Estado actualizado" |}
               | _ =>
                   {| status := 201;
                      body := BEstado (nuevo_id (db w)) estado
                                "Clasificación creada" |}
               end)
  /\ (forall (id : string) (n : Z) (estado : string) (w : World)
             (fs : list Fault),
         estado <> "" ->
         pg_bigint id = Some n ->
         fst (put_estado_id id (Some estado)
                (con_fallos w (NoFault :: NoFault :: fs)))
         = Val {| status := 200;
                  body := BEstadoParam id estado "Estado actualizado" |}).
Proof.
  split; [exact actualizar_log|].
  split; [exact put_estado_muestra_exito|].
  exact put_estado_id_exito.
Qed.

(** The update of the only classification of sample 1 answers 200 while
    the lookup of the recompute throws, and [PUT
    /clasificaciones/id/:id/estado] answers 200 while the store refuses
    every call of the recompute. *)
Lemma C6_recompute_never_fails_request_witness :
  fst (put_estado_muestra "1" (Some "firmado")
         (con_fallos mundo_borrador [NoFault; NoFault; Throw "fetch failed"]))
  = Val {| status := 200;
           body := BEstado 10 "firmado" "Estado actualizado" |}
  /\ fst (put_estado_id "10" (Some "firmado")
            (con_fallos mundo_borrador
               [NoFault; NoFault; NoFault; ReplyError error_de_consulta]))
     = Val {| status := 200;
              body := BEstadoParam "10" "firmado" "Estado actualizado" |}.
Proof.
  split.
  - apply (proj1 (proj2 C6_recompute_never_fails_request)
             "1" 1%Z "firmado" mundo_borrador [Throw "fetch failed"]).
    + reflexivity.
    + discriminate.
    + intros c Hc. injection Hc as <-. reflexivity.
  - apply (proj2 (proj2 C6_recompute_never_fails_request)
             "10" 10%Z "firmado" mundo_borrador
             [NoFault; ReplyError error_de_consulta]).
    + discriminate.
    + reflexivity.
Defined.











End GestHerbFacts.

(* ================================================================== *)
(** * Properties of the statistics *)
(* ================================================================== *)

Module LabFacts.
Import Supabase LabService.

Section Maps.
Context {V : Type}.

Lemma get_app (k : string) (m1 m2 : list (string * V)) :
  get k (m1 ++ m2) = match get k m1 with Some v => Some v | None => get k m2 end.
Proof.
  induction m1 as [|[k' v] m1 IH]; simpl; [reflexivity|].
  now destruct (k' =? k)%string.
Qed.

Lemma get_update (k k' : string) (f : V -> V) (m : list (string * V)) :
  get k (update k' f m) =
  if (k' =? k)%string then option_map f (get k m) else get k m.
Proof.
  induction m as [|[k0 v] m IH]; simpl.
  - now destruct (k' =? k)%string.
  - destruct (String.eqb_spec k0 k') as [-> | Hne]; simpl.
    + destruct (String.eqb_spec k' k) as [-> | Hk]; reflexivity.
    + rewrite IH.
      destruct (String.eqb_spec k0 k) as [-> | Hk]; [|reflexivity].
      destruct (String.eqb_spec k' k) as [-> | Hk']; [contradiction | reflexivity].
Qed.

Lemma get_ensure (k k' : string) (v0 : V) (m : list (string * V)) :
  get k (ensure k' v0 m) =
  match get k m with
  | Some v => Some v
  | None => if (k' =? k)%string then Some v0 else None
  end.
Proof.
  unfold ensure, has.
  destruct (get k' m) as [v'|] eqn:E.
  - destruct (get k m) as [v|] eqn:E'; [reflexivity|].
    destruct (String.eqb_spec k' k) as [-> | _]; [congruence | reflexivity].
  - rewrite get_app. simpl. reflexivity.
Qed.

Lemma keys_update (k : string) (f : V -> V) (m : list (string * V)) :
  map fst (update k f m) = map fst m.
Proof.
  induction m as [|[k0 v] m IH]; simpl; [reflexivity|].
  destruct (k0 =? k)%string; simpl; [reflexivity | now rewrite IH].
Qed.

Lemma get_None_keys (k : string) (m : list (string * V)) :
  get k m = None <-> ~ In k (map fst m).
Proof.
  induction m as [|[k0 v] m IH]; simpl; [tauto|].
  destruct (String.eqb_spec k0 k) as [-> | Hne].
  - split; [discriminate | intros H; elim H; now left].
  - rewrite IH. tauto.
Qed.

Lemma In_get (k : string) (v : V) (m : list (string * V)) :
  In (k, v) m -> exists v', get k m = Some v'.
Proof.
  intros H. destruct (get k m) as [v'|] eqn:E; [now exists v'|].
  apply get_None_keys in E. elim E.
  apply in_map_iff. now exists (k, v).
Qed.

Lemma NoDup_keys_ensure (k : string) (v0 : V) (m : list (string * V)) :
  NoDup (map fst m) -> NoDup (map fst (ensure k v0 m)).
Proof.
  intros H. unfold ensure, has.
  destruct (get k m) as [v|] eqn:E; [assumption|].
  apply get_None_keys in E.
  rewrite map_app. simpl.
  apply NoDup_app; [assumption | repeat constructor; simpl; tauto |].
  intros x Hx [<- | []]. exact (E Hx).
Qed.

Lemma NoDup_In_get (k : string) (v : V) (m : list (string * V)) :
  NoDup (map fst m) -> In (k, v) m -> get k m = Some v.
Proof.
  induction m as [|[k0 v0] m IH]; simpl; intros Hnd Hin; [contradiction|].
  inversion Hnd as [|? ? Hnot Hnd']; subst.
  destruct Hin as [Heq | Hin].
  - inversion Heq; subst. now rewrite String.eqb_refl.
  - destruct (String.eqb_spec k0 k) as [-> | _].
    + elim Hnot. apply in_map_iff. now exists (k, v).
    + now apply IH.
Qed.

(** One counted step: the value under [k'] is created at zero if needed
    and moved up by one. *)
Lemma measure_step (mu : V -> nat) (k k' : string) (f : V -> V) (v0 : V)
    (m : list (string * V)) :
  mu v0 = 0 ->
  (forall v, mu (f v) = S (mu v)) ->
  option_map mu (get k (update k' f (ensure k' v0 m))) =
  if (k' =? k)%string
  then Some (S (match option_map mu (get k m) with Some n => n | None => 0 end))
  else option_map mu (get k m).
Proof.
  intros H0 Hf. rewrite get_update, get_ensure.
  destruct (String.eqb_spec k' k) as [-> | Hne].
  - destruct (get k m) as [v|]; simpl; now rewrite Hf, ?H0.
  - now destruct (get k m).
Qed.

End Maps.

Lemma In_insert_desc {A : Type} (key : A -> nat) (x y : A) (l : list A) :
  In y (insert_desc key x l) <-> y = x \/ In y l.
Proof.
  induction l as [|z l IH]; simpl.
  - split; intros [H | H]; auto.
  - destruct (key x <? key z); simpl; [rewrite IH|]; split; intuition auto.
Qed.

Lemma In_sort_desc {A : Type} (key : A -> nat) (y : A) (l : list A) :
  In y (sort_desc key l) <-> In y l.
Proof.
  unfold sort_desc. induction l as [|x l IH]; simpl; [tauto|].
  rewrite In_insert_desc, IH. split; intros [H | H]; auto.
Qed.

Lemma In_firstn {A : Type} (n : nat) (y : A) (l : list A) :
  In y (firstn n l) -> In y l.
Proof.
  intros H. rewrite <- (firstn_skipn n l). apply in_or_app. now left.
Qed.

(** ** Counting names *)

Lemma get_incrementar (k k' : string) (m : list (string * nat)) :
  get k (incrementar m k') =
  if (k' =? k)%string
  then Some (S (match get k m with Some n => n | None => 0 end))
  else get k m.
Proof.
  pose proof (measure_step (fun n => n) k k' S 0 m eq_refl (fun v => eq_refl))
    as H.
  unfold incrementar.
  destruct (get k (update k' S (ensure k' 0 m))) as [n|];
    destruct (get k m) as [n'|]; simpl in H;
    destruct (k' =? k)%string; congruence.
Qed.

Lemma NoDup_keys_incrementar (k : string) (m : list (string * nat)) :
  NoDup (map fst m) -> NoDup (map fst (incrementar m k)).
Proof.
  intros H. unfold incrementar. rewrite keys_update.
  now apply NoDup_keys_ensure.
Qed.

Lemma get_contar (k : string) (names : list string) (m : list (string * nat)) :
  get k (fold_left incrementar names m) =
  match count_occ string_dec names k with
  | 0 => get k m
  | S c => Some (match get k m with Some n => n | None => 0 end + S c)
  end.
Proof.
  revert m; induction names as [|x names IH]; intros m; simpl.
  - reflexivity.
  - rewrite IH, get_incrementar.
    destruct (string_dec x k) as [-> | Hne].
    + rewrite String.eqb_refl.
      destruct (count_occ string_dec names k); f_equal; lia.
    + apply String.eqb_neq in Hne. rewrite Hne. reflexivity.
Qed.

Lemma NoDup_keys_contar (names : list string) (m : list (string * nat)) :
  NoDup (map fst m) -> NoDup (map fst (fold_left incrementar names m)).
Proof.
  revert m; induction names as [|x names IH]; intros m H; simpl; [assumption|].
  apply IH. now apply NoDup_keys_incrementar.
Qed.

(** Every entry of the counting map holds the number of occurrences of
    its name, which is not zero. *)
Lemma contar_entries (names : list string) (k : string) (c : nat) :
  In (k, c) (fold_left incrementar names []) ->
  c = count_occ string_dec names k /\ 0 < c.
Proof.
  intros H.
  apply NoDup_In_get in H; [|apply NoDup_keys_contar; constructor].
  rewrite get_contar in H. simpl in H.
  destruct (count_occ string_dec names k); [discriminate|].
  inversion H; subst. split; lia.
Qed.

(** ** No classified specimen *)

Lemma filter_nothing {A : Type} (f : A -> bool) (l : list A) :
  (forall a, In a l -> f a = false) -> filter f l = [].
Proof.
  induction l as [|a l IH]; simpl; intros H; [reflexivity|].
  rewrite (H a) by now left. apply IH. intros b Hb. apply H. now right.
Qed.

Lemma estadisticas_sin_especie (muestras : option (list Muestra))
    (clasificaciones : option (list Clasificacion)) :
  clasificacionesConEspecie clasificaciones = [] ->
  estadisticas muestras clasificaciones =
  {| departamentos := [];
     regiones := map region_vacia regionesBase;
     total_especimenes := 0;
     total_clasificaciones := 0;
     especies_amenazadas := [] |}.
Proof.
  intros H. unfold estadisticas. rewrite H.
  assert (Hm : muestrasClasificadas muestras [] = []).
  { destruct muestras as [ms|]; [|reflexivity]. simpl.
    apply filter_nothing. reflexivity. }
  rewrite Hm. reflexivity.
Qed.

(** C7: without classified specimens, that is when no classification in
    state [completado] or [firmado] has a species, [GET /estadisticas]
    reports [total_especimenes = 0], every department and region
    percentage 0, the five fixed regions with zero fields, and an empty
    [especies_amenazadas]. *)
Theorem C7_estadisticas_sin_clasificados (muestras : option (list Muestra))
    (tabla : list Clasificacion)
    (H : forall c, In c tabla ->
           Js.includes ["completado"; "firmado"] (clasificacion_estado c) = true ->
           clasificacion_id_especie c = None \/ clasificacion_especie c = None) :
  let r := estadisticas muestras (Some (select_clasificaciones tabla)) in
  total_especimenes r = 0
  /\ departamentos r = []
  /\ Forall (fun d => do_percentage d = 0%Z) (departamentos r)
  /\ Forall (fun g => ro_percentage g = 0%Z) (regiones r)
  /\ regiones r = map region_vacia regionesBase
  /\ especies_amenazadas r = [].
Proof.
  cbv zeta. rewrite estadisticas_sin_especie.
  - simpl. repeat split; repeat constructor.
  - simpl. apply filter_nothing. intros c Hc.
    unfold select_clasificaciones in Hc. apply filter_In in Hc.
    destruct Hc as [Hin Hest]. unfold con_especie.
    destruct (H c Hin Hest) as [-> | ->]; [reflexivity|].
    now destruct (clasificacion_id_especie c).
Qed.

Lemma C7_estadisticas_sin_clasificados_witness :
  let r := estadisticas
             (Some [ {| muestra_id := 1;
                        muestra_paquete := paquete_en "Huila" "Andina" |} ])
             (Some (select_clasificaciones tabla_sin_clasificados)) in
  total_especimenes r = 0
  /\ departamentos r = []
  /\ Forall (fun d => do_percentage d = 0%Z) (departamentos r)
  /\ Forall (fun g => ro_percentage g = 0%Z) (regiones r)
  /\ regiones r = map region_vacia regionesBase
  /\ especies_amenazadas r = [].
Proof.
  apply (C7_estadisticas_sin_clasificados
           (Some [ {| muestra_id := 1;
                      muestra_paquete := paquete_en "Huila" "Andina" |} ])
           tabla_sin_clasificados).
  intros c [<- | [<- | []]] Hest.
  - discriminate Hest.
  - right. reflexivity.
Defined.

(** ** Percentages of the taxonomic filter *)

(** The nested loops count the names of [taxones], one by one. *)
Lemma contar_taxones_names (nivel : string) (m : MuestraTaxonomia)
    (acc : list (string * nat)) :
  contar_taxones nivel acc m = fold_left incrementar (taxones_de nivel m) acc.
Proof.
  unfold contar_taxones, taxones_de.
  revert acc; induction (clasificaciones_de m) as [|c cs IH]; intros acc;
    simpl; [reflexivity|].
  rewrite IH. unfold contar_clasificacion.
  destruct (taxonNombre nivel c); reflexivity.
Qed.

Lemma taxonMap_fold (nivel : string) (filtradas : list MuestraTaxonomia)
    (acc : list (string * nat)) :
  fold_left (contar_taxones nivel) filtradas acc
  = fold_left incrementar (taxones nivel filtradas) acc.
Proof.
  unfold taxones.
  revert acc; induction filtradas as [|m ms IH]; intros acc; simpl;
    [reflexivity|].
  now rewrite fold_left_app, IH, contar_taxones_names.
Qed.

(** C4, as the specification states it, fails: in Huila one of the two
    filtered samples has no resolvable family, and the percentage of
    Rubiaceae is 50, over the two filtered samples, not the 100 that the
    one sample with a resolvable family would give. *)
Lemma C4_counterexample :
  let filtradas :=
    muestrasFiltradas "Huila" "departamento" (Some muestras_huila) in
  In rubiaceae_huila
    (estadisticas_taxonomia "Huila" "departamento" "familia"
       (Some muestras_huila))
  /\ List.length (filter (resoluble "familia") filtradas) = 1
  /\ to_percentage rubiaceae_huila
     <> Js.Math_round
          (Js.ratio100 (to_count rubiaceae_huila)
             (List.length (filter (resoluble "familia") filtradas))).
Proof.
  repeat split.
  - left. reflexivity.
  - vm_compute. discriminate.
Qed.

(** C4, amended: a classification without a resolvable taxon name at the
    requested level is left out of the counts, but its sample stays in
    the denominator: every returned percentage is
    [Math.round(count / n * 100)] with [n] the number of samples that
    pass the location filter, and [count] the number of counted
    classifications with that taxon name. *)
Theorem C4_percentage_over_filtered (ubicacion tipo nivel : string)
    (muestras : option (list MuestraTaxonomia)) (t : TaxonOut)
    (H : In t (estadisticas_taxonomia ubicacion tipo nivel muestras)) :
  let filtradas := muestrasFiltradas ubicacion tipo muestras in
  to_count t = count_occ string_dec (taxones nivel filtradas) (to_name t)
  /\ to_percentage t
     = Js.Math_round (Js.ratio100 (to_count t) (List.length filtradas)).
Proof.
  cbv zeta. unfold estadisticas_taxonomia in H.
  apply In_firstn, In_sort_desc, in_map_iff in H.
  destruct H as [[k c] [Ht Hin]]. subst t. simpl.
  unfold taxonMap in Hin. rewrite taxonMap_fold in Hin.
  apply contar_entries in Hin. destruct Hin as [Hc Hpos].
  split; [exact Hc|].
  unfold percentage_of.
  destruct (muestrasFiltradas ubicacion tipo muestras) as [|m ms] eqn:E.
  - rewrite Hc in Hpos. simpl in Hpos. lia.
  - reflexivity.
Qed.

Lemma C4_percentage_over_filtered_witness :
  to_count rubiaceae_huila
  = count_occ string_dec
      (taxones "familia"
         (muestrasFiltradas "Huila" "departamento" (Some muestras_huila)))
      (to_name rubiaceae_huila)
  /\ to_percentage rubiaceae_huila
     = Js.Math_round
         (Js.ratio100 (to_count rubiaceae_huila)
            (List.length
               (muestrasFiltradas "Huila" "departamento" (Some muestras_huila)))).
Proof.
  apply (C4_percentage_over_filtered "Huila" "departamento" "familia"
           (Some muestras_huila) rubiaceae_huila).
  left. reflexivity.
Defined.

(** ** Region buckets *)

Lemma snd_agrupar_muestra (mapas : Mapas) (m : Muestra) :
  snd (agrupar_muestra mapas m) = paso_region (snd mapas) m.
Proof.
  destruct mapas as [dm rm]. unfold agrupar_muestra, paso_region. simpl.
  destruct (region_de (departamento_de (muestra_paquete m))); reflexivity.
Qed.

Lemma snd_fold_agrupar (ms : list Muestra) (mapas : Mapas) :
  snd (fold_left agrupar_muestra ms mapas) = fold_left paso_region ms (snd mapas).
Proof.
  revert mapas; induction ms as [|m ms IH]; intros mapas; simpl; [reflexivity|].
  now rewrite IH, snd_agrupar_muestra.
Qed.

Lemma especimenes_paso (key : string) (rm : list (string * RegionData))
    (m : Muestra) :
  especimenes key (paso_region rm m) =
  if en_region_almacenada key m
  then Some (S (match especimenes key rm with Some n => n | None => 0 end))
  else especimenes key rm.
Proof.
  unfold especimenes, paso_region, en_region_almacenada, nombre_region.
  destruct (region_de (departamento_de (muestra_paquete m))) as [r|]; simpl;
    [|reflexivity].
  now rewrite measure_step.
Qed.

Lemma especimenes_fold (key : string) (ms : list Muestra)
    (rm : list (string * RegionData)) :
  especimenes key (fold_left paso_region ms rm) =
  match List.length (filter (en_region_almacenada key) ms) with
  | 0 => especimenes key rm
  | S c => Some (match especimenes key rm with Some n => n | None => 0 end + S c)
  end.
Proof.
  revert rm; induction ms as [|m ms IH]; intros rm; simpl; [reflexivity|].
  rewrite IH, especimenes_paso.
  destruct (en_region_almacenada key m); simpl; [|reflexivity].
  destruct (List.length (filter (en_region_almacenada key) ms)); f_equal; lia.
Qed.

Lemma especimenes_agregar (key : string) (clasificadas : list Muestra)
    (mapas : Mapas) (c : Clasificacion) :
  especimenes key (snd (agregar_especie clasificadas mapas c)) =
  especimenes key (snd mapas).
Proof.
  destruct mapas as [dm rm]. unfold agregar_especie.
  destruct (clasificacion_especie c) as [e|]; [|reflexivity]. simpl.
  destruct (region_de _) as [r|]; [|reflexivity].
  unfold especimenes. rewrite get_update.
  destruct (region_nombre r =? key)%string; [|reflexivity].
  now destruct (get key rm).
Qed.

Lemma especimenes_fold_agregar (key : string) (clasificadas : list Muestra)
    (cs : list Clasificacion) (mapas : Mapas) :
  especimenes key (snd (fold_left (agregar_especie clasificadas) cs mapas)) =
  especimenes key (snd mapas).
Proof.
  revert mapas; induction cs as [|c cs IH]; intros mapas; simpl; [reflexivity|].
  now rewrite IH, especimenes_agregar.
Qed.

(** After the two loops, the entry of a stored name holds the number of
    classified samples stored under it; names without samples have no
    entry. *)
Lemma especimenes_mapas (key : string) (clasificadas : list Muestra)
    (cs : list Clasificacion) :
  especimenes key (snd (mapas_de clasificadas cs)) =
  some_pos (List.length (filter (en_region_almacenada key) clasificadas)).
Proof.
  unfold mapas_de.
  rewrite especimenes_fold_agregar, snd_fold_agrupar, especimenes_fold. simpl.
  now destruct (List.length _).
Qed.

Lemma filter_length_pos {A : Type} (f : A -> bool) (l : list A) :
  0 < List.length (filter f l) -> exists a, In a l /\ f a = true.
Proof.
  destruct (filter f l) as [|a l'] eqn:E; simpl; [lia|].
  intros _. exists a. apply filter_In. rewrite E. now left.
Qed.

Section Bucket.
Variables (clasificadas : list Muestra) (rm : list (string * RegionData)).
Variables (b k : string).
Hypothesis Hrm : forall key,
  especimenes key rm =
  some_pos (List.length (filter (en_region_almacenada key) clasificadas)).
Hypothesis Hb : normalizarRegion (Some b) = Some b.
Hypothesis Hrb : normalizarRegion (Some ("Región " ++ b)%string) = Some b.
Hypothesis Hk : k = b \/ k = ("Región " ++ b)%string.
Hypothesis Huno : forall m r,
  In m clasificadas -> nombre_region m = Some r ->
  normalizarRegion (Some r) = Some b -> r = k.

Lemma entrada_especimenes (key : string) (d : RegionData) :
  get key rm = Some d ->
  rd_specimens d = List.length (filter (en_region_almacenada key) clasificadas)
  /\ 0 < List.length (filter (en_region_almacenada key) clasificadas).
Proof.
  intros E. pose proof (Hrm key) as H. unfold especimenes in H.
  rewrite E in H. simpl in H.
  destruct (List.length _); simpl in H; [discriminate|].
  inversion H. lia.
Qed.

Lemma sin_entrada (key : string) :
  get key rm = None ->
  List.length (filter (en_region_almacenada key) clasificadas) = 0.
Proof.
  intros E. pose proof (Hrm key) as H. unfold especimenes in H.
  rewrite E in H. simpl in H.
  destruct (List.length _); simpl in H; [reflexivity | discriminate].
Qed.

Lemma nombre_unico (key : string) :
  0 < List.length (filter (en_region_almacenada key) clasificadas) ->
  normalizarRegion (Some key) = Some b -> key = k.
Proof.
  intros Hpos Hn. apply filter_length_pos in Hpos.
  destruct Hpos as [m [Hin Hm]]. unfold en_region_almacenada in Hm.
  destruct (nombre_region m) as [r|] eqn:Er; [|discriminate].
  apply String.eqb_eq in Hm. subst r. now apply (Huno m key).
Qed.

Lemma normaliza_k : normalizarRegion (Some k) = Some b.
Proof. destruct Hk as [E | E]; rewrite E; assumption. Qed.

Lemma almacenada_normalizada :
  List.length (filter (en_region_almacenada k) clasificadas) =
  List.length (filter (en_region_normalizada b) clasificadas).
Proof.
  f_equal. apply filter_ext_in. intros m Hin.
  unfold en_region_almacenada, en_region_normalizada.
  destruct (nombre_region m) as [r|] eqn:Er; [|reflexivity].
  destruct (String.eqb_spec r k) as [-> | Hne].
  - rewrite normaliza_k. now rewrite String.eqb_refl.
  - destruct (normalizarRegion (Some r)) as [n|] eqn:En; [|reflexivity].
    destruct (String.eqb_spec n b) as [-> | _]; [|reflexivity].
    elim Hne. now apply (Huno m r).
Qed.

Lemma buscar_region_unico :
  match buscar_region rm b with
  | Some d => rd_specimens d
  | None => 0
  end = List.length (filter (en_region_normalizada b) clasificadas).
Proof.
  rewrite <- almacenada_normalizada.
  unfold buscar_region.
  destruct (get b rm) as [d|] eqn:E1.
  { destruct (entrada_especimenes b d E1) as [Hd Hpos].
    now rewrite <- (nombre_unico b Hpos Hb). }
  destruct (get ("Región " ++ b)%string rm) as [d|] eqn:E2.
  { destruct (entrada_especimenes _ d E2) as [Hd Hpos].
    now rewrite <- (nombre_unico _ Hpos Hrb). }
  assert (Hnone : get k rm = None)
    by (destruct Hk as [E | E]; rewrite E; assumption).
  destruct (find _ rm) as [[key d]|] eqn:E3; simpl.
  - apply find_some in E3. destruct E3 as [Hin Hn]. cbn [fst] in Hn.
    destruct (normalizarRegion (Some key)) as [n|] eqn:En; [|discriminate].
    apply String.eqb_eq in Hn. subst n.
    destruct (In_get key d rm Hin) as [d' Hd'].
    destruct (entrada_especimenes key d' Hd') as [_ Hpos].
    rewrite (nombre_unico key Hpos En) in Hd'. congruence.
  - symmetry. now apply sin_entrada.
Qed.

End Bucket.

Lemma regiones_estadisticas (muestras : option (list Muestra))
    (clasificaciones : option (list Clasificacion)) :
  let conEspecie := clasificacionesConEspecie clasificaciones in
  let clasificadas := muestrasClasificadas muestras conEspecie in
  regiones (estadisticas muestras clasificaciones) =
    map (region_out (List.length clasificadas)
           (snd (mapas_de clasificadas conEspecie)))
      regionesBase
  /\ total_especimenes (estadisticas muestras clasificaciones) =
     List.length clasificadas.
Proof.
  cbv zeta. unfold estadisticas.
  destruct (mapas_de _ _) as [dm rm]. split; reflexivity.
Qed.

Lemma base_normaliza (b : string) :
  In b regionesBase ->
  normalizarRegion (Some b) = Some b
  /\ normalizarRegion (Some ("Región " ++ b)%string) = Some b.
Proof.
  unfold regionesBase. simpl.
  intros [<- | [<- | [<- | [<- | [<- | []]]]]]; split; reflexivity.
Qed.

Lemma ratio100_zero (total : nat) : Js.Math_round (Js.ratio100 0 total) = 0%Z.
Proof.
  unfold Js.ratio100, Js.div, Js.mul.
  change (Js.of_nat 0) with (S754_zero false).
  destruct (Js.of_nat total) as [s| s | | s m e]; reflexivity.
Qed.

Lemma region_out_name (total : nat) (rm : list (string * RegionData))
    (b : string) :
  ro_name (region_out total rm b) = b.
Proof. unfold region_out. now destruct (buscar_region rm b). Qed.

Lemma region_out_specimens (total : nat) (rm : list (string * RegionData))
    (b : string) :
  ro_specimens (region_out total rm b) =
    match buscar_region rm b with
    | Some d => rd_specimens d
    | None => 0
    end
  /\ ro_percentage (region_out total rm b) =
     percentage_of (ro_specimens (region_out total rm b)) total.
Proof.
  unfold region_out. destruct (buscar_region rm b); simpl; split; try reflexivity.
  unfold percentage_of. destruct (0 <? total); [|reflexivity].
  now rewrite ratio100_zero.
Qed.

(** C5, as the specification states it, fails: with one classified
    sample stored under [Andina] and one under [Región Andina], two
    samples normalize to the region, and its bucket reports one. *)
Lemma C5_counterexample :
  let r := estadisticas (Some muestras_dos_nombres) (Some clasificaciones_dos) in
  let clasificadas :=
    muestrasClasificadas (Some muestras_dos_nombres)
      (clasificacionesConEspecie (Some clasificaciones_dos)) in
  List.length (filter (en_region_normalizada "Andina") clasificadas) = 2
  /\ forall out, In out (regiones r) -> ro_name out = "Andina" ->
       ro_specimens out = 1.
Proof.
  split; [reflexivity|].
  intros out Hin Hname. vm_compute in Hin.
  destruct Hin as [<- | [<- | [<- | [<- | [<- | []]]]]];
    solve [reflexivity | discriminate Hname].
Qed.

(** C5, amended: the bucket of each of the five fixed regions is looked
    up among the stored names: the region's name, else that name after
    [Región ], else the first stored name that normalizes to it.  So
    when the classified samples of a region all carry one stored name,
    the region's name or that name after [Región ], its bucket
    accumulates all of them, whichever of the two names is stored. *)
Theorem C5_region_bucket_single_name (muestras : option (list Muestra))
    (clasificaciones : option (list Clasificacion)) (b k : string)
    (Hb : In b regionesBase)
    (Hk : k = b \/ k = ("Región " ++ b)%string)
    (Huno : forall m r,
        In m (muestrasClasificadas muestras
                (clasificacionesConEspecie clasificaciones)) ->
        nombre_region m = Some r ->
        normalizarRegion (Some r) = Some b -> r = k) :
  let clasificadas :=
    muestrasClasificadas muestras (clasificacionesConEspecie clasificaciones) in
  let r := estadisticas muestras clasificaciones in
  (exists out, In out (regiones r) /\ ro_name out = b)
  /\ forall out, In out (regiones r) -> ro_name out = b ->
       ro_specimens out
       = List.length (filter (en_region_normalizada b) clasificadas)
       /\ ro_percentage out
          = percentage_of (ro_specimens out) (total_especimenes r).
Proof.
  cbv zeta.
  destruct (regiones_estadisticas muestras clasificaciones) as [Hr Ht].
  cbv zeta in Hr, Ht. rewrite Hr, Ht.
  split.
  - eexists. split; [apply in_map; exact Hb | apply region_out_name].
  - intros out Hin Hname. apply in_map_iff in Hin.
    destruct Hin as [b' [<- _]]. rewrite region_out_name in Hname. subst b'.
    destruct (region_out_specimens
                (List.length (muestrasClasificadas muestras
                   (clasificacionesConEspecie clasificaciones)))
                (snd (mapas_de
                        (muestrasClasificadas muestras
                           (clasificacionesConEspecie clasificaciones))
                        (clasificacionesConEspecie clasificaciones))) b)
      as [Hs Hp].
    split; [|exact Hp].
    rewrite Hs.
    destruct (base_normaliza b Hb) as [Hn Hrn].
    apply (buscar_region_unico _ _ b k); try assumption.
    intros key. apply especimenes_mapas.
Qed.

Lemma C5_region_bucket_single_name_witness :
  let clasificadas :=
    muestrasClasificadas (Some muestras_un_nombre)
      (clasificacionesConEspecie (Some clasificaciones_dos)) in
  let r := estadisticas (Some muestras_un_nombre) (Some clasificaciones_dos) in
  (exists out, In out (regiones r) /\ ro_name out = "Andina")
  /\ forall out, In out (regiones r) -> ro_name out = "Andina" ->
       ro_specimens out
       = List.length (filter (en_region_normalizada "Andina") clasificadas)
       /\ ro_percentage out
          = percentage_of (ro_specimens out) (total_especimenes r).
Proof.
  apply (C5_region_bucket_single_name (Some muestras_un_nombre)
           (Some clasificaciones_dos) "Andina" "Región Andina").
  - left. reflexivity.
  - right. reflexivity.
  - intros m r Hin Hr _. vm_compute in Hin.
    destruct Hin as [<- | [<- | []]]; vm_compute in Hr;
      inversion Hr; reflexivity.
Defined.

End LabFacts.

(* ================================================================== *)
(** * Properties of the tables after a request *)
(* ================================================================== *)

Module GestHerbTablasFacts.
Import Supabase GestHerb GestHerbFacts GestHerbTablas.

(** ** A run of the recompute that meets no fault *)

Lemma sin_fallos_tres (w : World) : faults w = [] -> tres_sin_fallo w.
Proof. intros Hf k _. rewrite Hf. now destruct k. Qed.

Lemma actualizar_run (idMuestra idPaquete : Z) (w : World) :
  tres_sin_fallo w ->
  paquete_en_tablas (db w) idMuestra = Some idPaquete ->
  actualizarEstadoPaqueteManual idMuestra w =
  (Val tt,
   {| db := set_paquete (db w)
              (paquetes_con idPaquete (nuevoEstado (muestras_de (db w) idPaquete))
                 (paquete (db w)));
      faults := skipn 3 (faults w);
      log := log w ++ [entrada_exito];
      writes := writes w
                ++ [UpdatePaquete idPaquete
                      (nuevoEstado (muestras_de (db w) idPaquete))] |}).
Proof.
  intros Hf Hp. unfold paquete_en_tablas in Hp.
  pose proof (Hf 0 ltac:(lia)) as H0.
  pose proof (Hf 1 ltac:(lia)) as H1.
  pose proof (Hf 2 ltac:(lia)) as H2.
  unfold actualizarEstadoPaqueteManual, try_catch, bind,
    select_paquete_de_muestra, select_muestras_de_paquete, update_paquete,
    call, logger.
  destruct (faults w) as [|[|e1|m1] [|[|e2|m2] [|[|e3|m3] fs]]];
    cbn in H0, H1, H2; try discriminate; cbn; rewrite Hp; cbn;
    rewrite !app_nil_r; reflexivity.
Qed.

Lemma paquetes_con_estado (idPaquete : Z) (estado : string)
    (ps : list PaqueteRow) (q : PaqueteRow) :
  In q (paquetes_con idPaquete estado ps) ->
  paquete_id q = idPaquete -> paquete_estado q = estado.
Proof.
  unfold paquetes_con. intros Hin Hid. apply in_map_iff in Hin.
  destruct Hin as [q0 [Hq0 _]].
  destruct (Z.eqb_spec (paquete_id q0) idPaquete) as [E | E]; subst q.
  - reflexivity.
  - contradiction.
Qed.

Lemma paquetes_con_ids (idPaquete : Z) (estado : string) (ps : list PaqueteRow) :
  map paquete_id (paquetes_con idPaquete estado ps) = map paquete_id ps.
Proof.
  unfold paquetes_con. rewrite map_map. apply map_ext. intros p.
  now destruct (paquete_id p =? idPaquete)%Z.
Qed.

Lemma paquetes_con_otros (idPaquete : Z) (estado : string)
    (ps : list PaqueteRow) (q : PaqueteRow) :
  In q ps -> paquete_id q <> idPaquete ->
  In q (paquetes_con idPaquete estado ps).
Proof.
  intros Hin Hne. unfold paquetes_con. apply in_map_iff. exists q.
  split; [|exact Hin].
  destruct (Z.eqb_spec (paquete_id q) idPaquete); [contradiction | reflexivity].
Qed.

(** X6: when its three calls to the store meet no fault and the sample
    has a package, [actualizarEstadoPaqueteManual] sends one write, the
    update of that package to the state derived from the package's
    samples as stored; it logs the success, leaves the samples and the
    classifications as they are, and in the [paquete] table the rows of
    that package carry the derived state while every other row stays. *)
Theorem X6_recompute_effect (idMuestra idPaquete : Z) (w : World)
    (Hf : tres_sin_fallo w)
    (Hp : paquete_en_tablas (db w) idMuestra = Some idPaquete) :
  let nuevo := nuevoEstado (muestras_de (db w) idPaquete) in
  let w' := snd (actualizarEstadoPaqueteManual idMuestra w) in
  fst (actualizarEstadoPaqueteManual idMuestra w) = Val tt
  /\ writes w' = writes w ++ [UpdatePaquete idPaquete nuevo]
  /\ log w' = log w ++ [entrada_exito]
  /\ faults w' = skipn 3 (faults w)
  /\ muestra_botanica (db w') = muestra_botanica (db w)
  /\ clasificacion_herbario (db w') = clasificacion_herbario (db w)
  /\ map paquete_id (paquete (db w')) = map paquete_id (paquete (db w))
  /\ (forall q, In q (paquete (db w')) -> paquete_id q = idPaquete ->
        paquete_estado q = nuevo)
  /\ (forall q, In q (paquete (db w)) -> paquete_id q <> idPaquete ->
        In q (paquete (db w'))).
Proof.
  cbv zeta. rewrite (actualizar_run idMuestra idPaquete w Hf Hp). cbn.
  repeat split.
  - apply paquetes_con_ids.
  - intros q. apply paquetes_con_estado.
  - intros q. apply paquetes_con_otros.
Qed.

Lemma X6_recompute_effect_witness :
  let w' := snd (actualizarEstadoPaqueteManual 1 mundo_borrador) in
  writes w' = [UpdatePaquete 7 "en_proceso"]
  /\ forall q, In q (paquete (db w')) -> paquete_id q = 7%Z ->
       paquete_estado q = "en_proceso".
Proof.
  assert (Hf : tres_sin_fallo mundo_borrador)
    by (intros [|[|[|k]]] _; reflexivity).
  assert (Hp : paquete_en_tablas (db mundo_borrador) 1 = Some 7%Z)
    by reflexivity.
  destruct (X6_recompute_effect 1 7 mundo_borrador Hf Hp)
    as (_ & Hw & _ & _ & _ & _ & _ & Hq & _).
  split; [exact Hw | exact Hq].
Defined.

Lemma paquetes_con_idem (idPaquete : Z) (estado : string) (ps : list PaqueteRow) :
  paquetes_con idPaquete estado (paquetes_con idPaquete estado ps)
  = paquetes_con idPaquete estado ps.
Proof.
  unfold paquetes_con. rewrite map_map. apply map_ext. intros p.
  destruct (Z.eqb_spec (paquete_id p) idPaquete) as [E | E]; simpl.
  - rewrite E, Z.eqb_refl. reflexivity.
  - apply Z.eqb_neq in E. now rewrite E.
Qed.

(** X7: with no fault, a second run of the recompute for the same
    sample leaves the three tables as the first run left them. *)
Theorem X7_recompute_idempotent_state (idMuestra idPaquete : Z) (w : World)
    (Hf : faults w = [])
    (Hp : paquete_en_tablas (db w) idMuestra = Some idPaquete) :
  let w1 := snd (actualizarEstadoPaqueteManual idMuestra w) in
  let w2 := snd (actualizarEstadoPaqueteManual idMuestra w1) in
  db w2 = db w1.
Proof.
  cbv zeta.
  pose proof (sin_fallos_tres w Hf) as H3.
  rewrite (actualizar_run idMuestra idPaquete w H3 Hp). cbn [snd].
  set (w1 := {| db := _ |}).
  assert (H3' : tres_sin_fallo w1).
  { intros k _. unfold w1; cbn. rewrite Hf. now destruct k as [|[|[|k]]]. }
  assert (Hp' : paquete_en_tablas (db w1) idMuestra = Some idPaquete) by exact Hp.
  rewrite (actualizar_run idMuestra idPaquete w1 H3' Hp'). cbn [snd db].
  unfold w1; cbn [db]. unfold set_paquete; cbn.
  f_equal. change (muestras_de _ idPaquete) with (muestras_de (db w) idPaquete) at 1.
  apply paquetes_con_idem.
Qed.

Lemma X7_recompute_idempotent_state_witness :
  let w1 := snd (actualizarEstadoPaqueteManual 1 mundo_borrador) in
  let w2 := snd (actualizarEstadoPaqueteManual 1 w1) in
  db w2 = db w1.
Proof.
  apply (X7_recompute_idempotent_state 1 7 mundo_borrador); reflexivity.
Defined.

(** ** The order of the samples *)

Lemma filter_length_Permutation {A : Type} (f : A -> bool) (l l' : list A) :
  Permutation l l' -> List.length (filter f l) = List.length (filter f l').
Proof.
  induction 1 as [|x l l' _ IH|x y l|l l' l'' _ IH1 _ IH2]; simpl.
  - reflexivity.
  - destruct (f x); simpl; now rewrite IH.
  - destruct (f x), (f y); reflexivity.
  - now rewrite IH1.
Qed.

(** X8: the state derived for a package does not depend on the order in
    which the store returns its samples. *)
Theorem X8_nuevoEstado_Permutation (ms ms' : list MuestraConClasificaciones)
    (H : Permutation ms ms') :
  nuevoEstado ms = nuevoEstado ms'.
Proof.
  rewrite !nuevoEstado_counts. unfold total, completed, inProgress.
  rewrite (Permutation_length H).
  rewrite (filter_length_Permutation es_completada ms ms' H).
  now rewrite (filter_length_Permutation es_en_proceso ms ms' H).
Qed.

Lemma X8_nuevoEstado_Permutation_witness :
  nuevoEstado tres_muestras = nuevoEstado (rev tres_muestras).
Proof.
  apply X8_nuevoEstado_Permutation. apply Permutation_rev.
Defined.

(** ** [PUT /clasificaciones/id/:id/estado] *)

Lemma map_unchanged {A : Type} (f : A -> A) (l : list A) :
  (forall a, In a l -> f a = a) -> map f l = l.
Proof.
  intros H. rewrite <- (map_id l) at 2. now apply map_ext_in.
Qed.

(** X9: [PUT /clasificaciones/id/:id/estado] for an id that no row
    carries still answers 200 [Estado actualizado]: the update is sent,
    the tables stay as they are, and the package lookup is skipped. *)
Theorem X9_put_estado_id_sin_fila (id : string) (n : Z) (estado : string)
    (w : World)
    (Hestado : estado <> "")
    (Hid : pg_bigint id = Some n)
    (Hnone : forall c, In c (clasificacion_herbario (db w)) -> clasif_id c <> n)
    (Hupdate : nth 0 (faults w) NoFault = NoFault)
    (Hselect : forall message, nth 1 (faults w) NoFault <> Throw message) :
  let w' := snd (put_estado_id id (Some estado) w) in
  fst (put_estado_id id (Some estado) w)
  = Val {| status := 200; body := BEstadoParam id estado "Estado actualizado" |}
  /\ db w' = db w
  /\ writes w' = writes w ++ [UpdateClasificacionParam id estado].
Proof.
  cbv zeta.
  assert (Hf : filter (fun c => (clasif_id c =? n)%Z)
                 (clasificacion_herbario (db w)) = []).
  { apply filter_none. intros c Hc. apply Z.eqb_neq. now apply Hnone. }
  assert (Hm : map (fun c => if (clasif_id c =? n)%Z then con_estado estado c else c)
                 (clasificacion_herbario (db w)) = clasificacion_herbario (db w)).
  { apply map_unchanged. intros c Hc.
    destruct (Z.eqb_spec (clasif_id c) n) as [E | _]; [|reflexivity].
    elim (Hnone c Hc E). }
  unfold put_estado_id, try_catch, requerido.
  rewrite (truthy_nonempty estado Hestado).
  unfold bind, update_estado_param, select_muestra_de_clasificacion, call,
    logger, json, ret; cbn [faults db log writes]. rewrite Hid.
  assert (Hdb : set_clasificacion (db w) (clasificacion_herbario (db w)) = db w)
    by now destruct (db w).
  destruct (faults w) as [|[|e1|m1] [|[|e2|m2] fs]]; cbn in Hupdate, Hselect;
    try discriminate;
    try (exfalso; eapply Hselect; reflexivity);
    cbn; rewrite ?Hm, ?Hf, ?Hdb; cbn; rewrite ?app_nil_r; repeat split.
Qed.

Lemma X9_put_estado_id_sin_fila_witness :
  let w' := snd (put_estado_id "99" (Some "firmado") mundo_borrador) in
  fst (put_estado_id "99" (Some "firmado") mundo_borrador)
  = Val {| status := 200; body := BEstadoParam "99" "firmado" "Estado actualizado" |}
  /\ db w' = db mundo_borrador
  /\ writes w' = [UpdateClasificacionParam "99" "firmado"].
Proof.
  apply (X9_put_estado_id_sin_fila "99" 99 "firmado" mundo_borrador).
  - discriminate.
  - reflexivity.
  - intros c [<- | []]. discriminate.
  - reflexivity.
  - intros message. discriminate.
Defined.

(** X10: when the lookup of the sample throws, [PUT
    /clasificaciones/id/:id/estado] answers 500 [Error interno del
    servidor] although the update was sent and applied; the package
    table is not touched. *)
Theorem X10_put_estado_id_lookup_throws (id : string) (n : Z) (estado : string)
    (message : string) (w : World)
    (Hestado : estado <> "")
    (Hid : pg_bigint id = Some n)
    (Hupdate : nth 0 (faults w) NoFault = NoFault)
    (Hselect : nth 1 (faults w) NoFault = Throw message) :
  let w' := snd (put_estado_id id (Some estado) w) in
  fst (put_estado_id id (Some estado) w)
  = Val {| status := 500;
           body := BError "Error interno del servidor" (Some message) |}
  /\ writes w' = writes w ++ [UpdateClasificacionParam id estado]
  /\ clasificacion_herbario (db w')
     = clasificaciones_con n estado (clasificacion_herbario (db w))
  /\ paquete (db w') = paquete (db w).
Proof.
  cbv zeta.
  unfold put_estado_id, try_catch, requerido.
  rewrite (truthy_nonempty estado Hestado).
  unfold bind, update_estado_param, select_muestra_de_clasificacion, call,
    logger, json, ret; cbn [faults db log writes]. rewrite Hid.
  destruct (faults w) as [|[|e1|m1] [|[|e2|m2] fs]]; cbn in Hupdate, Hselect;
    try discriminate.
  inversion Hselect; subst. cbn. rewrite ?app_nil_r. repeat split.
Qed.

Lemma X10_put_estado_id_lookup_throws_witness :
  let w := con_fallos mundo_borrador [NoFault; Throw "fetch failed"] in
  let w' := snd (put_estado_id "10" (Some "firmado") w) in
  fst (put_estado_id "10" (Some "firmado") w)
  = Val {| status := 500;
           body := BError "Error interno del servidor" (Some "fetch failed") |}
  /\ map clasif_estado (clasificacion_herbario (db w')) = ["firmado"].
Proof.
  cbv zeta.
  destruct (X10_put_estado_id_lookup_throws "10" 10 "firmado" "fetch failed"
              (con_fallos mundo_borrador [NoFault; Throw "fetch failed"]))
    as (Hr & _ & Hc & _).
  - discriminate.
  - reflexivity.
  - reflexivity.
  - reflexivity.
  - split; [exact Hr|]. rewrite Hc. reflexivity.
Defined.

(** ** Rejected requests *)

Lemma rechazo_sin_efecto (idMuestra id : string) (estado : option string)
    (w : World) :
  (forall r w', put_estado_muestra idMuestra estado w = (Val r, w') ->
                status r = 400%Z ->
                db w' = db w /\ writes w' = writes w /\ faults w' = faults w)
  /\ (forall r w', put_estado_id id estado w = (Val r, w') ->
                   status r = 400%Z ->
                   db w' = db w /\ writes w' = writes w /\ faults w' = faults w).
Proof.
  split.
  - unfold put_estado_muestra, try_catch.
    destruct (Js.parseInt10 idMuestra) as [| |n] eqn:Eid.
    { intros r w' Erun _. inversion Erun. auto. }
    all: destruct (requerido estado) as [e|];
      [|intros r w' Erun _; inversion Erun; auto].
    all: unfold bind, find_clasificacion_de_muestra, update_estado_select,
      insert_clasificacion, call, logger, json, ret, throw;
      cbn [faults db log writes].
    all: destruct (faults w) as [|[|e1|m1] [|[|e2|m2] fs]];
      cbn -[background actualizarEstadoPaqueteManual nuevo_id].
    all: try (destruct (negb _));
      cbn -[background actualizarEstadoPaqueteManual nuevo_id].
    all: repeat (run_single;
      cbn -[background actualizarEstadoPaqueteManual nuevo_id]).
    all: try run_frame;
      cbn -[background actualizarEstadoPaqueteManual nuevo_id] in *.
    all: intros r w' Erun Hs; inversion Erun; subst; discriminate Hs.
  - unfold put_estado_id, try_catch.
    destruct (requerido estado) as [e|];
      [|intros r w' Erun _; inversion Erun; auto].
    unfold bind, update_estado_param, select_muestra_de_clasificacion, call,
      logger, json, ret; cbn [faults db log writes].
    destruct (pg_bigint id) as [n|];
    destruct (faults w) as [|[|e1|m1] [|[|e2|m2] fs]];
      cbn -[background actualizarEstadoPaqueteManual].
    all: try run_single; cbn -[background actualizarEstadoPaqueteManual].
    all: try (destruct (Z.eqb _ 0));
      cbn -[background actualizarEstadoPaqueteManual].
    all: try run_frame; cbn -[background actualizarEstadoPaqueteManual] in *.
    all: intros r w' Erun Hs; inversion Erun; subst; discriminate Hs.
Qed.

(** X11: a request that either state endpoint answers with 400 has
    reached no table: no call to the store was made (the fault schedule
    is the one before the request), no write was sent and the tables
    are unchanged. *)
Theorem X11_rechazo_sin_efecto (idMuestra id : string) (estado : option string)
    (w w' : World) (r : Response)
    (Hrun : put_estado_muestra idMuestra estado w = (Val r, w')
            \/ put_estado_id id estado w = (Val r, w'))
    (Hstatus : status r = 400%Z) :
  db w' = db w /\ writes w' = writes w /\ faults w' = faults w.
Proof.
  destruct (rechazo_sin_efecto idMuestra id estado w) as [H1 H2].
  destruct Hrun as [Hrun | Hrun]; eauto.
Qed.

Lemma X11_rechazo_sin_efecto_witness :
  let w := con_fallos mundo_borrador [ReplyError error_de_consulta] in
  let w' := snd (put_estado_muestra "abc" (Some "firmado") w) in
  db w' = db w /\ writes w' = writes w /\ faults w' = faults w.
Proof.
  cbv zeta.
  apply (X11_rechazo_sin_efecto "abc" "10" (Some "firmado")
           (con_fallos mundo_borrador [ReplyError error_de_consulta]) _
           {| status := 400; body := BError "ID de muestra inválido" None |}).
  - left. reflexivity.
  - reflexivity.
Defined.

(** ** [PUT /clasificaciones/:idMuestra/estado] *)

Lemma filter_clasificaciones_con (id i : Z) (estado : string)
    (cs : list ClasificacionRow) :
  filter (fun c => (clasif_id c =? i)%Z) (clasificaciones_con id estado cs)
  = clasificaciones_con id estado (filter (fun c => (clasif_id c =? i)%Z) cs).
Proof.
  unfold clasificaciones_con. induction cs as [|c cs IH]; simpl; [reflexivity|].
  assert (E : clasif_id (if (clasif_id c =? id)%Z then con_estado estado c else c)
              = clasif_id c) by now destruct (clasif_id c =? id)%Z.
  rewrite E. destruct (clasif_id c =? i)%Z; simpl; now rewrite IH.
Qed.

Lemma background_actualizar_run (idMuestra idPaquete : Z) (w : World) :
  tres_sin_fallo w ->
  paquete_en_tablas (db w) idMuestra = Some idPaquete ->
  background (actualizarEstadoPaqueteManual idMuestra) w =
  (Val tt,
   {| db := set_paquete (db w)
              (paquetes_con idPaquete (nuevoEstado (muestras_de (db w) idPaquete))
                 (paquete (db w)));
      faults := skipn 3 (faults w);
      log := log w ++ [entrada_exito];
      writes := writes w
                ++ [UpdatePaquete idPaquete
                      (nuevoEstado (muestras_de (db w) idPaquete))] |}).
Proof.
  intros Hf Hp. unfold background, try_catch.
  now rewrite (actualizar_run idMuestra idPaquete w Hf Hp).
Qed.

(** X12: with no fault, [PUT /clasificaciones/:idMuestra/estado] on a
    sample with one classification answers 200 with the row's id, the
    row carries the new state, and in the tables the request leaves,
    once the recompute it started has run, the package of the sample is
    stored with the state derived from the classifications as they are
    after the update. *)
Theorem X12_put_estado_muestra_consistente (idMuestra : string) (n idPaquete : Z)
    (estado : string) (c : ClasificacionRow) (w : World)
    (Hid : Js.parseInt10 idMuestra = Js.Entero n)
    (Hestado : estado <> "")
    (Hf : faults w = [])
    (Hc : filter (fun x => (clasif_id_muestra x =? n)%Z)
            (clasificacion_herbario (db w)) = [c])
    (Hu : filter (fun x => (clasif_id x =? clasif_id c)%Z)
            (clasificacion_herbario (db w)) = [c])
    (Hp : paquete_en_tablas (db w) n = Some idPaquete) :
  exists w',
    put_estado_muestra idMuestra (Some estado) w
    = (Val {| status := 200;
              body := BEstado (clasif_id c) estado "Estado actualizado" |}, w')
    /\ clasificacion_herbario (db w')
       = clasificaciones_con (clasif_id c) estado (clasificacion_herbario (db w))
    /\ forall q, In q (paquete (db w')) -> paquete_id q = idPaquete ->
         paquete_estado q = nuevoEstado (muestras_de (db w') idPaquete).
Proof.
  assert (Hn : clasif_id_muestra c = n).
  { assert (Hin : In c (filter (fun x => (clasif_id_muestra x =? n)%Z)
                          (clasificacion_herbario (db w))))
      by (rewrite Hc; now left).
    apply filter_In in Hin. now apply Z.eqb_eq. }
  unfold put_estado_muestra, try_catch. rewrite Hid.
  unfold requerido. rewrite (truthy_nonempty estado Hestado).
  unfold bind, find_clasificacion_de_muestra, update_estado_select, call,
    logger, json, ret; cbn [faults db log writes].
  rewrite Hf, Hc. cbn -[background actualizarEstadoPaqueteManual].
  fold (clasificaciones_con (clasif_id c) estado (clasificacion_herbario (db w))).
  rewrite filter_clasificaciones_con, Hu.
  unfold clasificaciones_con at 1. cbn [map].
  cbn -[background actualizarEstadoPaqueteManual]. rewrite Z.eqb_refl.
  cbn -[background actualizarEstadoPaqueteManual]. rewrite Hn.
  rewrite (background_actualizar_run n idPaquete).
  - cbn. eexists. split; [reflexivity|]. cbn. split; [reflexivity|].
    intros q Hq Hqid.
    now apply (paquetes_con_estado idPaquete _ (paquete (db w))).
  - intros k _. cbn. now destruct k as [|[|[|k]]].
  - exact Hp.
Qed.

Lemma X12_put_estado_muestra_consistente_witness :
  exists w',
    put_estado_muestra "1" (Some "completado") mundo_borrador
    = (Val {| status := 200;
              body := BEstado 10 "completado" "Estado actualizado" |}, w')
    /\ forall q, In q (paquete (db w')) -> paquete_id q = 7%Z ->
         paquete_estado q = nuevoEstado (muestras_de (db w') 7).
Proof.
  destruct (X12_put_estado_muestra_consistente "1" 1 7 "completado"
              {| clasif_id := 10; clasif_id_muestra := 1;
                 clasif_estado := "borrador";
                 clasif_id_especie := None;
                 clasif_estado_reproductivo := None |}
              mundo_borrador) as (w' & Hr & _ & Hq).
  - reflexivity.
  - discriminate.
  - reflexivity.
  - reflexivity.
  - reflexivity.
  - reflexivity.
  - exists w'. split; [exact Hr | exact Hq].
Defined.

(** X13: when the store holds two or more classifications for the
    sample, [.single()] finds none: with no fault, [PUT
    /clasificaciones/:idMuestra/estado] answers 201 and a further row
    for the sample is inserted, the rows before it left as they are. *)
Theorem X13_put_estado_muestra_varias (idMuestra : string) (n : Z)
    (estado : string) (c1 c2 : ClasificacionRow) (cs : list ClasificacionRow)
    (w : World)
    (Hid : Js.parseInt10 idMuestra = Js.Entero n)
    (Hestado : estado <> "")
    (Hf : faults w = [])
    (Hc : filter (fun x => (clasif_id_muestra x =? n)%Z)
            (clasificacion_herbario (db w)) = c1 :: c2 :: cs) :
  exists w',
    put_estado_muestra idMuestra (Some estado) w
    = (Val {| status := 201;
              body := BEstado (nuevo_id (db w)) estado "Clasificación creada" |},
       w')
    /\ clasificacion_herbario (db w')
       = clasificacion_herbario (db w)
         ++ [ {| clasif_id := nuevo_id (db w);
                 clasif_id_muestra := n;
                 clasif_estado := estado;
                 clasif_id_especie := None;
                 clasif_estado_reproductivo := None |} ].
Proof.
  unfold put_estado_muestra, try_catch. rewrite Hid.
  unfold requerido. rewrite (truthy_nonempty estado Hestado).
  unfold bind, find_clasificacion_de_muestra, insert_clasificacion, call,
    logger, json, ret; cbn [faults db log writes].
  rewrite Hf, Hc. cbn -[background actualizarEstadoPaqueteManual nuevo_id].
  run_frame. cbn -[nuevo_id] in *.
  eexists. split; [reflexivity|]. cbn -[nuevo_id]. exact Hc0.
Qed.

Lemma X13_put_estado_muestra_varias_witness :
  exists w',
    put_estado_muestra "1" (Some "completado") mundo_dos_filas
    = (Val {| status := 201;
              body := BEstado 12 "completado" "Clasificación creada" |}, w')
    /\ map clasif_estado (clasificacion_herbario (db w'))
       = ["borrador"; "firmado"; "completado"].
Proof.
  destruct (X13_put_estado_muestra_varias "1" 1 "completado"
              {| clasif_id := 10; clasif_id_muestra := 1;
                 clasif_estado := "borrador";
                 clasif_id_especie := None;
                 clasif_estado_reproductivo := None |}
              {| clasif_id := 11; clasif_id_muestra := 1;
                 clasif_estado := "firmado";
                 clasif_id_especie := None;
                 clasif_estado_reproductivo := None |}
              [] mundo_dos_filas) as (w' & Hr & Hc).
  - reflexivity.
  - discriminate.
  - reflexivity.
  - reflexivity.
  - exists w'. split; [exact Hr|]. rewrite Hc. reflexivity.
Defined.

End GestHerbTablasFacts.

(* ================================================================== *)
(** * Properties of reading and editing a classification *)
(* ================================================================== *)

Module GestHerbEdicionFacts.
Import Supabase GestHerb GestHerbFacts GestHerbTablas GestHerbEdicion.

(** X14: [GET /clasificaciones/muestra/:muestraId] with a numeric id
    and no fault answers the row when the sample has exactly one
    classification and [null] when it has none or several; it changes no
    table and sends no write. *)
Theorem X14_get_clasificacion_muestra (muestraId : string) (n : Z) (w : World)
    (Hid : Js.parseInt10 muestraId = Js.Entero n)
    (Hf : hd NoFault (faults w) = NoFault) :
  let filas :=
    filter (fun c => (clasif_id_muestra c =? n)%Z)
      (clasificacion_herbario (db w)) in
  fst (get_clasificacion_muestra muestraId w)
  = Val (match filas with
         | [fila] => RFila fila
         | _ => RNull
         end)
  /\ db (snd (get_clasificacion_muestra muestraId w)) = db w
  /\ writes (snd (get_clasificacion_muestra muestraId w)) = writes w.
Proof.
  cbv zeta. unfold get_clasificacion_muestra, try_catch. rewrite Hid.
  unfold bind, find_clasificacion_de_muestra, call, ret.
  destruct (faults w) as [|[|e|m] fs]; cbn in Hf; try discriminate; cbn;
    rewrite app_nil_r;
    destruct (filter _ _) as [|c [|c' cs]]; cbn; auto.
Qed.

Lemma X14_get_clasificacion_muestra_witness :
  fst (get_clasificacion_muestra "1" mundo_dos_filas) = Val RNull
  /\ db (snd (get_clasificacion_muestra "1" mundo_dos_filas))
     = db mundo_dos_filas.
Proof.
  destruct (X14_get_clasificacion_muestra "1" 1 mundo_dos_filas)
    as (Hr & Hd & _).
  - reflexivity.
  - reflexivity.
  - split; [exact Hr | exact Hd].
Defined.

(** X15: [PUT /clasificaciones/muestra/:muestraId] on a sample whose
    classification is in a state other than [borrador] and
    [en_analisis] answers 409 [Clasificación no editable] naming the
    state, whatever the body, and changes no table. *)
Theorem X15_no_editable (Cuerpo : Type)
    (aplicar : Cuerpo -> ClasificacionRow -> ClasificacionRow)
    (nueva : Cuerpo -> Z -> Z -> ClasificacionRow)
    (muestraId : string) (n : Z) (body : Cuerpo) (c : ClasificacionRow)
    (w : World)
    (Hid : Js.parseInt10 muestraId = Js.Entero n)
    (Hf : hd NoFault (faults w) = NoFault)
    (Hc : filter (fun x => (clasif_id_muestra x =? n)%Z)
            (clasificacion_herbario (db w)) = [c])
    (He : Js.includes ["borrador"; "en_analisis"] (clasif_estado c) = false) :
  let run := put_clasificacion_muestra Cuerpo aplicar nueva muestraId body w in
  fst run
  = Val (RError 409 "Clasificación no editable"
           (Some ("La clasificación existente tiene estado '"
                  ++ clasif_estado c ++ "' y no puede ser modificada.")%string)
           (Some "Solo se pueden editar clasificaciones en estado borrador o en_analisis."))
  /\ db (snd run) = db w
  /\ faults (snd run) = tl (faults w).
Proof.
  cbv zeta. unfold put_clasificacion_muestra, try_catch. rewrite Hid.
  unfold bind, find_clasificacion_de_muestra, call, ret.
  destruct (faults w) as [|[|e|m] fs]; cbn in Hf; try discriminate;
    cbn [faults db log writes]; rewrite Hc; cbn [single ok data error find_failed];
    rewrite He; cbn; auto.
Qed.

Lemma X15_no_editable_witness :
  fst (put_estado_en_cuerpo "1" "borrador" mundo_firmado)
  = Val (RError 409 "Clasificación no editable"
           (Some "La clasificación existente tiene estado 'firmado' y no puede ser modificada.")
           (Some "Solo se pueden editar clasificaciones en estado borrador o en_analisis."))
  /\ db (snd (put_estado_en_cuerpo "1" "borrador" mundo_firmado))
     = db mundo_firmado.
Proof.
  destruct (X15_no_editable string con_estado nueva_con_estado "1" 1 "borrador"
              {| clasif_id := 10; clasif_id_muestra := 1;
                 clasif_estado := "firmado";
                 clasif_id_especie := Some 5%Z;
                 clasif_estado_reproductivo := None |}
              mundo_firmado) as (Hr & Hd & _).
  - reflexivity.
  - reflexivity.
  - reflexivity.
  - reflexivity.
  - split; [exact Hr | exact Hd].
Defined.

(** X16: with no fault, [PUT /clasificaciones/muestra/:muestraId] on a
    sample whose only classification is in [borrador] or [en_analisis]
    answers 200 [updated] with the id of that row after the update; the
    body is applied to the rows with that id and to no other; the update
    of that row is the only mutating request sent and the package table
    is not touched: this endpoint starts no recompute. *)
Theorem X16_editable (Cuerpo : Type)
    (aplicar : Cuerpo -> ClasificacionRow -> ClasificacionRow)
    (nueva : Cuerpo -> Z -> Z -> ClasificacionRow)
    (muestraId : string) (n : Z) (body : Cuerpo) (c : ClasificacionRow)
    (w : World)
    (Hid : Js.parseInt10 muestraId = Js.Entero n)
    (Hf : faults w = [])
    (Hc : filter (fun x => (clasif_id_muestra x =? n)%Z)
            (clasificacion_herbario (db w)) = [c])
    (Hu : filter (fun x => (clasif_id x =? clasif_id c)%Z)
            (clasificacion_herbario (db w)) = [c])
    (He : Js.includes ["borrador"; "en_analisis"] (clasif_estado c) = true) :
  let run := put_clasificacion_muestra Cuerpo aplicar nueva muestraId body w in
  fst run
  = Val (RAccion 200 (clasif_id (aplicar body c))
           "Clasificación actualizada" "updated")
  /\ clasificacion_herbario (db (snd run))
     = map (fun x => if (clasif_id x =? clasif_id c)%Z then aplicar body x else x)
         (clasificacion_herbario (db w))
  /\ paquete (db (snd run)) = paquete (db w)
  /\ writes (snd run) = writes w ++ [UpdateClasificacionCuerpo (clasif_id c)].
Proof.
  cbv zeta. unfold put_clasificacion_muestra, try_catch. rewrite Hid.
  unfold bind, find_clasificacion_de_muestra, update_cuerpo, call, ret.
  rewrite Hf. cbn [faults db log writes]. rewrite Hc.
  cbn [single ok data error find_failed]. rewrite He.
  cbn [negb faults db log writes tl]. rewrite Hu. cbn.
  rewrite !app_nil_r. auto.
Qed.

Lemma X16_editable_witness :
  fst (put_estado_en_cuerpo "1" "en_analisis" mundo_borrador)
  = Val (RAccion 200 10 "Clasificación actualizada" "updated")
  /\ paquete (db (snd (put_estado_en_cuerpo "1" "en_analisis" mundo_borrador)))
     = paquete (db mundo_borrador)
  /\ writes (snd (put_estado_en_cuerpo "1" "en_analisis" mundo_borrador))
     = [UpdateClasificacionCuerpo 10].
Proof.
  destruct (X16_editable string con_estado nueva_con_estado "1" 1 "en_analisis"
              {| clasif_id := 10; clasif_id_muestra := 1;
                 clasif_estado := "borrador";
                 clasif_id_especie := None;
                 clasif_estado_reproductivo := None |}
              mundo_borrador) as (Hr & _ & Hp & Hw).
  - reflexivity.
  - reflexivity.
  - reflexivity.
  - reflexivity.
  - reflexivity.
  - split; [exact Hr|]. split; [exact Hp | exact Hw].
Defined.

Lemma empieza_con_app (needle rest : string) :
  empieza_con needle (needle ++ rest) = true.
Proof.
  induction needle as [|a needle IH]; simpl; [reflexivity|].
  now rewrite Ascii.eqb_refl, IH.
Qed.

Lemma incluye_app (antes needle despues : string) :
  incluye (antes ++ needle ++ despues) needle = true.
Proof.
  induction antes as [|a antes IH]; simpl.
  - pose proof (empieza_con_app needle despues) as H.
    destruct (needle ++ despues)%string; simpl; now rewrite H.
  - rewrite IH. apply orb_true_r.
Qed.

Lemma app_needle_nonempty (antes needle despues : string) :
  needle <> "" -> (antes ++ needle ++ despues)%string <> "".
Proof.
  intros Hn. destruct antes; simpl; [|discriminate].
  destruct needle; simpl; [congruence | discriminate].
Qed.

(** X17: when the sample has no classification and the store refuses
    the insert with a message that contains [ya tiene una clasificación
    en proceso], [PUT /clasificaciones/muestra/:muestraId] answers 409
    [Clasificación duplicada] with the store's message, and no row is
    added. *)
Theorem X17_insert_rechazado (Cuerpo : Type)
    (aplicar : Cuerpo -> ClasificacionRow -> ClasificacionRow)
    (nueva : Cuerpo -> Z -> Z -> ClasificacionRow)
    (muestraId : string) (n : Z) (body : Cuerpo) (e : PgError)
    (antes despues : string) (fs : list Fault) (w : World)
    (Hid : Js.parseInt10 muestraId = Js.Entero n)
    (Hf : faults w = NoFault :: ReplyError e :: fs)
    (Hnone : filter (fun x => (clasif_id_muestra x =? n)%Z)
               (clasificacion_herbario (db w)) = [])
    (Hmsg : pg_message e
            = (antes ++ "ya tiene una clasificación en proceso" ++ despues)%string) :
  let run := put_clasificacion_muestra Cuerpo aplicar nueva muestraId body w in
  fst run
  = Val (RError 409 "Clasificación duplicada" (Some (pg_message e))
           (Some "Esta muestra ya tiene una clasificación en estado borrador o en_analisis"))
  /\ db (snd run) = db w
  /\ faults (snd run) = fs.
Proof.
  cbv zeta. unfold put_clasificacion_muestra, try_catch. rewrite Hid.
  unfold bind, find_clasificacion_de_muestra, insert_cuerpo, call, ret.
  rewrite Hf. cbn [faults db log writes]. rewrite Hnone.
  cbn -[incluye Js.truthy error_de_insert]. unfold error_de_insert.
  assert (Ht : Js.truthy (pg_message e) = true).
  { apply truthy_nonempty. rewrite Hmsg. apply app_needle_nonempty. discriminate. }
  assert (Hi : incluye (pg_message e) "ya tiene una clasificación en proceso" = true)
    by (rewrite Hmsg; apply incluye_app).
  rewrite Ht, Hi. cbn. auto.
Qed.

Lemma X17_insert_rechazado_witness :
  let w := con_fallos mundo_recibido [NoFault; ReplyError error_trigger_unica] in
  fst (put_estado_en_cuerpo "1" "borrador" w)
  = Val (RError 409 "Clasificación duplicada"
           (Some "La muestra 1 ya tiene una clasificación en proceso")
           (Some "Esta muestra ya tiene una clasificación en estado borrador o en_analisis"))
  /\ db (snd (put_estado_en_cuerpo "1" "borrador" w)) = db mundo_recibido.
Proof.
  cbv zeta.
  destruct (X17_insert_rechazado string con_estado nueva_con_estado "1" 1
              "borrador" error_trigger_unica "La muestra 1 " "" []
              (con_fallos mundo_recibido
                 [NoFault; ReplyError error_trigger_unica]))
    as (Hr & Hd & _).
  - reflexivity.
  - reflexivity.
  - reflexivity.
  - reflexivity.
  - split; [exact Hr | exact Hd].
Defined.

End GestHerbEdicionFacts.

(* ================================================================== *)
(** * Properties of the statistics' lists *)
(* ================================================================== *)

Module LabMedidasFacts.
Import Supabase LabService LabFacts LabMedidas.

(** ** Sorting and the first ten *)


Section Sorting.
Context {A : Type} (key : A -> nat).

Lemma Permutation_insert_desc (x : A) (l : list A) :
  Permutation (insert_desc key x l) (x :: l).
Proof.
  induction l as [|y l IH]; simpl; [reflexivity|].
  destruct (key x <? key y); [|reflexivity].
  rewrite IH. apply perm_swap.
Qed.

Lemma Permutation_sort_desc (l : list A) : Permutation (sort_desc key l) l.
Proof.
  unfold sort_desc. induction l as [|x l IH]; simpl; [reflexivity|].
  rewrite Permutation_insert_desc. now constructor.
Qed.

Lemma descendente_insert (x : A) (l : list A) :
  descendente key l -> descendente key (insert_desc key x l).
Proof.
  unfold descendente. induction l as [|y l IH]; simpl; intros H.
  - repeat constructor.
  - apply StronglySorted_inv in H. destruct H as [Hl Hy].
    destruct (Nat.ltb_spec (key x) (key y)) as [Hlt | Hge].
    + constructor; [now apply IH|].
      rewrite Forall_forall in *. intros z Hz.
      apply In_insert_desc in Hz. destruct Hz as [-> | Hz]; [lia | now apply Hy].
    + constructor; [now constructor|].
      constructor; [exact Hge|].
      rewrite Forall_forall in *. intros z Hz. specialize (Hy z Hz). lia.
Qed.

Lemma descendente_sort (l : list A) : descendente key (sort_desc key l).
Proof.
  unfold sort_desc. induction l as [|x l IH]; simpl.
  - constructor.
  - now apply descendente_insert.
Qed.

Lemma descendente_firstn (n : nat) (l : list A) :
  descendente key l -> descendente key (firstn n l).
Proof.
  unfold descendente. revert l; induction n as [|n IH]; intros l H; simpl.
  - constructor.
  - destruct l as [|x l]; [constructor|].
    apply StronglySorted_inv in H. destruct H as [Hl Hx].
    constructor; [now apply IH|].
    rewrite Forall_forall in *. intros z Hz. apply Hx.
    now apply In_firstn in Hz.
Qed.

End Sorting.

Lemma NoDup_firstn {A : Type} (n : nat) (l : list A) :
  NoDup l -> NoDup (firstn n l).
Proof.
  revert l; induction n as [|n IH]; intros l H; simpl; [constructor|].
  destruct l as [|x l]; [constructor|].
  inversion H as [|? ? Hx Hl]; subst.
  constructor; [|now apply IH].
  intros Hin. apply Hx. now apply In_firstn in Hin.
Qed.

(** ** The taxonomic filter *)

(** X1: [GET /estadisticas/taxonomia] answers at most ten taxa, in
    descending order of their counts, no name twice, and each with a
    count of at least one. *)
Theorem X1_taxonomia_top (ubicacion tipo nivel : string)
    (muestras : option (list MuestraTaxonomia)) :
  let r := estadisticas_taxonomia ubicacion tipo nivel muestras in
  List.length r <= 10
  /\ descendente to_count r
  /\ NoDup (map to_name r)
  /\ Forall (fun t => 0 < to_count t) r.
Proof.
  cbv zeta. unfold estadisticas_taxonomia.
  set (filtradas := muestrasFiltradas ubicacion tipo muestras).
  set (mk := fun kv : string * nat => _).
  split; [apply firstn_le_length|].
  split; [apply descendente_firstn, descendente_sort|].
  split.
  - rewrite <- firstn_map. apply NoDup_firstn.
    apply (Permutation_NoDup (l := map to_name (map mk (taxonMap nivel filtradas)))).
    + apply Permutation_map. symmetry. apply Permutation_sort_desc.
    + rewrite map_map. unfold mk. simpl.
      unfold taxonMap. rewrite taxonMap_fold.
      apply NoDup_keys_contar. constructor.
  - rewrite Forall_forall. intros t Ht.
    apply In_firstn, In_sort_desc, in_map_iff in Ht.
    destruct Ht as [[k c] [<- Hin]]. simpl.
    unfold taxonMap in Hin. rewrite taxonMap_fold in Hin.
    now apply contar_entries in Hin.
Qed.

Lemma taxonomia_sin_muestras (ubicacion tipo nivel : string)
    (muestras : option (list MuestraTaxonomia)) :
  (forall ms m, muestras = Some ms -> In m ms -> en_ubicacion ubicacion tipo m = false) ->
  estadisticas_taxonomia ubicacion tipo nivel muestras = [].
Proof.
  intros H. unfold estadisticas_taxonomia.
  assert (E : muestrasFiltradas ubicacion tipo muestras = []).
  { destruct muestras as [ms|]; simpl; [|reflexivity].
    apply filter_nothing. intros m Hm. now apply (H ms). }
  rewrite E. reflexivity.
Qed.

(** X2: when no sample lies in the requested place (no department of
    that name for [tipo = departamento]; no region that is the name, the
    name after [Región ], or normalized to it for [tipo = region]), the
    taxonomic filter answers the empty list. *)
Theorem X2_taxonomia_ubicacion_desconocida (ubicacion tipo nivel : string)
    (muestras : option (list MuestraTaxonomia))
    (Hd : tipo = "departamento" ->
          forall ms m d, muestras = Some ms -> In m ms ->
            departamento_de (mt_paquete m) = Some d ->
            departamento_nombre d <> ubicacion)
    (Hr : tipo = "region" ->
          forall ms m r, muestras = Some ms -> In m ms ->
            region_de (departamento_de (mt_paquete m)) = Some r ->
            normalizarRegion (Some (region_nombre r)) <> Some ubicacion
            /\ region_nombre r <> ubicacion
            /\ region_nombre r <> ("Región " ++ ubicacion)%string) :
  estadisticas_taxonomia ubicacion tipo nivel muestras = [].
Proof.
  apply taxonomia_sin_muestras. intros ms m Hms Hm. unfold en_ubicacion.
  destruct (String.eqb_spec tipo "departamento") as [Et | _].
  - destruct (departamento_de (mt_paquete m)) as [d|] eqn:Ed; [|reflexivity].
    apply String.eqb_neq. now apply (Hd Et ms m d).
  - destruct (String.eqb_spec tipo "region") as [Et | _]; [|reflexivity].
    destruct (region_de (departamento_de (mt_paquete m))) as [r|] eqn:Er;
      [|reflexivity].
    destruct (Hr Et ms m r Hms Hm Er) as [H1 [H2 H3]].
    apply String.eqb_neq in H2, H3. rewrite H2, H3, !orb_false_r.
    destruct (normalizarRegion (Some (region_nombre r))) as [k|]; [|reflexivity].
    apply String.eqb_neq. intros ->. now apply H1.
Qed.

Lemma X2_taxonomia_ubicacion_desconocida_witness :
  estadisticas_taxonomia "Unknown Dept" "departamento" "familia"
    (Some muestras_huila) = [].
Proof.
  apply X2_taxonomia_ubicacion_desconocida.
  - intros _ ms m d Hms Hm Hd. inversion Hms; subst ms.
    destruct Hm as [<- | [<- | []]]; vm_compute in Hd; inversion Hd;
      discriminate.
  - intros Ht. discriminate Ht.
Defined.

(** ** Threat categories *)

Lemma suma_app (m1 m2 : list (string * nat)) : suma (m1 ++ m2) = suma m1 + suma m2.
Proof. unfold suma. now rewrite map_app, list_sum_app. Qed.

Lemma suma_update_S (k : string) (m : list (string * nat)) :
  suma (update k S m) = suma m + (if has k m then 1 else 0).
Proof.
  unfold suma, has. induction m as [|[k0 v] m IH]; simpl; [reflexivity|].
  destruct (k0 =? k)%string; simpl; [lia|].
  rewrite IH. destruct (get k m); lia.
Qed.

Lemma has_ensure {V : Type} (k : string) (v0 : V) (m : list (string * V)) :
  has k (ensure k v0 m) = true.
Proof.
  unfold has. rewrite get_ensure, String.eqb_refl. now destruct (get k m).
Qed.

Lemma suma_incrementar (k : string) (m : list (string * nat)) :
  suma (incrementar m k) = S (suma m).
Proof.
  unfold incrementar. rewrite suma_update_S, has_ensure.
  unfold ensure. destruct (has k m); [lia|].
  rewrite suma_app. unfold suma at 2. simpl. lia.
Qed.

Lemma suma_contar (names : list string) (m : list (string * nat)) :
  suma (fold_left incrementar names m) = suma m + List.length names.
Proof.
  revert m; induction names as [|x names IH]; intros m; simpl; [lia|].
  rewrite IH, suma_incrementar. lia.
Qed.

Lemma amenazaMap_names (cs : list Clasificacion) (m : list (string * nat)) :
  fold_left (fun m c => incrementar m (tipoAmenaza c)) cs m
  = fold_left incrementar (map tipoAmenaza cs) m.
Proof.
  revert m; induction cs as [|c cs IH]; intros m; simpl; [reflexivity|].
  apply IH.
Qed.

Lemma especies_amenazadas_eq (muestras : option (list Muestra))
    (clasificaciones : option (list Clasificacion)) :
  let conEspecie := clasificacionesConEspecie clasificaciones in
  especies_amenazadas (estadisticas muestras clasificaciones) =
  sort_desc ao_count
    (map (fun kv =>
            {| ao_categoria := fst kv;
               ao_count := snd kv;
               ao_porcentaje :=
                 if 0 <? List.length conEspecie
                 then Js.toFixed1_tenths
                        (Js.ratio100 (snd kv) (List.length conEspecie))
                 else 0%Z |})
       (fold_left incrementar (map tipoAmenaza conEspecie) []))
  /\ total_clasificaciones (estadisticas muestras clasificaciones)
     = List.length conEspecie.
Proof.
  cbv zeta. unfold estadisticas. destruct (mapas_de _ _) as [dm rm].
  simpl. now rewrite amenazaMap_names.
Qed.


Lemma entries_contar (names : list string) (k : string) :
  In k names ->
  In (k, count_occ string_dec names k) (fold_left incrementar names []).
Proof.
  intros Hin.
  assert (Hc : 0 < count_occ string_dec names k) by now apply count_occ_In.
  destruct (get k (fold_left incrementar names [])) as [c|] eqn:E.
  - assert (Hk : In k (map fst (fold_left incrementar names []))).
    { destruct (in_dec string_dec k (map fst (fold_left incrementar names [])))
        as [H | H]; [exact H|].
      apply get_None_keys in H. congruence. }
    apply in_map_iff in Hk. destruct Hk as [[k' c'] [Hk' Hin']].
    simpl in Hk'. subst k'.
    destruct (contar_entries names k c' Hin') as [-> _]. exact Hin'.
  - rewrite get_contar in E. simpl in E.
    destruct (count_occ string_dec names k); [lia | discriminate].
Qed.

Lemma tipoAmenaza_sin_amenaza (c : Clasificacion) :
  sin_amenaza c = true -> tipoAmenaza c = "No Amenazado".
Proof.
  unfold sin_amenaza, tipoAmenaza.
  destruct (clasificacion_especie c) as [e|]; [|reflexivity].
  destruct (especie_tipo_amenaza e) as [t|]; [|reflexivity].
  now destruct (Js.truthy t).
Qed.

(** X3: in [GET /estadisticas], every entry of [especies_amenazadas]
    counts the classifications with a species of its category, at least
    one, with the percentage [(count / total_clasificaciones * 100)
    .toFixed(1)]; every such classification has its category listed,
    and the one whose species has no [tipo_amenaza] is counted under
    [No Amenazado]; the counts add up to [total_clasificaciones]; no
    category is listed twice, and the list is in descending order of the
    counts. *)
Theorem X3_amenazas_por_categoria (muestras : option (list Muestra))
    (clasificaciones : option (list Clasificacion)) :
  let conEspecie := clasificacionesConEspecie clasificaciones in
  let r := estadisticas muestras clasificaciones in
  (forall a, In a (especies_amenazadas r) ->
     ao_count a = cuenta_amenaza (ao_categoria a) conEspecie
     /\ 0 < ao_count a
     /\ ao_porcentaje a
        = Js.toFixed1_tenths (Js.ratio100 (ao_count a) (total_clasificaciones r)))
  /\ (forall c, In c conEspecie ->
        exists a, In a (especies_amenazadas r)
                  /\ ao_categoria a = tipoAmenaza c
                  /\ (sin_amenaza c = true -> ao_categoria a = "No Amenazado"))
  /\ list_sum (map ao_count (especies_amenazadas r)) = total_clasificaciones r
  /\ NoDup (map ao_categoria (especies_amenazadas r))
  /\ descendente ao_count (especies_amenazadas r).
Proof.
  cbv zeta.
  destruct (especies_amenazadas_eq muestras clasificaciones) as [E T].
  cbv zeta in E, T. rewrite E, T. clear E T.
  set (cs := clasificacionesConEspecie clasificaciones).
  set (mk := fun kv : string * nat => _).
  split; [|split; [|split; [|split]]].
  - intros a Ha. apply In_sort_desc, in_map_iff in Ha.
    destruct Ha as [[k c] [<- Hin]]. simpl.
    apply contar_entries in Hin. destruct Hin as [Hc Hpos].
    split; [exact Hc|]. split; [exact Hpos|].
    destruct cs as [|c0 cs']; [|reflexivity].
    simpl in Hc. lia.
  - intros c Hc.
    exists (mk (tipoAmenaza c, cuenta_amenaza (tipoAmenaza c) cs)).
    split; [|split; [reflexivity | apply tipoAmenaza_sin_amenaza]].
    apply In_sort_desc, in_map. apply entries_contar.
    now apply in_map.
  - rewrite (Permutation_map ao_count (Permutation_sort_desc ao_count _)).
    rewrite map_map. unfold mk. simpl.
    change (list_sum (map (fun x : string * nat => snd x) ?m)) with (suma m).
    rewrite suma_contar. simpl. now rewrite length_map.
  - apply (Permutation_NoDup
             (l := map ao_categoria
                     (map mk (fold_left incrementar (map tipoAmenaza cs) [])))).
    + apply Permutation_map. symmetry. apply Permutation_sort_desc.
    + rewrite map_map. unfold mk. simpl.
      apply NoDup_keys_contar. constructor.
  - apply descendente_sort.
Qed.

(** ** Departments *)






Section MapsMore.
Context {V : Type}.

Lemma Forall_update (P : string * V -> Prop) (k : string) (f : V -> V)
    (m : list (string * V)) :
  (forall v, P (k, v) -> P (k, f v)) ->
  Forall P m -> Forall P (update k f m).
Proof.
  intros Hf. induction m as [|[k0 v] m IH]; simpl; intros H; [constructor|].
  inversion H as [|? ? Hkv Hm]; subst.
  destruct (String.eqb_spec k0 k) as [-> | _]; constructor; auto.
Qed.

Lemma Forall_ensure (P : string * V -> Prop) (k : string) (v0 : V)
    (m : list (string * V)) :
  P (k, v0) -> Forall P m -> Forall P (ensure k v0 m).
Proof.
  intros H0 H. unfold ensure. destruct (has k m); [assumption|].
  apply Forall_app. split; [assumption | now constructor].
Qed.

Lemma NoDup_keys_update (k : string) (f : V -> V) (m : list (string * V)) :
  NoDup (map fst m) -> NoDup (map fst (update k f m)).
Proof. now rewrite keys_update. Qed.

End MapsMore.

Lemma fst_agrupar_muestra (mapas : Mapas) (m : Muestra) :
  fst (agrupar_muestra mapas m) = paso_departamento (fst mapas) m.
Proof.
  destruct mapas as [dm rm]. unfold agrupar_muestra, paso_departamento. simpl.
  destruct (departamento_de (muestra_paquete m)) as [d|]; [|reflexivity].
  simpl. now destruct (departamento_region d).
Qed.

Lemma fst_fold_agrupar (ms : list Muestra) (mapas : Mapas) :
  fst (fold_left agrupar_muestra ms mapas)
  = fold_left paso_departamento ms (fst mapas).
Proof.
  revert mapas; induction ms as [|m ms IH]; intros mapas; simpl; [reflexivity|].
  now rewrite IH, fst_agrupar_muestra.
Qed.

Lemma especimenes_dept_paso (key : string) (dm : list (string * DeptData))
    (m : Muestra) :
  especimenes_dept key (paso_departamento dm m) =
  if en_departamento key m
  then Some (S (match especimenes_dept key dm with Some n => n | None => 0 end))
  else especimenes_dept key dm.
Proof.
  unfold especimenes_dept, paso_departamento, en_departamento, nombre_departamento.
  destruct (departamento_de (muestra_paquete m)) as [d|]; simpl; [|reflexivity].
  now rewrite measure_step.
Qed.

Lemma especimenes_dept_fold (key : string) (ms : list Muestra)
    (dm : list (string * DeptData)) :
  especimenes_dept key (fold_left paso_departamento ms dm) =
  match List.length (filter (en_departamento key) ms) with
  | 0 => especimenes_dept key dm
  | S c => Some (match especimenes_dept key dm with Some n => n | None => 0 end
                 + S c)
  end.
Proof.
  revert dm; induction ms as [|m ms IH]; intros dm; simpl; [reflexivity|].
  rewrite IH, especimenes_dept_paso.
  destruct (en_departamento key m); simpl; [|reflexivity].
  destruct (List.length (filter (en_departamento key) ms)); f_equal; lia.
Qed.


Lemma bien_formado_paso (dm : list (string * DeptData)) (m : Muestra) :
  bien_formado dm -> bien_formado (paso_departamento dm m).
Proof.
  intros [Hnd Hn]. unfold paso_departamento.
  destruct (departamento_de (muestra_paquete m)) as [d|]; [|now split].
  split.
  - apply NoDup_keys_update. now apply NoDup_keys_ensure.
  - apply Forall_update; [intros v Hv; exact Hv|].
    apply Forall_ensure; [reflexivity | assumption].
Qed.

Lemma bien_formado_fold (ms : list Muestra) (dm : list (string * DeptData)) :
  bien_formado dm -> bien_formado (fold_left paso_departamento ms dm).
Proof.
  revert dm; induction ms as [|m ms IH]; intros dm H; simpl; [assumption|].
  apply IH. now apply bien_formado_paso.
Qed.

Lemma agregar_especie_dept (key : string) (clasificadas : list Muestra)
    (mapas : Mapas) (c : Clasificacion) :
  especimenes_dept key (fst (agregar_especie clasificadas mapas c))
  = especimenes_dept key (fst mapas)
  /\ (bien_formado (fst mapas) ->
      bien_formado (fst (agregar_especie clasificadas mapas c))).
Proof.
  destruct mapas as [dm rm]. unfold agregar_especie.
  destruct (clasificacion_especie c) as [e|]; [|now split]. simpl.
  destruct (departamento_de _) as [d|]; [|now split].
  destruct (Js.truthy (especie_nombre e)); [|now split].
  split.
  - unfold especimenes_dept. rewrite get_update.
    destruct (departamento_nombre d =? key)%string; [|reflexivity].
    now destruct (get key dm).
  - intros [Hnd Hn]. split.
    + now apply NoDup_keys_update.
    + apply Forall_update; [intros v Hv; exact Hv | assumption].
Qed.

Lemma fold_agregar_dept (key : string) (clasificadas : list Muestra)
    (cs : list Clasificacion) (mapas : Mapas) :
  especimenes_dept key (fst (fold_left (agregar_especie clasificadas) cs mapas))
  = especimenes_dept key (fst mapas)
  /\ (bien_formado (fst mapas) ->
      bien_formado (fst (fold_left (agregar_especie clasificadas) cs mapas))).
Proof.
  revert mapas; induction cs as [|c cs IH]; intros mapas; simpl; [now split|].
  destruct (IH (agregar_especie clasificadas mapas c)) as [E B].
  destruct (agregar_especie_dept key clasificadas mapas c) as [E' B'].
  split; [now rewrite E, E' | auto].
Qed.

Lemma departamentos_mapas (clasificadas : list Muestra) (cs : list Clasificacion) :
  bien_formado (fst (mapas_de clasificadas cs))
  /\ forall key,
       especimenes_dept key (fst (mapas_de clasificadas cs))
       = some_pos (List.length (filter (en_departamento key) clasificadas)).
Proof.
  unfold mapas_de. split.
  - apply fold_agregar_dept; [exact ""|].
    rewrite fst_fold_agrupar. apply bien_formado_fold.
    split; constructor.
  - intros key.
    destruct (fold_agregar_dept key clasificadas cs
                (fold_left agrupar_muestra clasificadas ([], []))) as [E _].
    rewrite E, fst_fold_agrupar, especimenes_dept_fold. simpl.
    now destruct (List.length _).
Qed.

Lemma departamentos_eq (muestras : option (list Muestra))
    (clasificaciones : option (list Clasificacion)) :
  let conEspecie := clasificacionesConEspecie clasificaciones in
  let clasificadas := muestrasClasificadas muestras conEspecie in
  departamentos (estadisticas muestras clasificaciones) =
  firstn 10
    (sort_desc do_specimens
       (map (fun kv =>
               let d := snd kv in
               {| do_name := dd_name d;
                  do_specimens := dd_specimens d;
                  do_species := List.length (dd_species d);
                  do_percentage :=
                    percentage_of (dd_specimens d) (List.length clasificadas) |})
          (fst (mapas_de clasificadas conEspecie)))).
Proof.
  cbv zeta. unfold estadisticas. now destruct (mapas_de _ _) as [dm rm].
Qed.

(** X4: [GET /estadisticas] answers at most ten departments, in
    descending order of their specimens, no name twice; the specimens of
    each are the classified samples of that department, at least one,
    and its percentage is [Math.round(specimens / total_especimenes *
    100)]. *)
Theorem X4_departamentos_top (muestras : option (list Muestra))
    (clasificaciones : option (list Clasificacion)) :
  let clasificadas :=
    muestrasClasificadas muestras (clasificacionesConEspecie clasificaciones) in
  let r := estadisticas muestras clasificaciones in
  List.length (departamentos r) <= 10
  /\ descendente do_specimens (departamentos r)
  /\ NoDup (map do_name (departamentos r))
  /\ forall d, In d (departamentos r) ->
       do_specimens d
       = List.length (filter (en_departamento (do_name d)) clasificadas)
       /\ 0 < do_specimens d
       /\ do_percentage d
          = Js.Math_round (Js.ratio100 (do_specimens d) (total_especimenes r)).
Proof.
  cbv zeta. rewrite departamentos_eq.
  destruct (regiones_estadisticas muestras clasificaciones) as [_ Ht].
  cbv zeta in Ht. rewrite Ht. clear Ht.
  set (cs := clasificacionesConEspecie clasificaciones).
  set (cl := muestrasClasificadas muestras cs).
  destruct (departamentos_mapas cl cs) as [[Hnd Hn] Hs].
  set (dm := fst (mapas_de cl cs)) in *.
  set (mk := fun kv : string * DeptData => _).
  assert (Hnames : map do_name (map mk dm) = map fst dm).
  { rewrite map_map. apply map_ext_in. intros kv Hkv. unfold mk. simpl.
    unfold nombrado in Hn. rewrite Forall_forall in Hn. now apply Hn. }
  split; [apply firstn_le_length|].
  split; [apply descendente_firstn, descendente_sort|].
  split.
  - rewrite <- firstn_map. apply NoDup_firstn.
    apply (Permutation_NoDup (l := map do_name (map mk dm))).
    + apply Permutation_map. symmetry. apply Permutation_sort_desc.
    + now rewrite Hnames.
  - intros d Hd. apply In_firstn, In_sort_desc, in_map_iff in Hd.
    destruct Hd as [[k v] [<- Hin]]. unfold mk. simpl.
    assert (Hk : dd_name v = k).
    { unfold nombrado in Hn. rewrite Forall_forall in Hn. apply (Hn (k, v) Hin). }
    rewrite Hk.
    pose proof (Hs k) as Hsk. unfold especimenes_dept in Hsk.
    rewrite (NoDup_In_get k v dm Hnd Hin) in Hsk. simpl in Hsk.
    destruct (List.length (filter (en_departamento k) cl)) as [|n] eqn:En;
      simpl in Hsk; [discriminate|].
    inversion Hsk as [Hv]. split; [reflexivity|]. split; [lia|].
    unfold percentage_of.
    destruct cl as [|m cl']; [simpl in En; discriminate | reflexivity].
Qed.

(** ** The five regions *)


Lemma NoDup_keys_paso_region (rm : list (string * RegionData)) (m : Muestra) :
  NoDup (map fst rm) -> NoDup (map fst (paso_region rm m)).
Proof.
  intros H. unfold paso_region.
  destruct (region_de _) as [r|]; [|assumption].
  apply NoDup_keys_update. now apply NoDup_keys_ensure.
Qed.

Lemma keys_agregar_especie (clasificadas : list Muestra) (mapas : Mapas)
    (c : Clasificacion) :
  map fst (snd (agregar_especie clasificadas mapas c)) = map fst (snd mapas).
Proof.
  destruct mapas as [dm rm]. unfold agregar_especie.
  destruct (clasificacion_especie c) as [e|]; [|reflexivity]. simpl.
  destruct (region_de _) as [r|]; [|reflexivity].
  apply keys_update.
Qed.

Lemma NoDup_keys_fold_region (ms : list Muestra)
    (rm : list (string * RegionData)) :
  NoDup (map fst rm) -> NoDup (map fst (fold_left paso_region ms rm)).
Proof.
  revert rm; induction ms as [|m ms IH]; intros rm H; simpl; [assumption|].
  apply IH. now apply NoDup_keys_paso_region.
Qed.

Lemma NoDup_keys_mapas_region (clasificadas : list Muestra)
    (cs : list Clasificacion) :
  NoDup (map fst (snd (mapas_de clasificadas cs))).
Proof.
  unfold mapas_de.
  assert (H : NoDup (map fst (snd (fold_left agrupar_muestra clasificadas
                                     (@nil (string * DeptData),
                                      @nil (string * RegionData)))))).
  { rewrite snd_fold_agrupar. apply NoDup_keys_fold_region. constructor. }
  revert H. generalize (fold_left agrupar_muestra clasificadas ([], [])).
  induction cs as [|c cs IH]; intros mapas H; simpl; [assumption|].
  apply IH. now rewrite keys_agregar_especie.
Qed.

Lemma buscar_region_clave (rm : list (string * RegionData)) (b : string) :
  NoDup (map fst rm) ->
  buscar_region rm b =
  match clave_region rm b with
  | Some k => get k rm
  | None => None
  end.
Proof.
  intros Hnd. unfold buscar_region, clave_region, has.
  destruct (get b rm) as [d|] eqn:E1; [now rewrite E1|].
  destruct (get ("Región " ++ b)%string rm) as [d|] eqn:E2; [now rewrite E2|].
  destruct (find _ rm) as [[k d]|] eqn:E3; simpl; [|reflexivity].
  apply find_some in E3. destruct E3 as [Hin _].
  symmetry. now apply NoDup_In_get.
Qed.

Lemma clave_region_normaliza (rm : list (string * RegionData)) (b k : string) :
  In b regionesBase ->
  clave_region rm b = Some k ->
  normalizarRegion (Some k) = Some b.
Proof.
  intros Hb. destruct (base_normaliza b Hb) as [Hn Hrn].
  unfold clave_region.
  destruct (has b rm); [intros E; inversion E; now subst|].
  destruct (has ("Región " ++ b)%string rm); [intros E; inversion E; now subst|].
  destruct (find _ rm) as [[k' d]|] eqn:E3; cbn [option_map fst];
    [|discriminate].
  intros E; inversion E; subst k'.
  apply find_some in E3. destruct E3 as [_ Hk]. cbn [fst] in Hk.
  destruct (normalizarRegion (Some k)) as [n|]; [|discriminate].
  apply String.eqb_eq in Hk. now subst n.
Qed.


Lemma cuenta_claves_cons (ks : list string) (m : Muestra) (ms : list Muestra) :
  cuenta_claves ks (m :: ms) =
  List.length (filter (fun k => en_region_almacenada k m) ks)
  + cuenta_claves ks ms.
Proof.
  unfold cuenta_claves, list_sum. induction ks as [|k ks IH]; [reflexivity|].
  cbn [map fold_right]. rewrite IH. cbn [filter].
  destruct (en_region_almacenada k m); cbn [List.length]; lia.
Qed.

Lemma una_clave (ks : list string) (m : Muestra) :
  NoDup ks ->
  List.length (filter (fun k => en_region_almacenada k m) ks) <= 1.
Proof.
  unfold en_region_almacenada.
  destruct (nombre_region m) as [r|].
  - induction 1 as [|k ks Hk Hnd IH]; simpl; [lia|].
    destruct (String.eqb_spec r k) as [-> | Hne]; [|exact IH].
    simpl. rewrite filter_nothing; [simpl; lia|].
    intros k' Hk'. apply String.eqb_neq. intros ->. contradiction.
  - intros _. rewrite filter_nothing; [simpl; lia | reflexivity].
Qed.

Lemma cuenta_claves_le (ks : list string) (ms : list Muestra) :
  NoDup ks -> cuenta_claves ks ms <= List.length ms.
Proof.
  intros Hnd. induction ms as [|m ms IH].
  - unfold cuenta_claves. induction ks; simpl; [lia|].
    inversion Hnd; subst. auto.
  - rewrite cuenta_claves_cons. pose proof (una_clave ks m Hnd). simpl. lia.
Qed.


Lemma claves_normalizan (rm : list (string * RegionData)) (bs : list string)
    (k : string) :
  (forall b, In b bs -> In b regionesBase) ->
  In k (claves rm bs) ->
  exists b, In b bs /\ normalizarRegion (Some k) = Some b.
Proof.
  induction bs as [|b bs IH]; cbn [claves]; intros Hbs Hk; [contradiction|].
  assert (Hbs' : forall b', In b' bs -> In b' regionesBase)
    by (intros b' Hb'; apply Hbs; now right).
  assert (Hb : In b regionesBase) by (apply Hbs; now left).
  destruct (clave_region rm b) as [k'|] eqn:E.
  - destruct Hk as [<- | Hk].
    + exists b. split; [now left|].
      now apply (clave_region_normaliza rm b k').
    + destruct (IH Hbs' Hk) as [b' [Hb' Hn]]. exists b'. split; [now right|].
      exact Hn.
  - destruct (IH Hbs' Hk) as [b' [Hb' Hn]]. exists b'. split; [now right|].
    exact Hn.
Qed.

Lemma NoDup_claves (rm : list (string * RegionData)) (bs : list string) :
  (forall b, In b bs -> In b regionesBase) ->
  NoDup bs -> NoDup (claves rm bs).
Proof.
  induction bs as [|b bs IH]; cbn [claves]; intros Hbs Hnd; [constructor|].
  assert (Hbs' : forall b', In b' bs -> In b' regionesBase)
    by (intros b' Hb'; apply Hbs; now right).
  assert (Hb : In b regionesBase) by (apply Hbs; now left).
  inversion Hnd as [|? ? Hnb Hnd']; subst.
  destruct (clave_region rm b) as [k|] eqn:E; [|now apply IH].
  constructor; [|now apply IH].
  intros Hin. apply claves_normalizan in Hin; [|exact Hbs'].
  destruct Hin as [b' [Hb' Hn]].
  rewrite (clave_region_normaliza rm b k Hb E) in Hn.
  inversion Hn; subst. contradiction.
Qed.

Lemma specimens_claves (total : nat) (clasificadas : list Muestra)
    (rm : list (string * RegionData)) (bs : list string) :
  NoDup (map fst rm) ->
  (forall key,
     especimenes key rm =
     some_pos (List.length (filter (en_region_almacenada key) clasificadas))) ->
  list_sum (map ro_specimens (map (region_out total rm) bs))
  = cuenta_claves (claves rm bs) clasificadas.
Proof.
  intros Hnd Hrm. induction bs as [|b bs IH]; simpl; [reflexivity|].
  rewrite IH.
  destruct (region_out_specimens total rm b) as [-> _].
  rewrite (buscar_region_clave rm b Hnd).
  destruct (clave_region rm b) as [k|] eqn:E; [|reflexivity].
  unfold cuenta_claves at 2. simpl. fold (cuenta_claves (claves rm bs) clasificadas).
  f_equal. pose proof (Hrm k) as Hk. unfold especimenes in Hk.
  destruct (get k rm) as [d|]; simpl in Hk.
  - destruct (List.length _); simpl in Hk; [discriminate | now inversion Hk].
  - destruct (List.length _); simpl in Hk; [reflexivity | discriminate].
Qed.

Lemma NoDup_regionesBase : NoDup regionesBase.
Proof.
  unfold regionesBase.
  repeat (constructor; [simpl; intuition discriminate|]). constructor.
Qed.

(** X5: [GET /estadisticas] always answers the five fixed regions, in
    their fixed order, and the specimens of the five together are at
    most [total_especimenes]: no classified sample is counted in two
    regions. *)
Theorem X5_regiones_fijas (muestras : option (list Muestra))
    (clasificaciones : option (list Clasificacion)) :
  let r := estadisticas muestras clasificaciones in
  map ro_name (regiones r) = regionesBase
  /\ list_sum (map ro_specimens (regiones r)) <= total_especimenes r.
Proof.
  cbv zeta.
  destruct (regiones_estadisticas muestras clasificaciones) as [Hr Ht].
  cbv zeta in Hr, Ht. rewrite Hr, Ht. clear Hr Ht.
  set (cs := clasificacionesConEspecie clasificaciones).
  set (cl := muestrasClasificadas muestras cs).
  split.
  - rewrite map_map. rewrite <- (map_id regionesBase) at 2.
    apply map_ext. intros b. apply region_out_name.
  - rewrite (specimens_claves _ cl).
    + apply cuenta_claves_le. apply NoDup_claves; [auto|].
      apply NoDup_regionesBase.
    + apply NoDup_keys_mapas_region.
    + intros key. apply especimenes_mapas.
Qed.

End LabMedidasFacts.

(* ================================================================== *)
(** * Properties of the priorities, the confidence and the filters *)
(* ================================================================== *)

Module LabAlgoritmosFacts.
Import JsMore LabAlgoritmos LabDto.

(** ** Difficulty *)

Lemma nivel_de_dificultad (m : MuestraPendiente) :
  In (determinarDificultadClasificacion m) ["Fácil"; "Moderada"; "Difícil"].
Proof.
  unfold determinarDificultadClasificacion.
  destruct (verdadero (mp_familia_identificada m)),
           (verdadero (mp_genero_identificado m)),
           (ausente_o_mas_corto_que 10 (mp_observaciones m)),
           (mas_largo_que 50 (mp_observaciones m)); cbn; tauto.
Qed.

(** X18: [determinarDificultadClasificacion] answers one of its three
    levels; a sample with both family and genus identified is [Fácil]
    and one with neither is [Difícil], whatever its observations. *)
Theorem X18_dificultad_por_identificacion (m : MuestraPendiente) :
  In (determinarDificultadClasificacion m) ["Fácil"; "Moderada"; "Difícil"]
  /\ (verdadero (mp_familia_identificada m) = true ->
      verdadero (mp_genero_identificado m) = true ->
      determinarDificultadClasificacion m = "Fácil")
  /\ (verdadero (mp_familia_identificada m) = false ->
      verdadero (mp_genero_identificado m) = false ->
      determinarDificultadClasificacion m = "Difícil").
Proof.
  unfold determinarDificultadClasificacion.
  destruct (verdadero (mp_familia_identificada m)),
           (verdadero (mp_genero_identificado m)),
           (ausente_o_mas_corto_que 10 (mp_observaciones m)),
           (mas_largo_que 50 (mp_observaciones m)); cbn;
    repeat split; intros; try discriminate; try reflexivity; tauto.
Qed.

Lemma distribucion_fold (ms : list MuestraConPrioridad) (a b c : nat) :
  (forall m, In m ms ->
     In (nivel_dificultad m) ["Fácil"; "Moderada"; "Difícil"]) ->
  fold_left (fun distribucion m => mas_uno distribucion (nivel_dificultad m)) ms
    [("Fácil", Some a); ("Moderada", Some b); ("Difícil", Some c)]
  = [("Fácil", Some (a + cuenta_nivel "Fácil" ms));
     ("Moderada", Some (b + cuenta_nivel "Moderada" ms));
     ("Difícil", Some (c + cuenta_nivel "Difícil" ms))].
Proof.
  unfold cuenta_nivel.
  revert a b c; induction ms as [|m ms IH]; intros a b c H.
  - simpl. now rewrite !Nat.add_0_r.
  - cbn [fold_left filter].
    assert (Hm : In (nivel_dificultad m) ["Fácil"; "Moderada"; "Difícil"])
      by (apply H; now left).
    assert (Hms : forall m', In m' ms ->
              In (nivel_dificultad m') ["Fácil"; "Moderada"; "Difícil"])
      by (intros m' Hm'; apply H; now right).
    simpl in Hm. destruct Hm as [E | [E | [E | []]]]; rewrite <- E;
      cbn; rewrite (IH _ _ _ Hms);
      repeat match goal with
             | |- @eq nat _ _ => lia
             | _ => f_equal
             end.
Qed.

(** X19: over the samples [GET /muestras/pendientes] has given their
    level, [calcularDistribucionDificultad] answers the three keys with
    the number of samples of each level, no key is [NaN], and the three
    counts add up to the number of samples. *)
Theorem X19_distribucion_dificultad (dias : MuestraPendiente -> option Z)
    (muestras : list MuestraPendiente) :
  let conPrioridad := map (fun m => priorizar (dias m) m) muestras in
  exists a b c,
    calcularDistribucionDificultad conPrioridad
    = [("Fácil", Some a); ("Moderada", Some b); ("Difícil", Some c)]
    /\ a = cuenta_nivel "Fácil" conPrioridad
    /\ b = cuenta_nivel "Moderada" conPrioridad
    /\ c = cuenta_nivel "Difícil" conPrioridad
    /\ a + b + c = List.length muestras.
Proof.
  cbv zeta. set (cp := map _ muestras).
  assert (H : forall m, In m cp ->
            In (nivel_dificultad m) ["Fácil"; "Moderada"; "Difícil"]).
  { intros m Hm. unfold cp in Hm. apply in_map_iff in Hm.
    destruct Hm as [m0 [<- _]]. cbn [nivel_dificultad priorizar].
    apply nivel_de_dificultad. }
  unfold calcularDistribucionDificultad. rewrite (distribucion_fold cp 0 0 0 H).
  do 3 eexists. split; [reflexivity|]. repeat split.
  cbn [Nat.add]. unfold cuenta_nivel.
  replace (List.length muestras) with (List.length cp)
    by (unfold cp; apply length_map).
  clear -H. induction cp as [|m cp IH]; [reflexivity|].
  assert (Hm : In (nivel_dificultad m) ["Fácil"; "Moderada"; "Difícil"])
    by (apply H; now left).
  assert (Hcp : forall m', In m' cp ->
            In (nivel_dificultad m') ["Fácil"; "Moderada"; "Difícil"])
    by (intros m' Hm'; apply H; now right).
  specialize (IH Hcp). cbn [filter List.length].
  simpl in Hm. destruct Hm as [E | [E | [E | []]]]; rewrite <- E; cbn; lia.
Qed.

(** ** Priority *)

(** X20: the priority [GET /muestras/pendientes] gives a sample lies
    between -10 and 100, and it is a high priority (above 40) exactly
    when the sample is older than 30 days and has a family, is in
    process or has observations, or is not older and has all three. *)
Theorem X20_prioridad_acotada (dias : option Z) (m : MuestraPendiente) :
  let p := prioridad (priorizar dias m) in
  let antigua := match dias with Some d => (30 <? d)%Z | None => false end in
  let familia := verdadero (mp_familia_identificada m) in
  let en_proceso :=
    match mp_estado_muestra m with
    | Some e => (e =? "en_proceso")%string
    | None => false
    end in
  let observada := negb (sin_observaciones (mp_observaciones m)) in
  (-10 <= p <= 100)%Z
  /\ ((40 <? p)%Z =
      if antigua then familia || en_proceso || observada
      else familia && en_proceso && observada).
Proof.
  cbv zeta. unfold priorizar. cbn [prioridad].
  destruct dias as [d|]; [destruct (30 <? d)%Z|];
    destruct (verdadero (mp_familia_identificada m));
    (destruct (mp_estado_muestra m) as [e|];
       [destruct (e =? "en_proceso")%string|]);
    destruct (sin_observaciones (mp_observaciones m)); cbn;
    split; try lia; reflexivity.
Qed.

(** ** Confidence and observations *)

(** X21: [calcularNivelConfianza] answers between 50 and 95: the
    clamp to 0..100 never acts; 95 is reached exactly when the
    reproductive state is given, the observations are longer than 20
    and the family is the one identified before. *)
Theorem X21_confianza_acotada (clasificacion : CuerpoClasificacion)
    (familia_identificada : Campo) :
  let c := calcularNivelConfianza clasificacion familia_identificada in
  (50 <= c <= 95)%Z
  /\ (c = 95%Z <->
      cierto (cc_estado_reproductivo clasificacion) = true
      /\ mas_largo_que 20
           (match cc_observaciones_clasificacion clasificacion with
            | Texto s => Some s
            | _ => None
            end) = true
      /\ identico familia_identificada (cc_familia clasificacion) = true).
Proof.
  cbv zeta. unfold calcularNivelConfianza, mas_largo_que.
  destruct (cierto (cc_estado_reproductivo clasificacion));
    (destruct (cc_observaciones_clasificacion clasificacion) as [| |s];
       [| |destruct (Js.truthy s && (20 <? length16 s))]);
    destruct (identico familia_identificada (cc_familia clasificacion));
    cbn; split; try lia; split; intros H; try discriminate H;
    try (destruct H as [H1 [H2 H3]]; discriminate); auto.
Qed.

(** X22: [generarObservacionesAlgoritmo] answers the empty string
    exactly when the family identified before is absent or the same as
    the classification's, and [nivel_confianza] is absent from the body
    or at least 70. *)
Theorem X22_observaciones_vacias (clasificacion : CuerpoClasificacion)
    (familia_identificada : Campo) :
  let discrepancia :=
    cierto familia_identificada
    && negb (identico familia_identificada (cc_familia clasificacion)) in
  let baja :=
    match cc_nivel_confianza clasificacion with
    | Some n => (n <? 70)%Z
    | None => false
    end in
  generarObservacionesAlgoritmo clasificacion familia_identificada = ""
  <-> discrepancia = false /\ baja = false.
Proof.
  cbv zeta. unfold generarObservacionesAlgoritmo.
  destruct (cierto familia_identificada
            && negb (identico familia_identificada (cc_familia clasificacion)));
    (destruct (cc_nivel_confianza clasificacion) as [n|];
       [destruct (n <? 70)%Z|]); cbn; split; intros H;
    try discriminate H; try (destruct H; discriminate); auto.
Qed.

(** ** Filters *)

(** X23: [validateFiltrosMuestras] answers a [limit] that is at most
    100 and never 0 or [NaN] (20 when the parameter is absent), an
    [offset] that is never negative or [NaN], an [estado] only when it
    is one of the three valid states, and never a [NaN] conglomerate. *)
Theorem X23_filtros_acotados (fecha_iso : string -> option string)
    (query : Query) :
  let f := validateFiltrosMuestras fecha_iso query in
  limite_valido (f_limit f)
  /\ desplazamiento_valido (f_offset f)
  /\ (q_limit query = None -> f_limit f = DInt 20)
  /\ (forall e, f_estado f = Some e -> In e estadosValidos)
  /\ f_conglomerado f <> Some DNaN.
Proof.
  cbv zeta. unfold validateFiltrosMuestras. cbn.
  split; [|split; [|split; [|split]]].
  - unfold limite_valido, Math_min, o.
    destruct (parseInt_campo (q_limit query)) as [|[|]|[|p|p]]; cbn; auto;
      split; try lia; try discriminate.
  - unfold desplazamiento_valido, Math_max, o.
    destruct (parseInt_campo (q_offset query)) as [|[|]|[|p|p]]; cbn; auto; lia.
  - intros ->. reflexivity.
  - intros e E. destruct (q_estado query) as [e0|]; cbn in E; [|discriminate E].
    match type of E with
    | (if ?c then _ else _) = _ => destruct c eqn:Hc
    end; [|discriminate E].
    inversion E; subst e0.
    apply andb_true_iff in Hc. destruct Hc as [_ Hc].
    rewrite !orb_true_iff, !String.eqb_eq in Hc.
    destruct Hc as [Hc | [Hc | [Hc | Hc]]]; try discriminate Hc; auto.
  - intros E. destruct (q_conglomerado query) as [c|]; cbn in E;
      [|discriminate E].
    destruct (Js.truthy c); cbn in E; [|discriminate E].
    destruct (parseInt c); cbn in E; discriminate E.
Qed.

End LabAlgoritmosFacts.
